(** * Stripe mirroring component: webhook handlers, event router, endpoint

    A shallow embedding of the Convex component that mirrors Stripe state
    (customers, subscriptions, checkout sessions, payments, invoices) into
    Convex tables, and of the webhook endpoint that feeds it.

    Sources embedded here:
    - the internal mutations ([handleCustomerCreated] ... [updatePaymentCustomer]),
    - [src/component/public.ts] ([listSubscriptions], [createOrUpdateCustomer],
      [updateSubscriptionMetadata]),
    - [src/client/index.ts] ([processEvent], the handler installed by
      [registerRoutes], and the methods of the [StripeSubscriptions] client),
    - the public queries and the action [updateSubscriptionQuantity] of
      [src/component/public.ts],
    - the ownership checks of the example application. *)

From stdpp Require Import gmap strings list fin_maps sorting.
From Stdlib Require Import ZArith QArith Lia.

Local Open Scope string_scope.
Local Open Scope list_scope.
Local Open Scope nat_scope.

(** ** JavaScript values and objects *)

(** The values that documents and argument objects hold.  A metadata bag is
    Stripe's [Metadata]: a flat object from strings to strings. *)
Inductive value :=
  | VNull
  | VBool (b : bool)
  | VNum (n : Z)
  | VStr (s : string)
  | VObj (o : gmap string string).

#[global] Instance value_eq_dec : EqDecision value.
Proof. solve_decision. Defined.

(** An object is a finite map from property names to values; reading a
    property that is not there gives [None], JavaScript's [undefined]. *)
Abbreviation obj := (gmap string value).
Abbreviation Metadata := (gmap string string).

(** JavaScript truthiness of a property read. *)
Definition truthy (v : option value) : bool :=
  match v with
  | None | Some VNull => false
  | Some (VBool b) => b
  | Some (VNum n) => negb (n =? 0)%Z
  | Some (VStr s) => negb (String.eqb s "")
  | Some (VObj _) => true
  end.

(** Truthiness of an optional string ([undefined], [null] and [""] are falsy). *)
Definition truthy_str (s : option string) : bool :=
  match s with
  | Some s => negb (String.eqb s "")
  | None => false
  end.

(** [a || b] on optional strings. *)
Definition or_str (a b : option string) : option string :=
  if truthy_str a then a else b.

(** An object literal as it is written: properties in order, a property
    whose value is [undefined] written as [None]. *)
Definition literal := list (string * option value).

Definition set_field (o : obj) (kv : string * option value) : obj :=
  match kv.2 with
  | Some v => <[kv.1 := v]> o
  | None => delete kv.1 o
  end.

(** The object a literal denotes once it crosses the Convex boundary:
    properties set to [undefined] are dropped. *)
Definition to_doc (p : literal) : obj := foldl set_field ∅ p.

(** [db.patch]: shallow merge; new properties are added, existing ones
    overwritten, and properties set to [undefined] are removed. *)
Definition patch_doc (d : obj) (p : literal) : obj := foldl set_field d p.

(** [...(cond && { k: v })] inside an object literal. *)
Definition spread_if (cond : bool) (p : literal) : literal :=
  if cond then p else [].

Definition str (s : string) : option value := Some (VStr s).
Definition num (n : Z) : option value := Some (VNum n).
Definition boolean (b : bool) : option value := Some (VBool b).
Definition opt_str (s : option string) : option value := VStr <$> s.
Definition opt_num (n : option Z) : option value := VNum <$> n.
Definition opt_obj (m : option Metadata) : option value := VObj <$> m.

(** ** Results *)

Inductive Result (A : Type) :=
  | Ok (a : A)
  | Err (msg : string).
Arguments Ok {A} a.
Arguments Err {A} msg.

#[global] Instance Result_eq_dec {A} `{EqDecision A} : EqDecision (Result A).
Proof. solve_decision. Defined.

Definition rbind {A B} (r : Result A) (k : A → Result B) : Result B :=
  match r with
  | Ok a => k a
  | Err e => Err e
  end.

Notation "x <-? r ;; k" := (rbind r (fun x => k))
  (at level 100, r at next level, right associativity).

(** ** The document store *)

(** A table maps document ids to documents; a stored document holds the
    user fields and the system field [_creationTime] (milliseconds since
    the epoch).  The system field [_id] is the key of the map: a document
    as JavaScript sees it is the pair of its id and its fields. *)
Abbreviation Table := (gmap nat obj).
Abbreviation Store := (gmap string (gmap nat obj)).
Definition Doc : Type := nat * obj.

Definition table (name : string) (st : Store) : Table := default ∅ (st !! name).

(** [.withIndex(ix, q => q.eq(field, v))]: the documents whose [field] is [v]. *)
Definition withIndex (field : string) (v : value) (t : Table) : Table :=
  filter (λ d : nat * obj, d.2 !! field = Some v) t.

(** [.collect()]. *)
Definition collect (r : Table) : list Doc := map_to_list r.

(** [.unique()]: the one match, [null] when there is none; it throws when
    the query matches more than one document. *)
Definition unique (r : Table) : Result (option Doc) :=
  match map_to_list r with
  | [] => Ok None
  | [d] => Ok (Some d)
  | _ => Err "unique() query returned more than one result"
  end.

(** [db.insert(name, literal)] at time [now]: a fresh id, the system
    creation time, and the literal's defined properties. *)
Definition db_insert (name : string) (p : literal) (now : Z) (st : Store) : Store :=
  let t := table name st in
  <[name := <[fresh (dom t) := <["_creationTime" := VNum now]> (to_doc p)]> t]> st.

(** [db.patch(id, literal)] for a document of table [name]. *)
Definition db_patch (name : string) (id : nat) (p : literal) (st : Store) : Store :=
  <[name := alter (λ d, patch_doc d p) id (table name st)]> st.

(** A mutation is a transaction: it either commits a new store or throws
    and leaves the store as it was. *)
Definition Mutation : Type := Z → Store → Result Store.


(** [x !== undefined]. *)
Definition defined {A} (o : option A) : bool :=
  match o with
  | Some _ => true
  | None => false
  end.

(** ** Internal mutations (webhook handlers) *)

(** Each handler's argument record holds arguments that passed the handler's
    [args] validator, and a metadata bag whose values are strings, as
    Stripe's are ([v.any()] would admit more).  A call whose arguments do
    not match the validator throws before the handler runs: the router
    shows the one place where that happens ([v_optional_string] below). *)

Record QuantityArgs := {
  qa_stripeSubscriptionId : string;
  qa_quantity : Z }.

Definition updateSubscriptionQuantityInternal (args : QuantityArgs) : Mutation :=
  λ now st,
  subscription <-? unique (withIndex "stripeSubscriptionId"
                     (VStr (qa_stripeSubscriptionId args)) (table "subscriptions" st)) ;;
  match subscription with
  | Some d => Ok (db_patch "subscriptions" d.1 [("quantity", num (qa_quantity args))] st)
  | None => Ok st
  end.

Record CustomerArgs := {
  cu_stripeCustomerId : string;
  cu_email : option string;
  cu_name : option string;
  cu_metadata : option Metadata }.

Definition handleCustomerCreated (args : CustomerArgs) : Mutation :=
  λ now st,
  existing <-? unique (withIndex "stripeCustomerId"
                 (VStr (cu_stripeCustomerId args)) (table "customers" st)) ;;
  match existing with
  | None =>
      Ok (db_insert "customers"
            [("stripeCustomerId", str (cu_stripeCustomerId args));
             ("email", opt_str (cu_email args));
             ("name", opt_str (cu_name args));
             ("metadata", Some (VObj (default ∅ (cu_metadata args))))] now st)
  | Some _ => Ok st
  end.

Definition handleCustomerUpdated (args : CustomerArgs) : Mutation :=
  λ now st,
  customer <-? unique (withIndex "stripeCustomerId"
                 (VStr (cu_stripeCustomerId args)) (table "customers" st)) ;;
  match customer with
  | Some d =>
      Ok (db_patch "customers" d.1
            [("email", opt_str (cu_email args));
             ("name", opt_str (cu_name args));
             ("metadata", opt_obj (cu_metadata args))] st)
  | None => Ok st
  end.

Record SubscriptionCreatedArgs := {
  sc_stripeSubscriptionId : string;
  sc_stripeCustomerId : string;
  sc_status : string;
  sc_currentPeriodEnd : Z;
  sc_cancelAtPeriodEnd : bool;
  sc_quantity : option Z;
  sc_priceId : string;
  sc_metadata : option Metadata }.

Definition handleSubscriptionCreated (args : SubscriptionCreatedArgs) : Mutation :=
  λ now st,
  existing <-? unique (withIndex "stripeSubscriptionId"
                 (VStr (sc_stripeSubscriptionId args)) (table "subscriptions" st)) ;;
  match existing with
  | None =>
      let metadata : Metadata := default ∅ (sc_metadata args) in
      let orgId := metadata !! "orgId" in
      let userId := metadata !! "userId" in
      Ok (db_insert "subscriptions"
            [("stripeSubscriptionId", str (sc_stripeSubscriptionId args));
             ("stripeCustomerId", str (sc_stripeCustomerId args));
             ("status", str (sc_status args));
             ("currentPeriodEnd", num (sc_currentPeriodEnd args));
             ("cancelAtPeriodEnd", boolean (sc_cancelAtPeriodEnd args));
             ("quantity", opt_num (sc_quantity args));
             ("priceId", str (sc_priceId args));
             ("metadata", Some (VObj metadata));
             ("orgId", opt_str orgId);
             ("userId", opt_str userId)] now st)
  | Some _ => Ok st
  end.

Record SubscriptionUpdatedArgs := {
  su_stripeSubscriptionId : string;
  su_status : string;
  su_currentPeriodEnd : Z;
  su_cancelAtPeriodEnd : bool;
  su_quantity : option Z;
  su_metadata : option Metadata }.

Definition handleSubscriptionUpdated (args : SubscriptionUpdatedArgs) : Mutation :=
  λ now st,
  subscription <-? unique (withIndex "stripeSubscriptionId"
                     (VStr (su_stripeSubscriptionId args)) (table "subscriptions" st)) ;;
  match subscription with
  | Some d =>
      let metadata : Metadata := default ∅ (su_metadata args) in
      let orgId := metadata !! "orgId" in
      let userId := metadata !! "userId" in
      Ok (db_patch "subscriptions" d.1
            ([("status", str (su_status args));
              ("currentPeriodEnd", num (su_currentPeriodEnd args));
              ("cancelAtPeriodEnd", boolean (su_cancelAtPeriodEnd args));
              ("quantity", opt_num (su_quantity args))]
             ++ spread_if (defined (su_metadata args)) [("metadata", Some (VObj metadata))]
             ++ spread_if (defined orgId) [("orgId", opt_str orgId)]
             ++ spread_if (defined userId) [("userId", opt_str userId)])%list st)
  | None => Ok st
  end.

Definition handleSubscriptionDeleted (stripeSubscriptionId : string) : Mutation :=
  λ now st,
  subscription <-? unique (withIndex "stripeSubscriptionId"
                     (VStr stripeSubscriptionId) (table "subscriptions" st)) ;;
  match subscription with
  | Some d => Ok (db_patch "subscriptions" d.1 [("status", str "canceled")] st)
  | None => Ok st
  end.

Record CheckoutSessionArgs := {
  co_stripeCheckoutSessionId : string;
  co_stripeCustomerId : option string;
  co_mode : string;
  co_metadata : option Metadata }.

Definition handleCheckoutSessionCompleted (args : CheckoutSessionArgs) : Mutation :=
  λ now st,
  existing <-? unique (withIndex "stripeCheckoutSessionId"
                 (VStr (co_stripeCheckoutSessionId args)) (table "checkout_sessions" st)) ;;
  match existing with
  | Some d =>
      Ok (db_patch "checkout_sessions" d.1
            [("status", str "complete");
             ("stripeCustomerId", opt_str (co_stripeCustomerId args))] st)
  | None =>
      Ok (db_insert "checkout_sessions"
            [("stripeCheckoutSessionId", str (co_stripeCheckoutSessionId args));
             ("stripeCustomerId", opt_str (co_stripeCustomerId args));
             ("status", str "complete");
             ("mode", str (co_mode args));
             ("metadata", Some (VObj (default ∅ (co_metadata args))))] now st)
  end.

Record InvoiceCreatedArgs := {
  ic_stripeInvoiceId : string;
  ic_stripeCustomerId : string;
  ic_stripeSubscriptionId : option string;
  ic_status : string;
  ic_amountDue : Z;
  ic_amountPaid : Z;
  ic_created : Z }.

Definition handleInvoiceCreated (args : InvoiceCreatedArgs) : Mutation :=
  λ now st,
  existing <-? unique (withIndex "stripeInvoiceId"
                 (VStr (ic_stripeInvoiceId args)) (table "invoices" st)) ;;
  match existing with
  | None =>
      linked <-? (if truthy_str (ic_stripeSubscriptionId args) then
                    subscription <-? unique (withIndex "stripeSubscriptionId"
                                       (VStr (default "" (ic_stripeSubscriptionId args)))
                                       (table "subscriptions" st)) ;;
                    match subscription with
                    | Some d => Ok (d.2 !! "orgId", d.2 !! "userId")
                    | None => Ok (None, None)
                    end
                  else Ok (None, None)) ;;
      Ok (db_insert "invoices"
            [("stripeInvoiceId", str (ic_stripeInvoiceId args));
             ("stripeCustomerId", str (ic_stripeCustomerId args));
             ("stripeSubscriptionId", opt_str (ic_stripeSubscriptionId args));
             ("status", str (ic_status args));
             ("amountDue", num (ic_amountDue args));
             ("amountPaid", num (ic_amountPaid args));
             ("created", num (ic_created args));
             ("orgId", linked.1);
             ("userId", linked.2)] now st)
  | Some _ => Ok st
  end.

Record InvoicePaidArgs := {
  ip_stripeInvoiceId : string;
  ip_amountPaid : Z }.

Definition handleInvoicePaid (args : InvoicePaidArgs) : Mutation :=
  λ now st,
  invoice <-? unique (withIndex "stripeInvoiceId"
                (VStr (ip_stripeInvoiceId args)) (table "invoices" st)) ;;
  match invoice with
  | Some d =>
      Ok (db_patch "invoices" d.1
            [("status", str "paid"); ("amountPaid", num (ip_amountPaid args))] st)
  | None => Ok st
  end.

Definition handleInvoicePaymentFailed (stripeInvoiceId : string) : Mutation :=
  λ now st,
  invoice <-? unique (withIndex "stripeInvoiceId"
                (VStr stripeInvoiceId) (table "invoices" st)) ;;
  match invoice with
  | Some d => Ok (db_patch "invoices" d.1 [("status", str "open")] st)
  | None => Ok st
  end.

Record PaymentIntentArgs := {
  pa_stripePaymentIntentId : string;
  pa_stripeCustomerId : option string;
  pa_amount : Z;
  pa_currency : string;
  pa_status : string;
  pa_created : Z;
  pa_metadata : option Metadata }.

Definition handlePaymentIntentSucceeded (args : PaymentIntentArgs) : Mutation :=
  λ now st,
  existing <-? unique (withIndex "stripePaymentIntentId"
                 (VStr (pa_stripePaymentIntentId args)) (table "payments" st)) ;;
  match existing with
  | None =>
      let metadata : Metadata := default ∅ (pa_metadata args) in
      let orgId := metadata !! "orgId" in
      let userId := metadata !! "userId" in
      Ok (db_insert "payments"
            [("stripePaymentIntentId", str (pa_stripePaymentIntentId args));
             ("stripeCustomerId", opt_str (pa_stripeCustomerId args));
             ("amount", num (pa_amount args));
             ("currency", str (pa_currency args));
             ("status", str (pa_status args));
             ("created", num (pa_created args));
             ("metadata", Some (VObj metadata));
             ("orgId", opt_str orgId);
             ("userId", opt_str userId)] now st)
  | Some d =>
      if truthy_str (pa_stripeCustomerId args)
         && negb (truthy (d.2 !! "stripeCustomerId"))
      then Ok (db_patch "payments" d.1
                 [("stripeCustomerId", opt_str (pa_stripeCustomerId args))] st)
      else Ok st
  end.

Record PaymentCustomerArgs := {
  pc_stripePaymentIntentId : string;
  pc_stripeCustomerId : string }.

Definition updatePaymentCustomer (args : PaymentCustomerArgs) : Mutation :=
  λ now st,
  payment <-? unique (withIndex "stripePaymentIntentId"
                (VStr (pc_stripePaymentIntentId args)) (table "payments" st)) ;;
  match payment with
  | Some d =>
      if negb (truthy (d.2 !! "stripeCustomerId"))
      then Ok (db_patch "payments" d.1
                 [("stripeCustomerId", str (pc_stripeCustomerId args))] st)
      else Ok st
  | None => Ok st
  end.

(** ** Public queries and mutations *)

(** [({ _id, _creationTime, ...data }) => data]: the document without its
    system fields.  Dropping the first component drops [_id]. *)
Definition without_system_fields (d : Doc) : obj := delete "_creationTime" d.2.

Definition listSubscriptions (stripeCustomerId : string) (st : Store) : list obj :=
  let subscriptions :=
    collect (withIndex "stripeCustomerId" (VStr stripeCustomerId) (table "subscriptions" st)) in
  map without_system_fields subscriptions.

Definition createOrUpdateCustomer (args : CustomerArgs) : Mutation :=
  λ now st,
  existing <-? unique (withIndex "stripeCustomerId"
                 (VStr (cu_stripeCustomerId args)) (table "customers" st)) ;;
  match existing with
  | Some d =>
      Ok (db_patch "customers" d.1
            [("email", opt_str (cu_email args));
             ("name", opt_str (cu_name args));
             ("metadata", opt_obj (cu_metadata args))] st)
  | None =>
      Ok (db_insert "customers"
            [("stripeCustomerId", str (cu_stripeCustomerId args));
             ("email", opt_str (cu_email args));
             ("name", opt_str (cu_name args));
             ("metadata", opt_obj (cu_metadata args))] now st)
  end.

Record SubscriptionMetadataArgs := {
  sm_stripeSubscriptionId : string;
  sm_metadata : value;
  sm_orgId : option string;
  sm_userId : option string }.

Definition updateSubscriptionMetadata (args : SubscriptionMetadataArgs) : Mutation :=
  λ now st,
  subscription <-? unique (withIndex "stripeSubscriptionId"
                     (VStr (sm_stripeSubscriptionId args)) (table "subscriptions" st)) ;;
  match subscription with
  | None =>
      Err ("Subscription " +:+ sm_stripeSubscriptionId args +:+ " not found in database")
  | Some d =>
      Ok (db_patch "subscriptions" d.1
            [("metadata", Some (sm_metadata args));
             ("orgId", opt_str (sm_orgId args));
             ("userId", opt_str (sm_userId args))] st)
  end.

(** ** Actions *)

(** An action is not a transaction: every mutation it runs commits on its
    own, so the store an action leaves behind is kept also when it throws. *)
Definition Action (A : Type) : Type := Store → Result A * Store.

Definition aret {A} (a : A) : Action A := λ st, (Ok a, st).

Definition abind {A B} (m : Action A) (k : A → Action B) : Action B :=
  λ st,
  match m st with
  | (Ok a, st') => k a st'
  | (Err e, st') => (Err e, st')
  end.

Notation "x <-! m ;; k" := (abind m (fun x => k))
  (at level 100, m at next level, right associativity).
Notation "m ;;! k" := (abind m (fun _ => k))
  (at level 100, right associativity).

(** [await ctx.runMutation(m, args)] at time [now]. *)
Definition runMutation (m : Mutation) (now : Z) : Action unit :=
  λ st,
  match m now st with
  | Ok st' => (Ok tt, st')
  | Err e => (Err e, st)
  end.

(** [await ctx.runQuery(q, args)]. *)
Definition runQuery {A} (q : Store → A) : Action A := λ st, (Ok (q st), st).

(** [try { a } catch (err) { console.error(...) }]. *)
Definition try_catch (a : Action unit) : Action unit :=
  λ st, let '(_, st') := a st in (Ok tt, st').

(** [if (c) { a }]. *)
Definition when (c : bool) (a : Action unit) : Action unit :=
  if c then a else aret tt.

(** ** Stripe objects and events *)

(** A property of a JSON object as JavaScript reads it: missing
    ([undefined]), [null], or a value. *)
Inductive Nullable (A : Type) : Type :=
  | Absent
  | Null
  | Present (a : A).

Arguments Absent {A}.
Arguments Null {A}.
Arguments Present {A} a.

(** The value, if there is one; [null] and [undefined] are both falsy. *)
Definition present {A} (x : Nullable A) : option A :=
  match x with
  | Present a => Some a
  | Absent | Null => None
  end.

Record Customer := {
  c_id : string;
  c_email : option string;
  c_name : option string;
  c_metadata : option Metadata }.

Record SubscriptionItem := {
  si_current_period_end : option Z;
  si_quantity : option Z;
  si_price_id : string }.

Record Subscription := {
  s_id : string;
  s_customer : string;
  s_status : string;
  s_items : list SubscriptionItem;
  s_cancel_at_period_end : option bool;
  s_latest_invoice : option string;
  s_metadata : option Metadata }.

Record Session := {
  cs_id : string;
  cs_customer : option string;
  cs_mode : option string;
  cs_payment_intent : option string;
  cs_subscription : option string;
  cs_metadata : option Metadata }.

Record Invoice := {
  inv_id : string;
  inv_customer : string;
  inv_subscription : Nullable string;
  inv_status : option string;
  inv_amount_due : Z;
  inv_amount_paid : Z;
  inv_created : Z }.

Record PaymentIntent := {
  pi_id : string;
  pi_customer : option string;
  pi_invoice : option string;
  pi_amount : Z;
  pi_currency : string;
  pi_status : string;
  pi_created : Z;
  pi_metadata : option Metadata }.

(** A verified event: its type and the object it carries. *)
Inductive Event :=
  | customer_created (customer : Customer)
  | customer_updated (customer : Customer)
  | customer_subscription_created (subscription : Subscription)
  | customer_subscription_updated (subscription : Subscription)
  | customer_subscription_deleted (subscription : Subscription)
  | checkout_session_completed (session : Session)
  | invoice_created (invoice : Invoice)
  | invoice_finalized (invoice : Invoice)
  | invoice_paid (invoice : Invoice)
  | invoice_payment_succeeded (invoice : Invoice)
  | invoice_payment_failed (invoice : Invoice)
  | payment_intent_succeeded (paymentIntent : PaymentIntent)
  | other_event (type : string).

Definition event_type (event : Event) : string :=
  match event with
  | customer_created _ => "customer.created"
  | customer_updated _ => "customer.updated"
  | customer_subscription_created _ => "customer.subscription.created"
  | customer_subscription_updated _ => "customer.subscription.updated"
  | customer_subscription_deleted _ => "customer.subscription.deleted"
  | checkout_session_completed _ => "checkout.session.completed"
  | invoice_created _ => "invoice.created"
  | invoice_finalized _ => "invoice.finalized"
  | invoice_paid _ => "invoice.paid"
  | invoice_payment_succeeded _ => "invoice.payment_succeeded"
  | invoice_payment_failed _ => "invoice.payment_failed"
  | payment_intent_succeeded _ => "payment_intent.succeeded"
  | other_event type => type
  end.

(** The Stripe SDK client: the remote calls the router and the endpoint
    make.  A call that throws returns [Err]. *)
Record StripeSDK := {
  subscriptions_retrieve : string → Result Subscription;
  invoices_retrieve : string → Result Invoice;
  constructEventAsync : string → string → string → Result Event }.

Definition remote {A} (r : Result A) : Action A := λ st, (r, st).

(** ** The event router *)

(** The argument validator [v.optional(v.string())]: a missing property
    and a string match, [null] does not, and [ctx.runMutation] then throws
    Convex's argument validation error (its first line is kept) without
    running the handler. *)
Definition ArgumentValidationError : string :=
  "ArgumentValidationError: Value does not match validator.".

Definition v_optional_string (x : Nullable string) : Result (option string) :=
  match x with
  | Absent => Ok None
  | Present s => Ok (Some s)
  | Null => Err ArgumentValidationError
  end.

Definition RECENT_SUBSCRIPTION_WINDOW_SECONDS : Z := 10 * 60.

(** [x || undefined] on a nullable string: [null] and [""] become absent. *)
Definition or_undefined (s : option string) : option string :=
  if truthy_str s then s else None.

(** [a > b] where [a] was read from an object and [b] is a number:
    [undefined] converts to [NaN], which compares false; [null] converts to
    [0] and booleans to [0] and [1].  (Strings and objects, which a creation
    time never is, are taken as [NaN].) *)
Definition to_number (v : option value) : option Q :=
  match v with
  | Some (VNum n) => Some (inject_Z n)
  | Some VNull => Some (inject_Z 0)
  | Some (VBool b) => Some (inject_Z (if b then 1 else 0))
  | _ => None
  end.

Definition js_gt (a : option value) (b : Q) : bool :=
  match to_number a with
  | Some q => negb (Qle_bool q b)
  | None => false
  end.

Definition first_item (subscription : Subscription) : option SubscriptionItem :=
  head (s_items subscription).

(** [subscription.items.data[0]?.current_period_end || 0]. *)
Definition item_current_period_end (subscription : Subscription) : Z :=
  match first_item subscription ≫= si_current_period_end with
  | Some n => n
  | None => 0
  end.

(** [subscription.items.data[0]?.quantity ?? 1]. *)
Definition item_quantity (subscription : Subscription) : Z :=
  default 1%Z (first_item subscription ≫= si_quantity).

(** [subscription.items.data[0]?.price.id || ""]. *)
Definition item_price_id (subscription : Subscription) : string :=
  default "" (si_price_id <$> first_item subscription).

Definition customerArgs (customer : Customer) : CustomerArgs :=
  {| cu_stripeCustomerId := c_id customer;
     cu_email := or_undefined (c_email customer);
     cu_name := or_undefined (c_name customer);
     cu_metadata := c_metadata customer |}.

Definition subscriptionCreatedArgs (subscription : Subscription) : SubscriptionCreatedArgs :=
  {| sc_stripeSubscriptionId := s_id subscription;
     sc_stripeCustomerId := s_customer subscription;
     sc_status := s_status subscription;
     sc_currentPeriodEnd := item_current_period_end subscription;
     sc_cancelAtPeriodEnd := default false (s_cancel_at_period_end subscription);
     sc_quantity := Some (item_quantity subscription);
     sc_priceId := item_price_id subscription;
     sc_metadata := Some (default ∅ (s_metadata subscription)) |}.

Definition subscriptionUpdatedArgs (subscription : Subscription) : SubscriptionUpdatedArgs :=
  {| su_stripeSubscriptionId := s_id subscription;
     su_status := s_status subscription;
     su_currentPeriodEnd := item_current_period_end subscription;
     su_cancelAtPeriodEnd := default false (s_cancel_at_period_end subscription);
     su_quantity := Some (item_quantity subscription);
     su_metadata := Some (default ∅ (s_metadata subscription)) |}.

Definition paymentIntentArgs (paymentIntent : PaymentIntent) : PaymentIntentArgs :=
  {| pa_stripePaymentIntentId := pi_id paymentIntent;
     pa_stripeCustomerId := or_undefined (pi_customer paymentIntent);
     pa_amount := pi_amount paymentIntent;
     pa_currency := pi_currency paymentIntent;
     pa_status := pi_status paymentIntent;
     pa_created := pi_created paymentIntent;
     pa_metadata := Some (default ∅ (pi_metadata paymentIntent)) |}.

(** The first guard of [payment_intent.succeeded]: the payment intent names
    an invoice, the invoice is retrieved, and it belongs to a subscription.
    A retrieval that throws is caught and logged. *)
Definition is_subscription_payment (stripe : StripeSDK) (paymentIntent : PaymentIntent) : bool :=
  if truthy_str (pi_invoice paymentIntent) then
    match invoices_retrieve stripe (default "" (pi_invoice paymentIntent)) with
    | Ok invoice => truthy_str (present (inv_subscription invoice))
    | Err _ => false
    end
  else false.

(** The second guard: [recentSubscriptions.find(sub => sub._creationTime >
    recentWindowStart)] over what [listSubscriptions] returns, with
    [recentWindowStart = Date.now() / 1000 - RECENT_SUBSCRIPTION_WINDOW_SECONDS]. *)
Definition recentWindowStart (now : Z) : Q :=
  (inject_Z now / inject_Z 1000 - inject_Z RECENT_SUBSCRIPTION_WINDOW_SECONDS)%Q.

Definition recentSubscription (now : Z) (recentSubscriptions : list obj) : option obj :=
  find (λ sub, js_gt (sub !! "_creationTime") (recentWindowStart now)) recentSubscriptions.

Definition processEvent (stripe : StripeSDK) (event : Event) (now : Z) : Action unit :=
  match event with
  | customer_created customer =>
      runMutation (handleCustomerCreated (customerArgs customer)) now
  | customer_updated customer =>
      runMutation (handleCustomerUpdated (customerArgs customer)) now
  | customer_subscription_created subscription =>
      runMutation (handleSubscriptionCreated (subscriptionCreatedArgs subscription)) now
  | customer_subscription_updated subscription =>
      runMutation (handleSubscriptionUpdated (subscriptionUpdatedArgs subscription)) now
  | customer_subscription_deleted subscription =>
      runMutation (handleSubscriptionDeleted (s_id subscription)) now
  | checkout_session_completed session =>
      runMutation (handleCheckoutSessionCompleted
        {| co_stripeCheckoutSessionId := cs_id session;
           co_stripeCustomerId := or_undefined (cs_customer session);
           co_mode := default "payment" (or_undefined (cs_mode session));
           co_metadata := cs_metadata session |}) now ;;!
      when (bool_decide (cs_mode session = Some "payment")
            && truthy_str (cs_customer session)
            && truthy_str (cs_payment_intent session))
        (runMutation (updatePaymentCustomer
           {| pc_stripePaymentIntentId := default "" (cs_payment_intent session);
              pc_stripeCustomerId := default "" (cs_customer session) |}) now) ;;!
      when (bool_decide (cs_mode session = Some "subscription")
            && truthy_str (cs_subscription session))
        (try_catch (
           subscription <-! remote (subscriptions_retrieve stripe
                                      (default "" (cs_subscription session))) ;;
           when (truthy_str (s_latest_invoice subscription)) (
             invoice <-! remote (invoices_retrieve stripe
                                   (default "" (s_latest_invoice subscription))) ;;
             runMutation (handleInvoiceCreated
               {| ic_stripeInvoiceId := inv_id invoice;
                  ic_stripeCustomerId := inv_customer invoice;
                  ic_stripeSubscriptionId := Some (s_id subscription);
                  ic_status := default "paid" (or_undefined (inv_status invoice));
                  ic_amountDue := inv_amount_due invoice;
                  ic_amountPaid := inv_amount_paid invoice;
                  ic_created := inv_created invoice |}) now)))
  | invoice_created invoice
  | invoice_finalized invoice =>
      stripeSubscriptionId <-! remote (v_optional_string (inv_subscription invoice)) ;;
      runMutation (handleInvoiceCreated
        {| ic_stripeInvoiceId := inv_id invoice;
           ic_stripeCustomerId := inv_customer invoice;
           ic_stripeSubscriptionId := stripeSubscriptionId;
           ic_status := default "open" (or_undefined (inv_status invoice));
           ic_amountDue := inv_amount_due invoice;
           ic_amountPaid := inv_amount_paid invoice;
           ic_created := inv_created invoice |}) now
  | invoice_paid invoice
  | invoice_payment_succeeded invoice =>
      runMutation (handleInvoicePaid
        {| ip_stripeInvoiceId := inv_id invoice;
           ip_amountPaid := inv_amount_paid invoice |}) now
  | invoice_payment_failed invoice =>
      runMutation (handleInvoicePaymentFailed (inv_id invoice)) now
  | payment_intent_succeeded paymentIntent =>
      if is_subscription_payment stripe paymentIntent then aret tt
      else
        recent <-! (if truthy_str (pi_customer paymentIntent) then
                      recentSubscriptions <-! runQuery (listSubscriptions
                                                (default "" (pi_customer paymentIntent))) ;;
                      aret (recentSubscription now recentSubscriptions)
                    else aret None) ;;
        match recent with
        | Some _ => aret tt
        | None =>
            runMutation (handlePaymentIntentSucceeded (paymentIntentArgs paymentIntent)) now
        end
  | other_event _ => aret tt
  end.

(** ** The webhook endpoint *)

(** [JSON.stringify({ received: true })]. *)
Definition dquote : string := String (Ascii.ascii_of_nat 34) EmptyString.
Definition received_json : string :=
  "{" +:+ dquote +:+ "received" +:+ dquote +:+ ":true}".

Definition Hook : Type := Event → Action unit.

Record RegisterRoutesConfig := {
  webhookPath : option string;
  events : string → option Hook;
  onEvent : option Hook;
  STRIPE_WEBHOOK_SECRET : option string;
  STRIPE_SECRET_KEY : option string }.

(** [process.env]. *)
Record Env := {
  env_STRIPE_WEBHOOK_SECRET : option string;
  env_STRIPE_SECRET_KEY : option string }.

Record Request := {
  req_signature : option string;   (* req.headers.get("stripe-signature") *)
  req_body : string }.

Record Response := {
  status : Z;
  body : string;
  content_type : option string }.

Definition route_path (config : option RegisterRoutesConfig) : string :=
  default "/stripe/webhook" (config ≫= webhookPath).

Definition eventHandlers (config : option RegisterRoutesConfig) : string → option Hook :=
  match config with
  | Some c => events c
  | None => λ _, None
  end.

(** The default processing followed by the generic hook and the hook
    registered for the event's type: the body of the endpoint's second [try]. *)
Definition process_with_hooks (stripe : StripeSDK) (config : option RegisterRoutesConfig)
    (event : Event) (now : Z) : Action unit :=
  processEvent stripe event now ;;!
  match config ≫= onEvent with
  | Some h => h event
  | None => aret tt
  end ;;!
  match eventHandlers config (event_type event) with
  | Some customHandler => customHandler event
  | None => aret tt
  end.

(** The [POST] handler that [registerRoutes] installs.  [new_stripe] is
    [new StripeSDK(apiKey)]. *)
Definition webhook (new_stripe : string → StripeSDK) (env : Env)
    (config : option RegisterRoutesConfig) (req : Request) (now : Z)
    : Store → Response * Store :=
  λ st,
  let webhookSecret :=
    or_str (config ≫= STRIPE_WEBHOOK_SECRET) (env_STRIPE_WEBHOOK_SECRET env) in
  if negb (truthy_str webhookSecret) then
    ({| status := 500; body := "Webhook secret not configured"; content_type := None |}, st)
  else
  let signature := req_signature req in
  if negb (truthy_str signature) then
    ({| status := 400; body := "No signature provided"; content_type := None |}, st)
  else
  let apiKey := or_str (config ≫= STRIPE_SECRET_KEY) (env_STRIPE_SECRET_KEY env) in
  if negb (truthy_str apiKey) then
    ({| status := 500; body := "Stripe secret key not configured"; content_type := None |}, st)
  else
  let stripe := new_stripe (default "" apiKey) in
  match constructEventAsync stripe (req_body req) (default "" signature)
          (default "" webhookSecret) with
  | Err message =>
      ({| status := 400;
          body := "Webhook signature verification failed: " +:+ message;
          content_type := None |}, st)
  | Ok event =>
      match process_with_hooks stripe config event now st with
      | (Err _, st') =>
          ({| status := 500; body := "Error processing webhook"; content_type := None |}, st')
      | (Ok _, st') =>
          ({| status := 200;
              body := received_json;
              content_type := Some "application/json" |}, st')
      end
  end.

(** * Specification vocabulary *)

(** What a literal last assigns to a property, if it mentions it. *)
Fixpoint assigned (p : literal) (k : string) : option (option value) :=
  match p with
  | [] => None
  | kv :: p' =>
      match assigned p' k with
      | Some r => Some r
      | None => if String.eqb kv.1 k then Some kv.2 else None
      end
  end.

(** The documents of table [tbl] whose [field] is the string [key]. *)
Definition records (tbl field key : string) (st : Store) : Table :=
  withIndex field (VStr key) (table tbl st).

Inductive Op :=
  | OpUpdateSubscriptionQuantityInternal (args : QuantityArgs)
  | OpHandleCustomerCreated (args : CustomerArgs)
  | OpHandleCustomerUpdated (args : CustomerArgs)
  | OpHandleSubscriptionCreated (args : SubscriptionCreatedArgs)
  | OpHandleSubscriptionUpdated (args : SubscriptionUpdatedArgs)
  | OpHandleSubscriptionDeleted (stripeSubscriptionId : string)
  | OpHandleCheckoutSessionCompleted (args : CheckoutSessionArgs)
  | OpHandleInvoiceCreated (args : InvoiceCreatedArgs)
  | OpHandleInvoicePaid (args : InvoicePaidArgs)
  | OpHandleInvoicePaymentFailed (stripeInvoiceId : string)
  | OpHandlePaymentIntentSucceeded (args : PaymentIntentArgs)
  | OpUpdatePaymentCustomer (args : PaymentCustomerArgs)
  | OpCreateOrUpdateCustomer (args : CustomerArgs)
  | OpUpdateSubscriptionMetadata (args : SubscriptionMetadataArgs).

Definition run (op : Op) : Mutation :=
  match op with
  | OpUpdateSubscriptionQuantityInternal args => updateSubscriptionQuantityInternal args
  | OpHandleCustomerCreated args => handleCustomerCreated args
  | OpHandleCustomerUpdated args => handleCustomerUpdated args
  | OpHandleSubscriptionCreated args => handleSubscriptionCreated args
  | OpHandleSubscriptionUpdated args => handleSubscriptionUpdated args
  | OpHandleSubscriptionDeleted id => handleSubscriptionDeleted id
  | OpHandleCheckoutSessionCompleted args => handleCheckoutSessionCompleted args
  | OpHandleInvoiceCreated args => handleInvoiceCreated args
  | OpHandleInvoicePaid args => handleInvoicePaid args
  | OpHandleInvoicePaymentFailed id => handleInvoicePaymentFailed id
  | OpHandlePaymentIntentSucceeded args => handlePaymentIntentSucceeded args
  | OpUpdatePaymentCustomer args => updatePaymentCustomer args
  | OpCreateOrUpdateCustomer args => createOrUpdateCustomer args
  | OpUpdateSubscriptionMetadata args => updateSubscriptionMetadata args
  end.

(** The table an operation looks its record up in, the indexed field and
    the provider-assigned key it looks for. *)
Definition target (op : Op) : string * string * string :=
  match op with
  | OpUpdateSubscriptionQuantityInternal args =>
      ("subscriptions", "stripeSubscriptionId", qa_stripeSubscriptionId args)
  | OpHandleCustomerCreated args
  | OpHandleCustomerUpdated args
  | OpCreateOrUpdateCustomer args =>
      ("customers", "stripeCustomerId", cu_stripeCustomerId args)
  | OpHandleSubscriptionCreated args =>
      ("subscriptions", "stripeSubscriptionId", sc_stripeSubscriptionId args)
  | OpHandleSubscriptionUpdated args =>
      ("subscriptions", "stripeSubscriptionId", su_stripeSubscriptionId args)
  | OpHandleSubscriptionDeleted id =>
      ("subscriptions", "stripeSubscriptionId", id)
  | OpHandleCheckoutSessionCompleted args =>
      ("checkout_sessions", "stripeCheckoutSessionId", co_stripeCheckoutSessionId args)
  | OpHandleInvoiceCreated args =>
      ("invoices", "stripeInvoiceId", ic_stripeInvoiceId args)
  | OpHandleInvoicePaid args =>
      ("invoices", "stripeInvoiceId", ip_stripeInvoiceId args)
  | OpHandleInvoicePaymentFailed id =>
      ("invoices", "stripeInvoiceId", id)
  | OpHandlePaymentIntentSucceeded args =>
      ("payments", "stripePaymentIntentId", pa_stripePaymentIntentId args)
  | OpUpdatePaymentCustomer args =>
      ("payments", "stripePaymentIntentId", pc_stripePaymentIntentId args)
  | OpUpdateSubscriptionMetadata args =>
      ("subscriptions", "stripeSubscriptionId", sm_stripeSubscriptionId args)
  end.

Definition target_records (op : Op) (st : Store) : Table :=
  let '(tbl, field, key) := target op in records tbl field key st.

(** The store after a mutation: the committed store, or the old one when
    the mutation threw. *)
Definition commit (r : Result Store) (st : Store) : Store :=
  match r with
  | Ok st' => st'
  | Err _ => st
  end.

(** The stores the component can be in: the empty one, and the ones its
    mutations commit. *)
Inductive reachable : Store → Prop :=
  | reach_empty : reachable ∅
  | reach_commit st st' op now :
      reachable st → run op now st = Ok st' → reachable st'.

(** The natural key of each table. *)
Definition natural_keys : list (string * string) :=
  [("customers", "stripeCustomerId");
   ("subscriptions", "stripeSubscriptionId");
   ("checkout_sessions", "stripeCheckoutSessionId");
   ("payments", "stripePaymentIntentId");
   ("invoices", "stripeInvoiceId")].

(** At most one document per provider-assigned key. *)
Definition store_ok (st : Store) : Prop :=
  ∀ tbl field key, (tbl, field) ∈ natural_keys → size (records tbl field key st) ≤ 1.


(** The update-class handlers: they patch a record and never insert one. *)
Definition update_class (op : Op) : bool :=
  match op with
  | OpHandleCustomerUpdated _
  | OpHandleSubscriptionUpdated _
  | OpHandleInvoicePaid _
  | OpHandleInvoicePaymentFailed _ => true
  | _ => false
  end.

(** The create handlers, one per entity. *)
Definition create_class (op : Op) : bool :=
  match op with
  | OpHandleCustomerCreated _
  | OpHandleSubscriptionCreated _
  | OpHandleInvoiceCreated _
  | OpHandlePaymentIntentSucceeded _ => true
  | _ => false
  end.

(** Property [f] of the document [i] of table [tbl]. *)
Definition field_of (tbl : string) (i : nat) (f : string) (st : Store) : option value :=
  table tbl st !! i ≫= (.!! f).

(** ** Sample data *)

(** A Stripe client whose remote calls all fail. *)
Definition offline_stripe : StripeSDK :=
  {| subscriptions_retrieve := λ _, Err "offline";
     invoices_retrieve := λ _, Err "offline";
     constructEventAsync := λ _ _ _, Err "offline" |}.

(** The subscription of the scenario: metadata names an organisation and a
    user, and the line item carries no quantity. *)
Definition sample_subscription : Subscription :=
  {| s_id := "sub_1";
     s_customer := "cus_1";
     s_status := "active";
     s_items := [ {| si_current_period_end := Some 1700003600%Z;
                     si_quantity := None;
                     si_price_id := "price_1" |} ];
     s_cancel_at_period_end := None;
     s_latest_invoice := None;
     s_metadata := Some {[ "orgId" := "org_1"; "userId" := "user_1" ]} |}.

(** Milliseconds since the epoch at which the sample subscription is created. *)
Definition sample_time : Z := 1700000000000%Z.

(** The store after [customer.subscription.created] for the sample subscription. *)
Definition store_with_subscription : Store :=
  (processEvent offline_stripe (customer_subscription_created sample_subscription)
     sample_time ∅).2.

(** A metadata update that names neither an organisation nor a user. *)
Definition sample_metadata_update : SubscriptionMetadataArgs :=
  {| sm_stripeSubscriptionId := "sub_1";
     sm_metadata := VObj {[ "note" := "renewed" ]};
     sm_orgId := None;
     sm_userId := None |}.

(** An update event for the sample subscription whose metadata is empty. *)
Definition sample_subscription_update : SubscriptionUpdatedArgs :=
  {| su_stripeSubscriptionId := "sub_1";
     su_status := "past_due";
     su_currentPeriodEnd := 1700007200%Z;
     su_cancelAtPeriodEnd := true;
     su_quantity := Some 3%Z;
     su_metadata := None |}.

Definition sample_customer : CustomerArgs :=
  {| cu_stripeCustomerId := "cus_1";
     cu_email := Some "ada@example.com";
     cu_name := Some "Ada";
     cu_metadata := Some {[ "tier" := "gold" ]} |}.

(** The same customer as an update that carries only a name. *)
Definition sample_customer_update : CustomerArgs :=
  {| cu_stripeCustomerId := "cus_1";
     cu_email := None;
     cu_name := Some "Ada L.";
     cu_metadata := None |}.

Definition store_with_customer : Store :=
  commit (handleCustomerCreated sample_customer sample_time ∅) ∅.

(** The documents the sample stores hold under id [0]. *)
Definition sample_customer_doc : obj :=
  default ∅ (table "customers" store_with_customer !! 0).

Definition sample_subscription_doc : obj :=
  default ∅ (table "subscriptions" store_with_subscription !! 0).

Definition sample_payment : PaymentIntentArgs :=
  {| pa_stripePaymentIntentId := "pi_1";
     pa_stripeCustomerId := Some "cus_1";
     pa_amount := 4900%Z;
     pa_currency := "usd";
     pa_status := "succeeded";
     pa_created := 1700000000%Z;
     pa_metadata := None |}.

Definition store_with_payment : Store :=
  commit (handlePaymentIntentSucceeded sample_payment sample_time ∅) ∅.

Definition sample_payment_doc : obj :=
  default ∅ (table "payments" store_with_payment !! 0).

(** A backfill that names another customer for the sample payment. *)
Definition sample_backfill : PaymentCustomerArgs :=
  {| pc_stripePaymentIntentId := "pi_1"; pc_stripeCustomerId := "cus_2" |}.

(** The payment intent with its invoice reference removed. *)
Definition without_invoice (paymentIntent : PaymentIntent) : PaymentIntent :=
  {| pi_id := pi_id paymentIntent;
     pi_customer := pi_customer paymentIntent;
     pi_invoice := None;
     pi_amount := pi_amount paymentIntent;
     pi_currency := pi_currency paymentIntent;
     pi_status := pi_status paymentIntent;
     pi_created := pi_created paymentIntent;
     pi_metadata := pi_metadata paymentIntent |}.

(** A payment intent of the sample customer that names no invoice. *)
Definition sample_payment_intent : PaymentIntent :=
  {| pi_id := "pi_2";
     pi_customer := Some "cus_1";
     pi_invoice := None;
     pi_amount := 4900%Z;
     pi_currency := "usd";
     pi_status := "succeeded";
     pi_created := 1700000001%Z;
     pi_metadata := None |}.

(** The same payment intent, paying the invoice [in_1]. *)
Definition sample_invoice_payment_intent : PaymentIntent :=
  {| pi_id := "pi_2";
     pi_customer := Some "cus_1";
     pi_invoice := Some "in_1";
     pi_amount := 4900%Z;
     pi_currency := "usd";
     pi_status := "succeeded";
     pi_created := 1700000001%Z;
     pi_metadata := None |}.

Definition sample_invoice : Invoice :=
  {| inv_id := "in_1";
     inv_customer := "cus_1";
     inv_subscription := Present "sub_1";
     inv_status := Some "paid";
     inv_amount_due := 4900%Z;
     inv_amount_paid := 4900%Z;
     inv_created := 1700000000%Z |}.

(** A Stripe client that knows the sample invoice and nothing else. *)
Definition sample_stripe : StripeSDK :=
  {| subscriptions_retrieve := λ _, Err "No such subscription";
     invoices_retrieve := λ id,
       if String.eqb id "in_1" then Ok sample_invoice else Err "No such invoice";
     constructEventAsync := λ _ _ _, Err "No signatures found matching the expected signature" |}.

(** One second after the sample subscription was created. *)
Definition one_second_later : Z := (sample_time + 1000)%Z.

(** ** Vocabulary of the endpoint *)

Definition webhook_secret (env : Env) (config : option RegisterRoutesConfig) : option string :=
  or_str (config ≫= STRIPE_WEBHOOK_SECRET) (env_STRIPE_WEBHOOK_SECRET env).

Definition api_key (env : Env) (config : option RegisterRoutesConfig) : option string :=
  or_str (config ≫= STRIPE_SECRET_KEY) (env_STRIPE_SECRET_KEY env).

Definition secret_configured (env : Env) (config : option RegisterRoutesConfig) : Prop :=
  truthy_str (webhook_secret env config) = true.

Definition api_key_configured (env : Env) (config : option RegisterRoutesConfig) : Prop :=
  truthy_str (api_key env config) = true.

Definition signature_present (req : Request) : Prop :=
  truthy_str (req_signature req) = true.

(** The outcome of verifying the raw body against the signature header. *)
Definition verification (new_stripe : string → StripeSDK) (env : Env)
    (config : option RegisterRoutesConfig) (req : Request) : Result Event :=
  constructEventAsync (new_stripe (default "" (api_key env config)))
    (req_body req) (default "" (req_signature req)) (default "" (webhook_secret env config)).

(** The outcome of dispatch followed by the optional hooks. *)
Definition processing (new_stripe : string → StripeSDK) (env : Env)
    (config : option RegisterRoutesConfig) (event : Event) (now : Z) (st : Store)
    : Result unit :=
  (process_with_hooks (new_stripe (default "" (api_key env config))) config event now st).1.

(** The status of the endpoint's response. *)
Definition response_status (new_stripe : string → StripeSDK) (env : Env)
    (config : option RegisterRoutesConfig) (req : Request) (now : Z) (st : Store) : Z :=
  status (webhook new_stripe env config req now st).1.

(** An environment with the signing secret but no API key, one with
    neither, and a request without a signature header. *)
Definition env_without_api_key : Env :=
  {| env_STRIPE_WEBHOOK_SECRET := Some "whsec_test"; env_STRIPE_SECRET_KEY := None |}.

Definition env_without_secrets : Env :=
  {| env_STRIPE_WEBHOOK_SECRET := None; env_STRIPE_SECRET_KEY := None |}.

Definition unsigned_request : Request :=
  {| req_signature := None; req_body := "{}" |}.

(** A fully configured environment, a signed request, and a Stripe client
    that accepts it as an event the router ignores. *)
Definition env_configured : Env :=
  {| env_STRIPE_WEBHOOK_SECRET := Some "whsec_test";
     env_STRIPE_SECRET_KEY := Some "sk_test" |}.

Definition signed_request : Request :=
  {| req_signature := Some "t=1,v1=abc"; req_body := "{}" |}.

Definition accepting_stripe : StripeSDK :=
  {| subscriptions_retrieve := λ _, Err "offline";
     invoices_retrieve := λ _, Err "offline";
     constructEventAsync := λ _ _ _, Ok (other_event "charge.succeeded") |}.

(** A hook that throws, and a configuration that registers it for every event. *)
Definition failing_hook : Hook := λ _ st, (Err "hook failed", st).

Definition config_with_failing_hook : RegisterRoutesConfig :=
  {| webhookPath := None;
     events := λ _, None;
     onEvent := Some failing_hook;
     STRIPE_WEBHOOK_SECRET := None;
     STRIPE_SECRET_KEY := None |}.

(** * The rest of the public surface, the client and its callers *)

(** ** Public queries ([src/component/public.ts]) *)

(** [await ctx.runQuery(q, args)] for a query that can throw. *)
Definition runQueryR {A} (q : Store → Result A) : Action A := λ st, (q st, st).

(** [getCustomer], [getSubscription], [getPayment]: the record under the
    key without its system fields, [null] when there is none. *)
Definition getCustomer (stripeCustomerId : string) (st : Store) : Result (option obj) :=
  customer <-? unique (withIndex "stripeCustomerId" (VStr stripeCustomerId)
                         (table "customers" st)) ;;
  match customer with
  | None => Ok None
  | Some d => Ok (Some (without_system_fields d))
  end.

Definition getSubscription (stripeSubscriptionId : string) (st : Store) : Result (option obj) :=
  subscription <-? unique (withIndex "stripeSubscriptionId" (VStr stripeSubscriptionId)
                             (table "subscriptions" st)) ;;
  match subscription with
  | None => Ok None
  | Some d => Ok (Some (without_system_fields d))
  end.

Definition getPayment (stripePaymentIntentId : string) (st : Store) : Result (option obj) :=
  payment <-? unique (withIndex "stripePaymentIntentId" (VStr stripePaymentIntentId)
                        (table "payments" st)) ;;
  match payment with
  | None => Ok None
  | Some d => Ok (Some (without_system_fields d))
  end.

(** The order in which an index hands out the documents with equal index
    key: by creation time, then by id. *)
Definition creation_time (d : Doc) : Z :=
  match d.2 !! "_creationTime" with
  | Some (VNum t) => t
  | _ => 0%Z
  end.

Definition older (a b : Doc) : Prop :=
  (creation_time a < creation_time b)%Z
  ∨ (creation_time a = creation_time b ∧ a.1 ≤ b.1).

#[global] Instance older_dec a b : Decision (older a b).
Proof. unfold older. apply _. Defined.

(** [.collect()] in index order. *)
Definition collect_in_order (r : Table) : list Doc := merge_sort older (map_to_list r).

Definition listSubscriptionsByUserId (userId : string) (st : Store) : list obj :=
  map without_system_fields
    (collect_in_order (withIndex "userId" (VStr userId) (table "subscriptions" st))).

Definition listPayments (stripeCustomerId : string) (st : Store) : list obj :=
  map without_system_fields
    (collect_in_order (withIndex "stripeCustomerId" (VStr stripeCustomerId)
                         (table "payments" st))).

Definition listPaymentsByUserId (userId : string) (st : Store) : list obj :=
  map without_system_fields
    (collect_in_order (withIndex "userId" (VStr userId) (table "payments" st))).

Definition listInvoices (stripeCustomerId : string) (st : Store) : list obj :=
  map without_system_fields
    (collect_in_order (withIndex "stripeCustomerId" (VStr stripeCustomerId)
                         (table "invoices" st))).

Definition listInvoicesByOrgId (orgId : string) (st : Store) : list obj :=
  map without_system_fields
    (collect_in_order (withIndex "orgId" (VStr orgId) (table "invoices" st))).

(** ** The remote calls that change Stripe's state *)

(** The parameters [createCheckoutSession] sends. *)
Record SessionCreateParams := {
  scp_mode : string;
  scp_price : string;
  scp_quantity : Z;
  scp_success_url : string;
  scp_cancel_url : string;
  scp_metadata : Metadata;
  scp_customer : option string;
  scp_subscription_data : option Metadata;     (* subscription_data.metadata *)
  scp_payment_intent_data : option Metadata }. (* payment_intent_data.metadata *)

Record CreatedSession := {
  created_id : string;
  created_url : option string }.

(** The writing half of the SDK client.  A subscription item is named by
    the item itself where the SDK takes its id. *)
Record StripeWrites := {
  subscriptions_update : string → bool → Result Subscription;
  subscriptions_cancel : string → Result Subscription;
  subscriptionItems_update : SubscriptionItem → Z → Result unit;
  customers_create :
    option string → option string → option Metadata → option string → Result Customer;
  checkout_sessions_create : SessionCreateParams → Result CreatedSession;
  billingPortal_sessions_create : string → string → Result string }.

(** [new StripeSDK(apiKey)]: the reading and the writing calls of a client. *)
Record StripeClient := {
  reads : StripeSDK;
  writes : StripeWrites }.

(** ** The public action [updateSubscriptionQuantity] ([src/component/public.ts]) *)

Definition updateSubscriptionQuantity (connect : string → StripeClient) (env : Env)
    (args : QuantityArgs) (now : Z) : Action unit :=
  let apiKey := env_STRIPE_SECRET_KEY env in
  if negb (truthy_str apiKey) then
    remote (Err "STRIPE_SECRET_KEY must be provided as an environment variable")
  else
    let stripe := connect (default "" apiKey) in
    subscription <-! remote (subscriptions_retrieve (reads stripe)
                               (qa_stripeSubscriptionId args)) ;;
    match head (s_items subscription) with
    | None => remote (Err "Subscription has no items")
    | Some item =>
        remote (subscriptionItems_update (writes stripe) item (qa_quantity args)) ;;!
        runMutation (updateSubscriptionQuantityInternal args) now
    end.

(** ** The client class ([src/client/index.ts]) *)

Module Client.

(** The instance state: [_apiKey]. *)
Record StripeSubscriptions := {
  client_apiKey : option string }.

(** [new StripeSubscriptions(component, options)]:
    [options?.STRIPE_SECRET_KEY ?? process.env.STRIPE_SECRET_KEY]. *)
Definition new (options_STRIPE_SECRET_KEY : option string) (env : Env)
    : StripeSubscriptions :=
  {| client_apiKey :=
       match options_STRIPE_SECRET_KEY with
       | Some k => Some k
       | None => env_STRIPE_SECRET_KEY env
       end |}.

(** [get apiKey()]. *)
Definition apiKey (self : StripeSubscriptions) : Result string :=
  if negb (truthy_str (client_apiKey self)) then
    Err "STRIPE_SECRET_KEY environment variable is not set"
  else Ok (default "" (client_apiKey self)).

(** [new StripeSDK(this.apiKey)]. *)
Definition sdk (connect : string → StripeClient) (self : StripeSubscriptions)
    : Action StripeClient :=
  key <-! remote (apiKey self) ;; aret (connect key).

(** The client method delegates to the component's public action, which
    reads the key from the environment. *)
Definition updateSubscriptionQuantity (connect : string → StripeClient) (env : Env)
    (self : StripeSubscriptions) (args : QuantityArgs) (now : Z) : Action unit :=
  updateSubscriptionQuantity connect env args now.

Record CancelArgs := {
  ca_stripeSubscriptionId : string;
  ca_cancelAtPeriodEnd : option bool }.

Definition cancelSubscription (connect : string → StripeClient)
    (self : StripeSubscriptions) (args : CancelArgs) (now : Z) : Action unit :=
  stripe <-! sdk connect self ;;
  let cancelAtPeriodEnd := default true (ca_cancelAtPeriodEnd args) in
  subscription <-! remote
    (if cancelAtPeriodEnd
     then subscriptions_update (writes stripe) (ca_stripeSubscriptionId args) true
     else subscriptions_cancel (writes stripe) (ca_stripeSubscriptionId args)) ;;
  runMutation (handleSubscriptionUpdated (subscriptionUpdatedArgs subscription)) now.

Definition reactivateSubscription (connect : string → StripeClient)
    (self : StripeSubscriptions) (stripeSubscriptionId : string) (now : Z) : Action unit :=
  stripe <-! sdk connect self ;;
  subscription <-! remote
    (subscriptions_update (writes stripe) stripeSubscriptionId false) ;;
  runMutation (handleSubscriptionUpdated (subscriptionUpdatedArgs subscription)) now.

Record CheckoutArgs := {
  ch_priceId : string;
  ch_customerId : option string;
  ch_mode : string;
  ch_successUrl : string;
  ch_cancelUrl : string;
  ch_quantity : option Z;
  ch_metadata : option Metadata;
  ch_subscriptionMetadata : option Metadata;
  ch_paymentIntentMetadata : option Metadata }.

(** The [sessionParams] object once all its conditional assignments ran. *)
Definition sessionParams (args : CheckoutArgs) : SessionCreateParams :=
  {| scp_mode := ch_mode args;
     scp_price := ch_priceId args;
     scp_quantity := default 1%Z (ch_quantity args);
     scp_success_url := ch_successUrl args;
     scp_cancel_url := ch_cancelUrl args;
     scp_metadata := default ∅ (ch_metadata args);
     scp_customer := or_undefined (ch_customerId args);
     scp_subscription_data :=
       if String.eqb (ch_mode args) "subscription"
       then ch_subscriptionMetadata args else None;
     scp_payment_intent_data :=
       if String.eqb (ch_mode args) "payment"
       then ch_paymentIntentMetadata args else None |}.

Definition createCheckoutSession (connect : string → StripeClient)
    (self : StripeSubscriptions) (args : CheckoutArgs) : Action CreatedSession :=
  stripe <-! sdk connect self ;;
  remote (checkout_sessions_create (writes stripe) (sessionParams args)).

Record CreateCustomerArgs := {
  cc_email : option string;
  cc_name : option string;
  cc_metadata : option Metadata;
  cc_idempotencyKey : option string }.

(** [requestOptions]: the idempotency key sent with [customers.create]. *)
Definition requestOptions (args : CreateCustomerArgs) : option string :=
  if truthy_str (cc_idempotencyKey args)
  then Some ("create_customer_" +:+ default "" (cc_idempotencyKey args))
  else None.

(** Returns [{ customerId }]. *)
Definition createCustomer (connect : string → StripeClient)
    (self : StripeSubscriptions) (args : CreateCustomerArgs) (now : Z) : Action string :=
  stripe <-! sdk connect self ;;
  customer <-! remote (customers_create (writes stripe)
                         (cc_email args) (cc_name args) (cc_metadata args)
                         (requestOptions args)) ;;
  runMutation (createOrUpdateCustomer
    {| cu_stripeCustomerId := c_id customer;
       cu_email := cc_email args;
       cu_name := cc_name args;
       cu_metadata := cc_metadata args |}) now ;;!
  aret (c_id customer).

Record GetOrCreateArgs := {
  gc_userId : string;
  gc_email : option string;
  gc_name : option string }.

(** [{ customerId, isNew }]; a customer id read from a stored record is
    the value the record holds. *)
Record CustomerResult := {
  customerId : option value;
  isNew : bool }.

Definition getOrCreateCustomer (connect : string → StripeClient)
    (self : StripeSubscriptions) (args : GetOrCreateArgs) (now : Z)
    : Action CustomerResult :=
  existingSubs <-! runQuery (listSubscriptionsByUserId (gc_userId args)) ;;
  match existingSubs with
  | sub :: _ => aret {| customerId := sub !! "stripeCustomerId"; isNew := false |}
  | [] =>
      existingPayments <-! runQuery (listPaymentsByUserId (gc_userId args)) ;;
      match existingPayments with
      | payment :: _ =>
          if truthy (payment !! "stripeCustomerId")
          then aret {| customerId := payment !! "stripeCustomerId"; isNew := false |}
          else
            result <-! createCustomer connect self
              {| cc_email := gc_email args;
                 cc_name := gc_name args;
                 cc_metadata := Some {[ "userId" := gc_userId args ]};
                 cc_idempotencyKey := Some (gc_userId args) |} now ;;
            aret {| customerId := Some (VStr result); isNew := true |}
      | [] =>
          result <-! createCustomer connect self
            {| cc_email := gc_email args;
               cc_name := gc_name args;
               cc_metadata := Some {[ "userId" := gc_userId args ]};
               cc_idempotencyKey := Some (gc_userId args) |} now ;;
          aret {| customerId := Some (VStr result); isNew := true |}
      end
  end.

(** Returns [{ url }]. *)
Definition createCustomerPortalSession (connect : string → StripeClient)
    (self : StripeSubscriptions) (customerId returnUrl : string) : Action string :=
  stripe <-! sdk connect self ;;
  remote (billingPortal_sessions_create (writes stripe) customerId returnUrl).

End Client.

(** ** The example application (its [convex/stripe.ts]) *)

Module Example.

(** [ctx.auth.getUserIdentity()]: [null] when the caller is not signed in. *)
Record Identity := {
  subject : string;
  id_email : option string;
  id_name : option string }.

(** [const stripeClient = new StripeSubscriptions(components.stripe, {})]. *)
Definition stripeClient (env : Env) : Client.StripeSubscriptions := Client.new None env.

(** The ownership check shared by [updateSeats], [cancelSubscription] and
    [reactivateSubscription]: the subscription as [getSubscription]
    returns it, or the error thrown when there is none or its [userId]
    is not the caller. *)
Definition owned_subscription (identity : option Identity) (subscriptionId : string)
    : Action obj :=
  match identity with
  | None => remote (Err "Not authenticated")
  | Some who =>
      subscription <-! runQueryR (getSubscription subscriptionId) ;;
      match subscription with
      | Some sub =>
          if bool_decide (sub !! "userId" = Some (VStr (subject who)))
          then aret sub
          else remote (Err "Subscription not found or access denied")
      | None => remote (Err "Subscription not found or access denied")
      end
  end.

Definition getOrCreateCustomer (connect : string → StripeClient) (env : Env)
    (identity : option Identity) (now : Z) : Action Client.CustomerResult :=
  match identity with
  | None => remote (Err "Not authenticated")
  | Some who =>
      Client.getOrCreateCustomer connect (stripeClient env)
        {| Client.gc_userId := subject who;
           Client.gc_email := id_email who;
           Client.gc_name := id_name who |} now
  end.


Definition cancelSubscription (connect : string → StripeClient) (env : Env)
    (identity : option Identity) (subscriptionId : string) (immediately : option bool)
    (now : Z) : Action unit :=
  owned_subscription identity subscriptionId ;;!
  Client.cancelSubscription connect (stripeClient env)
    {| Client.ca_stripeSubscriptionId := subscriptionId;
       Client.ca_cancelAtPeriodEnd := Some (negb (default false immediately)) |} now.

Definition reactivateSubscription (connect : string → StripeClient) (env : Env)
    (identity : option Identity) (subscriptionId : string) (now : Z) : Action unit :=
  subscription <-! owned_subscription identity subscriptionId ;;
  if negb (truthy (subscription !! "cancelAtPeriodEnd"))
  then remote (Err "Subscription is not set to cancel")
  else Client.reactivateSubscription connect (stripeClient env) subscriptionId now.

(** [linkSubscriptionToOrg]; [linkedAt] is the caller's clock as an ISO string. *)
Definition linkSubscriptionToOrg (subscriptionId orgId userId linkedAt : string)
    : Mutation :=
  updateSubscriptionMetadata
    {| sm_stripeSubscriptionId := subscriptionId;
       sm_metadata := VObj {[ "linkedAt" := linkedAt ]};
       sm_orgId := Some orgId;
       sm_userId := Some userId |}.

End Example.

(** ** Vocabulary for actions *)

(** An action that, from a store the component can be in, returns
    normally and leaves such a store. *)
Definition completes {A} (a : Action A) : Prop :=
  ∀ st, reachable st → ∃ x st', a st = (Ok x, st') ∧ reachable st'.

(** An action that may throw but leaves a store the component can be in. *)
Definition harmless {A} (a : Action A) : Prop :=
  ∀ st, reachable st → reachable (a st).2.

(** ** More sample data *)

Definition sample_checkout : CheckoutSessionArgs :=
  {| co_stripeCheckoutSessionId := "cs_1";
     co_stripeCustomerId := Some "cus_1";
     co_mode := "payment";
     co_metadata := None |}.

(** The invoice of the sample subscription, as [invoice.created] hands it
    to the handler. *)
Definition sample_invoice_args : InvoiceCreatedArgs :=
  {| ic_stripeInvoiceId := "in_1";
     ic_stripeCustomerId := "cus_1";
     ic_stripeSubscriptionId := Some "sub_1";
     ic_status := "open";
     ic_amountDue := 4900%Z;
     ic_amountPaid := 0%Z;
     ic_created := 1700000000%Z |}.

Definition store_with_invoice : Store :=
  commit (handleInvoiceCreated sample_invoice_args one_second_later store_with_subscription)
    store_with_subscription.

Definition sample_invoice_doc : obj :=
  default ∅ (table "invoices" store_with_invoice !! 0).

(** A client whose remote calls all succeed: the subscription it knows is
    the sample one, and writes echo it back with the requested flag. *)
Definition sample_remote_subscription (cancel_at_period_end : bool) : Subscription :=
  {| s_id := "sub_1";
     s_customer := "cus_1";
     s_status := "active";
     s_items := [ {| si_current_period_end := Some 1700003600%Z;
                     si_quantity := Some 5%Z;
                     si_price_id := "price_1" |} ];
     s_cancel_at_period_end := Some cancel_at_period_end;
     s_latest_invoice := None;
     s_metadata := None |}.

Definition sample_client : StripeClient :=
  {| reads :=
       {| subscriptions_retrieve := λ _, Ok (sample_remote_subscription false);
          invoices_retrieve := λ _, Ok sample_invoice;
          constructEventAsync := λ _ _ _, Ok (other_event "charge.succeeded") |};
     writes :=
       {| subscriptions_update := λ _ flag, Ok (sample_remote_subscription flag);
          subscriptions_cancel := λ _, Err "No such subscription";
          subscriptionItems_update := λ _ _, Ok tt;
          customers_create := λ email name metadata _,
            Ok {| c_id := "cus_9"; c_email := email; c_name := name;
                  c_metadata := metadata |};
          checkout_sessions_create := λ _,
            Ok {| created_id := "cs_9"; created_url := Some "https://checkout.example/cs_9" |};
          billingPortal_sessions_create := λ _ _, Ok "https://billing.example/p" |} |}.

(** A client whose remote calls all fail. *)
Definition offline_client : StripeClient :=
  {| reads := offline_stripe;
     writes :=
       {| subscriptions_update := λ _ _, Err "offline";
          subscriptions_cancel := λ _, Err "offline";
          subscriptionItems_update := λ _ _, Err "offline";
          customers_create := λ _ _ _ _, Err "offline";
          checkout_sessions_create := λ _, Err "offline";
          billingPortal_sessions_create := λ _ _, Err "offline" |} |}.

Definition sample_seats : QuantityArgs :=
  {| qa_stripeSubscriptionId := "sub_1"; qa_quantity := 7%Z |}.

(** A completed checkout session in payment mode for the sample payment. *)
Definition sample_session : Session :=
  {| cs_id := "cs_1";
     cs_customer := Some "cus_7";
     cs_mode := Some "payment";
     cs_payment_intent := Some "pi_1";
     cs_subscription := None;
     cs_metadata := None |}.

(** The sample payment without a customer reference. *)
Definition sample_anonymous_payment : PaymentIntentArgs :=
  {| pa_stripePaymentIntentId := "pi_1";
     pa_stripeCustomerId := None;
     pa_amount := 4900%Z;
     pa_currency := "usd";
     pa_status := "succeeded";
     pa_created := 1700000000%Z;
     pa_metadata := Some {[ "userId" := "user_1" ]} |}.

Definition store_with_anonymous_payment : Store :=
  commit (handlePaymentIntentSucceeded sample_anonymous_payment sample_time ∅) ∅.

Definition sample_anonymous_payment_doc : obj :=
  default ∅ (table "payments" store_with_anonymous_payment !! 0).

(** The create handlers that never write to an existing record. *)
Definition plain_create (op : Op) : bool :=
  match op with
  | OpHandleCustomerCreated _
  | OpHandleSubscriptionCreated _
  | OpHandleInvoiceCreated _ => true
  | _ => false
  end.

(** A later event for the sample invoice that reports it finalized. *)
Definition sample_finalized_invoice : Invoice :=
  {| inv_id := "in_1";
     inv_customer := "cus_1";
     inv_subscription := Present "sub_1";
     inv_status := Some "paid";
     inv_amount_due := 4900%Z;
     inv_amount_paid := 4900%Z;
     inv_created := 1700000000%Z |}.

(** An invoice that belongs to no subscription, as Stripe sends it:
    [subscription: null]. *)
Definition sample_one_off_invoice : Invoice :=
  {| inv_id := "in_2";
     inv_customer := "cus_1";
     inv_subscription := Null;
     inv_status := Some "open";
     inv_amount_due := 1200%Z;
     inv_amount_paid := 0%Z;
     inv_created := 1700000000%Z |}.

(** A Stripe client whose verification yields the [invoice.created] event
    of that invoice. *)
Definition one_off_invoice_stripe : StripeSDK :=
  {| subscriptions_retrieve := λ _, Err "offline";
     invoices_retrieve := λ _, Err "offline";
     constructEventAsync := λ _ _ _, Ok (invoice_created sample_one_off_invoice) |}.

(** A second delivery for the key of the anonymous sample payment that
    names a customer. *)
Definition sample_payment_with_customer : PaymentIntentArgs :=
  {| pa_stripePaymentIntentId := "pi_1";
     pa_stripeCustomerId := Some "cus_1";
     pa_amount := 4900%Z;
     pa_currency := "usd";
     pa_status := "succeeded";
     pa_created := 1700000000%Z;
     pa_metadata := Some {[ "userId" := "user_1" ]} |}.

(** A customer event whose email is the empty string. *)
Definition sample_customer_event : Customer :=
  {| c_id := "cus_3";
     c_email := Some "";
     c_name := Some "Grace";
     c_metadata := None |}.

(** An update event for the sample subscription that carries no metadata
    and no line item. *)
Definition sample_bare_update : Subscription :=
  {| s_id := "sub_1";
     s_customer := "cus_1";
     s_status := "past_due";
     s_items := [];
     s_cancel_at_period_end := Some true;
     s_latest_invoice := None;
     s_metadata := None |}.

(** A Stripe client that verifies every request as a [customer.created]
    event for the sample customer event. *)
Definition customer_event_stripe : StripeSDK :=
  {| subscriptions_retrieve := λ _, Err "offline";
     invoices_retrieve := λ _, Err "offline";
     constructEventAsync := λ _ _ _, Ok (customer_created sample_customer_event) |}.

(** The caller who owns the sample subscription, and another one. *)
Definition sample_owner : Example.Identity :=
  {| Example.subject := "user_1"; Example.id_email := None; Example.id_name := None |}.


Definition sample_user : Client.GetOrCreateArgs :=
  {| Client.gc_userId := "user_1";
     Client.gc_email := Some "ada@example.com";
     Client.gc_name := Some "Ada" |}.

Definition sample_new_user : Client.GetOrCreateArgs :=
  {| Client.gc_userId := "user_5";
     Client.gc_email := Some "eve@example.com";
     Client.gc_name := None |}.

Definition sample_self : Client.StripeSubscriptions := Client.new (Some "sk_test") env_configured.

(** A payment intent without a customer, for the payment of the sample session. *)
Definition sample_guest_payment_intent : PaymentIntent :=
  {| pi_id := "pi_1";
     pi_customer := None;
     pi_invoice := None;
     pi_amount := 4900%Z;
     pi_currency := "usd";
     pi_status := "succeeded";
     pi_created := 1700000000%Z;
     pi_metadata := None |}.

Definition sample_checkout_args : Client.CheckoutArgs :=
  {| Client.ch_priceId := "price_1";
     Client.ch_customerId := Some "";
     Client.ch_mode := "subscription";
     Client.ch_successUrl := "https://app.example/ok";
     Client.ch_cancelUrl := "https://app.example/cancel";
     Client.ch_quantity := None;
     Client.ch_metadata := None;
     Client.ch_subscriptionMetadata := Some {[ "userId" := "user_1" ]};
     Client.ch_paymentIntentMetadata := Some {[ "userId" := "user_1" ]} |}.
(** * Properties *)

(** ** Objects and patches *)

#[local] Arguments patch_doc : simpl never.
#[local] Arguments to_doc : simpl never.

Lemma set_field_lookup o kv k :
  set_field o kv !! k = if String.eqb kv.1 k then kv.2 else o !! k.
Proof.
  unfold set_field. destruct (String.eqb_spec kv.1 k) as [->|Hne].
  - destruct kv.2; [apply lookup_insert_eq | apply lookup_delete_eq].
  - destruct kv.2; [by apply lookup_insert_ne | by apply lookup_delete_ne].
Qed.

Lemma patch_doc_lookup p : ∀ d k,
  patch_doc d p !! k = default (d !! k) (assigned p k).
Proof.
  unfold patch_doc. induction p as [|kv p IH]; intros d k; simpl; [done|].
  rewrite IH, set_field_lookup.
  destruct (assigned p k); simpl; [done|]. by destruct (String.eqb kv.1 k).
Qed.

Lemma to_doc_lookup p k : to_doc p !! k = default None (assigned p k).
Proof. unfold to_doc. change (foldl set_field ∅ p) with (patch_doc ∅ p). by rewrite patch_doc_lookup. Qed.

(** ** Tables *)

Lemma table_insert name t (st : Store) : table name (<[name := t]> st) = t.
Proof. unfold table. by rewrite lookup_insert_eq. Qed.

Lemma table_insert_ne name name' t (st : Store) :
  name ≠ name' → table name' (<[name := t]> st) = table name' st.
Proof. intros. unfold table. by rewrite lookup_insert_ne. Qed.

Lemma table_db_insert name p now st :
  table name (db_insert name p now st)
  = <[fresh (dom (table name st)) := <["_creationTime" := VNum now]> (to_doc p)]> (table name st).
Proof. apply table_insert. Qed.

Lemma table_db_patch name id p st :
  table name (db_patch name id p st) = alter (λ d, patch_doc d p) id (table name st).
Proof. apply table_insert. Qed.

Lemma fresh_lookup (t : Table) : t !! fresh (dom t) = None.
Proof. apply not_elem_of_dom, is_fresh. Qed.

(** ** [unique] *)

Lemma unique_None (r : Table) : unique r = Ok None ↔ r = ∅.
Proof.
  unfold unique. split.
  - intros H. apply map_to_list_empty_iff.
    destruct (map_to_list r) as [|? [|? ?]]; congruence.
  - intros ->. by rewrite map_to_list_empty.
Qed.

Lemma unique_singleton i (d : obj) : unique ({[i := d]} : Table) = Ok (Some (i, d)).
Proof. unfold unique. by rewrite map_to_list_singleton. Qed.

Lemma unique_Some (r : Table) i d : unique r = Ok (Some (i, d)) ↔ r = {[i := d]}.
Proof.
  split; [|intros ->; apply unique_singleton].
  unfold unique. intros H. rewrite <- (list_to_map_to_list r).
  destruct (map_to_list r) as [|? [|? ?]]; simplify_eq. done.
Qed.

Lemma size_le_1_cases (r : Table) :
  size r ≤ 1 → r = ∅ ∨ ∃ i d, r = {[i := d]}.
Proof.
  intros Hsz. destruct (decide (size r = 0)) as [H0|H0].
  - left. by apply map_size_empty_iff.
  - right. apply map_size_ne_0_lookup in H0 as [i [d Hi]]. exists i, d.
    rewrite <- (insert_delete_id r i d Hi).
    assert (Hd : delete i r = ∅).
    { apply map_size_empty_iff. rewrite map_size_delete_Some by eauto. lia. }
    by rewrite Hd.
Qed.

Lemma unique_total (r : Table) :
  size r ≤ 1 →
  (r = ∅ ∧ unique r = Ok None) ∨ (∃ i d, r = {[i := d]} ∧ unique r = Ok (Some (i, d))).
Proof.
  intros [->|(i & d & ->)]%size_le_1_cases.
  - left. split; [done|]. by apply unique_None.
  - right. exists i, d. split; [done|]. apply unique_singleton.
Qed.

Lemma unique_Err_size (r : Table) e : unique r = Err e → 2 ≤ size r.
Proof.
  intros H. destruct (decide (size r ≤ 1)) as [Hle|]; [|lia].
  destruct (unique_total r Hle) as [[_ H']|(i & d & _ & H')]; congruence.
Qed.

(** ** Index queries over inserts and patches *)

Lemma withIndex_lookup f v (t : Table) i d :
  withIndex f v t !! i = Some d ↔ t !! i = Some d ∧ d !! f = Some v.
Proof. unfold withIndex. by rewrite map_lookup_filter_Some. Qed.

Lemma withIndex_insert_match f v (t : Table) i d :
  d !! f = Some v → withIndex f v (<[i := d]> t) = <[i := d]> (withIndex f v t).
Proof. intros. unfold withIndex. by rewrite map_filter_insert_True. Qed.

Lemma withIndex_insert_nomatch f v (t : Table) i d :
  t !! i = None → d !! f ≠ Some v → withIndex f v (<[i := d]> t) = withIndex f v t.
Proof.
  intros Hi Hd. unfold withIndex.
  rewrite map_filter_insert_False by done. by rewrite delete_id.
Qed.

Lemma withIndex_alter f v (g : obj → obj) (t : Table) i :
  (∀ d, g d !! f = d !! f) →
  withIndex f v (alter g i t) = alter g i (withIndex f v t).
Proof.
  intros Hg. apply map_eq. intros j. apply option_eq. intros d.
  rewrite withIndex_lookup.
  destruct (decide (i = j)) as [->|Hne].
  - rewrite !lookup_alter_eq, !fmap_Some. split.
    + intros [(d0 & Hd0 & ->) Hf]. exists d0. split; [|done].
      apply withIndex_lookup. split; [done|]. by rewrite <- Hg.
    + intros (d0 & [Hd0 Hf]%withIndex_lookup & ->). split; [eauto|]. by rewrite Hg.
  - rewrite !lookup_alter_ne by done. by rewrite withIndex_lookup.
Qed.

Lemma size_alter (g : obj → obj) (t : Table) i : size (alter g i t) = size t.
Proof. by rewrite <- !size_dom, dom_alter_L. Qed.

(** ** Records by natural key *)

Lemma records_db_insert_ne tbl f k name p now st :
  name ≠ tbl → records tbl f k (db_insert name p now st) = records tbl f k st.
Proof. intros. unfold records, db_insert. by rewrite table_insert_ne. Qed.

Lemma records_db_patch_ne tbl f k name id p st :
  name ≠ tbl → records tbl f k (db_patch name id p st) = records tbl f k st.
Proof. intros. unfold records, db_patch. by rewrite table_insert_ne. Qed.

Lemma inserted_lookup p now f :
  f ≠ "_creationTime" →
  (<["_creationTime" := VNum now]> (to_doc p) : obj) !! f = default None (assigned p f).
Proof. intros. rewrite lookup_insert_ne by done. apply to_doc_lookup. Qed.

Lemma records_db_insert_key name f k p now st :
  f ≠ "_creationTime" →
  assigned p f = Some (Some (VStr k)) →
  records name f k (db_insert name p now st)
  = <[fresh (dom (table name st)) := <["_creationTime" := VNum now]> (to_doc p)]>
      (records name f k st).
Proof.
  intros Hf Hp. unfold records. rewrite table_db_insert.
  apply withIndex_insert_match. by rewrite inserted_lookup, Hp.
Qed.

Lemma records_db_insert_other name f k k' p now st :
  f ≠ "_creationTime" →
  assigned p f = Some (Some (VStr k')) → k' ≠ k →
  records name f k (db_insert name p now st) = records name f k st.
Proof.
  intros Hf Hp Hk. unfold records. rewrite table_db_insert.
  apply withIndex_insert_nomatch; [apply fresh_lookup|].
  rewrite inserted_lookup, Hp by done. simpl. congruence.
Qed.

Lemma records_db_patch name f k id p st :
  assigned p f = None →
  records name f k (db_patch name id p st)
  = alter (λ d, patch_doc d p) id (records name f k st).
Proof.
  intros Hp. unfold records. rewrite table_db_patch.
  apply withIndex_alter. intros d. by rewrite patch_doc_lookup, Hp.
Qed.

Lemma records_lookup tbl f k st i d :
  records tbl f k st !! i = Some d ↔ table tbl st !! i = Some d ∧ d !! f = Some (VStr k).
Proof. apply withIndex_lookup. Qed.

(** ** The mutations of the component, and the stores they reach *)

Lemma store_ok_empty : store_ok ∅.
Proof.
  intros tbl f k _. unfold records, table, withIndex.
  rewrite lookup_empty. simpl. rewrite map_filter_empty, map_size_empty. lia.
Qed.

Lemma store_ok_db_patch name id p st :
  store_ok st →
  (∀ f, (name, f) ∈ natural_keys → assigned p f = None) →
  store_ok (db_patch name id p st).
Proof.
  intros Hok Hp tbl f k Hin. destruct (decide (name = tbl)) as [->|Hne].
  - rewrite records_db_patch by auto. rewrite size_alter. auto.
  - rewrite records_db_patch_ne by done. auto.
Qed.

Lemma store_ok_db_insert name f k p now st :
  store_ok st →
  (∀ f', (name, f') ∈ natural_keys → f' = f) →
  f ≠ "_creationTime" →
  assigned p f = Some (Some (VStr k)) →
  records name f k st = ∅ →
  store_ok (db_insert name p now st).
Proof.
  intros Hok Hkey Hf Hp Hnone tbl f' k' Hin. destruct (decide (name = tbl)) as [->|Hne].
  - rewrite (Hkey f' Hin). destruct (decide (k = k')) as [->|Hk].
    + rewrite records_db_insert_key, Hnone by done.
      by rewrite insert_empty, map_size_singleton.
    + rewrite (records_db_insert_other _ _ _ k) by done. apply Hok.
      by rewrite <- (Hkey f' Hin).
  - rewrite records_db_insert_ne by done. auto.
Qed.

(** Membership in [natural_keys] determines the key field of a table. *)
Ltac natural_key H :=
  unfold natural_keys in H;
  repeat (apply elem_of_cons in H as [H|H]; [by simplify_eq|]);
  by apply elem_of_nil in H.

Ltac keep_keys :=
  let f := fresh "f" in let H := fresh "H" in
  intros f H; unfold natural_keys in H;
  repeat (apply elem_of_cons in H as [H|H]; [by simplify_eq|]);
  by apply elem_of_nil in H.

Ltac new_key :=
  eapply store_ok_db_insert;
  [ eassumption | keep_keys | done | reflexivity | by apply unique_None ].

Lemma run_store_ok op now st st' :
  store_ok st → run op now st = Ok st' → store_ok st'.
Proof.
  intros Hok Hrun. destruct op; simpl in Hrun;
    lazymatch type of Hrun with
    | ?h _ _ _ = _ => unfold h in Hrun
    end;
    lazymatch type of Hrun with
    | context [unique ?r] => destruct (unique r) as [[[i d]|]|e] eqn:Hu
    end; simpl in Hrun; simplify_eq;
    try done; try (apply store_ok_db_patch; [done | keep_keys]); try new_key.
  - (* handleSubscriptionUpdated: the conditional spreads *)
    apply store_ok_db_patch; [done|]. unfold spread_if.
    repeat match goal with |- context [if ?b then _ else _] => destruct b end; keep_keys.
  - (* handleInvoiceCreated: the subscription lookup *)
    destruct (truthy_str (ic_stripeSubscriptionId args)); simpl in Hrun;
      [destruct (unique _) as [[[i d]|]|e] eqn:Hs in Hrun|];
      simpl in Hrun; simplify_eq; new_key.
  - (* handlePaymentIntentSucceeded: the backfill *)
    destruct (_ && _) in Hrun; simplify_eq;
      [apply store_ok_db_patch; [done | keep_keys] | done].
  - (* updatePaymentCustomer *)
    destruct (negb _) in Hrun; simplify_eq;
      [apply store_ok_db_patch; [done | keep_keys] | done].
Qed.

Lemma reachable_store_ok st : reachable st → store_ok st.
Proof.
  induction 1 as [|st st' op now _ IH Hrun]; [apply store_ok_empty|].
  by eapply run_store_ok.
Qed.

(** ** Looking a record up by its key *)

Lemma unique_absent tbl f k st :
  size (records tbl f k st) = 0 → unique (records tbl f k st) = Ok None.
Proof. intros H. by apply unique_None, map_size_empty_iff. Qed.

Lemma unique_found tbl f k st i d :
  store_ok st → (tbl, f) ∈ natural_keys →
  table tbl st !! i = Some d → d !! f = Some (VStr k) →
  unique (records tbl f k st) = Ok (Some (i, d)).
Proof.
  intros Hok Hin Hi Hd.
  assert (Hr : records tbl f k st !! i = Some d) by by apply records_lookup.
  destruct (unique_total _ (Hok tbl f k Hin)) as [[He _]|(j & d' & He & Hu)].
  - rewrite He in Hr. by rewrite lookup_empty in Hr.
  - rewrite Hu. rewrite He in Hr. apply lookup_singleton_Some in Hr as [-> ->]. done.
Qed.

Lemma unique_records_inv tbl f k st i d :
  unique (records tbl f k st) = Ok (Some (i, d)) →
  table tbl st !! i = Some d ∧ d !! f = Some (VStr k).
Proof.
  intros Hu%unique_Some. apply records_lookup. rewrite Hu. apply lookup_singleton_eq.
Qed.

Lemma db_patch_lookup name id p st :
  table name (db_patch name id p st) !! id = (λ d, patch_doc d p) <$> table name st !! id.
Proof. rewrite table_db_patch. apply lookup_alter_eq. Qed.

Lemma db_patch_lookup_ne name id p st j :
  id ≠ j → table name (db_patch name id p st) !! j = table name st !! j.
Proof. intros. rewrite table_db_patch. by apply lookup_alter_ne. Qed.

Lemma db_patch_other_table name name' id p st :
  name ≠ name' → table name' (db_patch name id p st) = table name' st.
Proof. intros. unfold db_patch. by apply table_insert_ne. Qed.

Ltac in_keys := unfold natural_keys; repeat first [apply list_elem_of_here | apply list_elem_of_further].

(** Read the index queries of a handler as [records]. *)
Ltac fold_records_in H :=
  repeat match type of H with
  | context [withIndex ?f (VStr ?k) (table ?t ?s)] =>
      change (withIndex f (VStr k) (table t s)) with (records t f k s) in H
  end.

Ltac fold_records :=
  repeat match goal with
  | |- context [withIndex ?f (VStr ?k) (table ?t ?s)] =>
      change (withIndex f (VStr k) (table t s)) with (records t f k s)
  end.

Ltac unfold_handler :=
  lazymatch goal with
  | |- context [?h _ _ _ = _] => unfold h
  end; fold_records.

(** ** Updates of a missing record (C5) *)

(** C5.  An update-class handler (customer update, subscription update,
    invoice paid, invoice payment-failed) applied with a key that has no
    record returns normally and commits the store it was given: nothing is
    patched and nothing is inserted. *)
Theorem update_of_missing_record_is_noop op now st :
  update_class op = true →
  size (target_records op st) = 0 →
  run op now st = Ok st.
Proof.
  intros Hop Hnone. destruct op; try discriminate Hop; simpl in *;
    lazymatch goal with
    | |- ?h _ _ _ = _ => unfold h
    end; fold_records; by rewrite unique_absent.
Qed.

Lemma assigned_not_in p f : f ∉ p.*1 → assigned p f = None.
Proof.
  induction p as [|kv p IH]; simpl; [done|].
  intros [Hne Hp]%not_elem_of_cons. rewrite (IH Hp).
  by destruct (String.eqb_spec kv.1 f).
Qed.

(** [f] is none of the properties a literal names. *)
Ltac fields_apart :=
  simpl; repeat (apply not_elem_of_cons; split; [congruence|]); apply not_elem_of_nil.

(** What a patch of the record [(i, d)] of table [name] leaves behind. *)
Lemma db_patch_frame name i d p st :
  table name st !! i = Some d →
  table name (db_patch name i p st) !! i = Some (patch_doc d p)
  ∧ (∀ j, j ≠ i → table name (db_patch name i p st) !! j = table name st !! j)
  ∧ (∀ name', name' ≠ name → table name' (db_patch name i p st) = table name' st).
Proof.
  intros Hi. split_and!.
  - by rewrite db_patch_lookup, Hi.
  - intros j Hj. by apply db_patch_lookup_ne.
  - intros name' Hn. by apply db_patch_other_table.
Qed.

(** ** Cancelling a subscription (C7) *)

(** C7.  For an existing subscription record, the subscription-delete
    handler commits a store in which that record has [status = "canceled"]
    and every other field (customer reference, currentPeriodEnd,
    cancelAtPeriodEnd, quantity, priceId, metadata, orgId, userId, ...) as
    before; no other record and no other table changes. *)
Theorem subscription_deleted_patches_status_only id now st i d :
  reachable st →
  table "subscriptions" st !! i = Some d →
  d !! "stripeSubscriptionId" = Some (VStr id) →
  ∃ st' d',
    handleSubscriptionDeleted id now st = Ok st'
    ∧ table "subscriptions" st' !! i = Some d'
    ∧ d' !! "status" = Some (VStr "canceled")
    ∧ (∀ f, f ≠ "status" → d' !! f = d !! f)
    ∧ (∀ j, j ≠ i → table "subscriptions" st' !! j = table "subscriptions" st !! j)
    ∧ (∀ name, name ≠ "subscriptions" → table name st' = table name st).
Proof.
  intros Hok%reachable_store_ok Hi Hd.
  unfold handleSubscriptionDeleted. fold_records.
  rewrite (unique_found "subscriptions" "stripeSubscriptionId" id st i d
             Hok ltac:(in_keys) Hi Hd). simpl.
  destruct (db_patch_frame "subscriptions" i d [("status", str "canceled")] st Hi)
    as (Hp & Hothers & Htables).
  eexists _, _. split_and!; [done | exact Hp | | | exact Hothers | exact Htables].
  - by rewrite patch_doc_lookup.
  - intros f Hf. rewrite patch_doc_lookup, assigned_not_in; [done | fields_apart].
Qed.

Lemma reachable_store_with_subscription : reachable store_with_subscription.
Proof.
  eapply (reach_commit ∅ _
            (OpHandleSubscriptionCreated (subscriptionCreatedArgs sample_subscription))
            sample_time); [apply reach_empty|].
  compute_done.
Qed.

Lemma reachable_store_with_customer : reachable store_with_customer.
Proof.
  eapply (reach_commit ∅ _ (OpHandleCustomerCreated sample_customer) sample_time);
    [apply reach_empty|].
  compute_done.
Qed.

(** ** Customer patches (C10) *)

(** C10.  For an existing customer record, the customer-update handler and
    [createOrUpdateCustomer] commit the same store, in which the record's
    email, name and metadata are exactly the incoming arguments (an argument
    absent from the call leaves the record without that field) and every
    other field is as before. *)
Theorem customer_patch_is_unconditional args now st i d :
  reachable st →
  table "customers" st !! i = Some d →
  d !! "stripeCustomerId" = Some (VStr (cu_stripeCustomerId args)) →
  ∃ st' d',
    handleCustomerUpdated args now st = Ok st'
    ∧ createOrUpdateCustomer args now st = Ok st'
    ∧ table "customers" st' !! i = Some d'
    ∧ d' !! "email" = VStr <$> cu_email args
    ∧ d' !! "name" = VStr <$> cu_name args
    ∧ d' !! "metadata" = VObj <$> cu_metadata args
    ∧ (cu_email args = None → d' !! "email" = None)
    ∧ (cu_name args = None → d' !! "name" = None)
    ∧ (cu_metadata args = None → d' !! "metadata" = None)
    ∧ (∀ f, f ≠ "email" → f ≠ "name" → f ≠ "metadata" → d' !! f = d !! f).
Proof.
  intros Hok%reachable_store_ok Hi Hd.
  unfold handleCustomerUpdated, createOrUpdateCustomer. fold_records.
  rewrite (unique_found "customers" "stripeCustomerId" _ st i d
             Hok ltac:(in_keys) Hi Hd). simpl.
  set (p := [("email", opt_str (cu_email args)); ("name", opt_str (cu_name args));
             ("metadata", opt_obj (cu_metadata args))]).
  destruct (db_patch_frame "customers" i d p st Hi) as (Hp & _ & _).
  assert (He : patch_doc d p !! "email" = VStr <$> cu_email args).
  { rewrite patch_doc_lookup. simpl. by destruct (cu_email args). }
  assert (Hn : patch_doc d p !! "name" = VStr <$> cu_name args).
  { rewrite patch_doc_lookup. simpl. by destruct (cu_name args). }
  assert (Hm : patch_doc d p !! "metadata" = VObj <$> cu_metadata args).
  { rewrite patch_doc_lookup. simpl. by destruct (cu_metadata args). }
  eexists _, _. split_and!; [done | done | exact Hp | done | done | done | | | |].
  - intros E. by rewrite He, E.
  - intros E. by rewrite Hn, E.
  - intros E. by rewrite Hm, E.
  - intros f ? ? ?. rewrite patch_doc_lookup, assigned_not_in; [done | fields_apart].
Qed.

Lemma customer_patch_is_unconditional_witness :
  ∃ st',
    handleCustomerUpdated sample_customer_update sample_time store_with_customer = Ok st'
    ∧ field_of "customers" 0 "email" store_with_customer = Some (VStr "ada@example.com")
    ∧ field_of "customers" 0 "email" st' = None
    ∧ field_of "customers" 0 "name" st' = Some (VStr "Ada L.")
    ∧ field_of "customers" 0 "metadata" st' = None.
Proof.
  destruct (customer_patch_is_unconditional sample_customer_update sample_time
              store_with_customer 0 sample_customer_doc)
    as (st' & d' & Hu & _ & Hd' & He & Hn & Hm & _);
    [exact reachable_store_with_customer | compute_done | compute_done |].
  exists st'. unfold field_of at 2 3 4. rewrite Hd'. simpl.
  rewrite He, Hn, Hm. split_and!; [exact Hu | compute_done | done | done | done].
Defined.

(** ** Subscription updates and the linkage fields (C2) *)

(** What the two update operations do to the linkage fields of an
    existing subscription record:
    - the webhook subscription-update handler leaves the stored [orgId]
      ([userId]) unchanged when the incoming metadata does not carry it
      (including when metadata is omitted), and overwrites it with the
      incoming value when it does;
    - [updateSubscriptionMetadata] sets [orgId] and [userId] to exactly its
      arguments: a supplied value overwrites the stored one, an omitted
      argument removes it. *)
Theorem subscription_update_linkage st i d :
  reachable st →
  table "subscriptions" st !! i = Some d →
  (∀ args now,
     d !! "stripeSubscriptionId" = Some (VStr (su_stripeSubscriptionId args)) →
     ∃ st' d',
       handleSubscriptionUpdated args now st = Ok st'
       ∧ table "subscriptions" st' !! i = Some d'
       ∧ (∀ f, f = "orgId" ∨ f = "userId" →
            d' !! f = match su_metadata args ≫= (.!! f) with
                      | Some v => Some (VStr v)
                      | None => d !! f
                      end))
  ∧ (∀ args now,
       d !! "stripeSubscriptionId" = Some (VStr (sm_stripeSubscriptionId args)) →
       ∃ st' d',
         updateSubscriptionMetadata args now st = Ok st'
         ∧ table "subscriptions" st' !! i = Some d'
         ∧ d' !! "orgId" = VStr <$> sm_orgId args
         ∧ d' !! "userId" = VStr <$> sm_userId args).
Proof.
  intros Hok%reachable_store_ok Hi. split; intros args now Hd.
  - unfold handleSubscriptionUpdated. fold_records.
    rewrite (unique_found "subscriptions" "stripeSubscriptionId" _ st i d
               Hok ltac:(in_keys) Hi Hd). simpl.
    eexists _, _. split; [done|]. split; [by apply db_patch_frame|].
    intros f Hf. rewrite patch_doc_lookup.
    destruct (su_metadata args) as [m|]; simpl.
    + destruct Hf as [-> | ->]; destruct (m !! "orgId"), (m !! "userId"); done.
    + rewrite !lookup_empty. destruct Hf as [-> | ->]; done.
  - unfold updateSubscriptionMetadata. fold_records.
    rewrite (unique_found "subscriptions" "stripeSubscriptionId" _ st i d
               Hok ltac:(in_keys) Hi Hd). simpl.
    eexists _, _. split; [done|]. split; [by apply db_patch_frame|].
    rewrite !patch_doc_lookup. simpl.
    by destruct (sm_orgId args), (sm_userId args).
Qed.

Lemma subscription_update_linkage_witness :
  field_of "subscriptions" 0 "orgId" store_with_subscription = Some (VStr "org_1")
  ∧ (∃ st', handleSubscriptionUpdated sample_subscription_update sample_time
              store_with_subscription = Ok st'
            ∧ field_of "subscriptions" 0 "orgId" st' = Some (VStr "org_1")
            ∧ field_of "subscriptions" 0 "userId" st' = Some (VStr "user_1"))
  ∧ (∃ st', updateSubscriptionMetadata sample_metadata_update sample_time
              store_with_subscription = Ok st'
            ∧ field_of "subscriptions" 0 "orgId" st' = None
            ∧ field_of "subscriptions" 0 "userId" st' = None).
Proof.
  destruct (subscription_update_linkage store_with_subscription 0 sample_subscription_doc)
    as [Hweb Hpub]; [exact reachable_store_with_subscription | compute_done |].
  split; [compute_done|]. split.
  - destruct (Hweb sample_subscription_update sample_time) as (st' & d' & Hu & Hd' & Hf);
      [compute_done|].
    exists st'. split; [exact Hu|]. unfold field_of. rewrite Hd'. simpl.
    rewrite !Hf by auto. compute_done.
  - destruct (Hpub sample_metadata_update sample_time) as (st' & d' & Hu & Hd' & Ho & Hus);
      [compute_done|].
    exists st'. split; [exact Hu|]. unfold field_of. rewrite Hd'. simpl.
    by rewrite Ho, Hus.
Defined.

(** C2 on the code.  The sample subscription is stored with
    [orgId = "org_1"] and [userId = "user_1"]; a call of
    [updateSubscriptionMetadata] that supplies neither commits a record
    without them: the partial update erases the linkage, which the webhook
    handler's patch of the same record takes care not to do. *)
Theorem metadata_update_erases_linkage :
  sm_orgId sample_metadata_update = None
  ∧ sm_userId sample_metadata_update = None
  ∧ field_of "subscriptions" 0 "orgId" store_with_subscription = Some (VStr "org_1")
  ∧ field_of "subscriptions" 0 "userId" store_with_subscription = Some (VStr "user_1")
  ∧ ∃ st', updateSubscriptionMetadata sample_metadata_update sample_time
             store_with_subscription = Ok st'
           ∧ field_of "subscriptions" 0 "orgId" st' = None
           ∧ field_of "subscriptions" 0 "userId" st' = None.
Proof.
  split_and!; [done | done | compute_done | compute_done |].
  exists (commit (updateSubscriptionMetadata sample_metadata_update sample_time
                    store_with_subscription) store_with_subscription).
  split_and!; compute_done.
Qed.

(** ** The customer reference of a payment (C3) *)

Lemma db_insert_lookup_old name p now st i d :
  table name st !! i = Some d → table name (db_insert name p now st) !! i = Some d.
Proof.
  intros Hi. rewrite table_db_insert, lookup_insert_ne; [done|].
  intros E. rewrite <- E, fresh_lookup in Hi. done.
Qed.

Lemma db_insert_other_table name name' p now st :
  name ≠ name' → table name' (db_insert name p now st) = table name' st.
Proof. intros. unfold db_insert. by apply table_insert_ne. Qed.

(** A patch of the customer reference of a payment that has none. *)
Lemma backfill_frame st i d j dj (c : option value) :
  table "payments" st !! i = Some d →
  table "payments" st !! j = Some dj →
  truthy (dj !! "stripeCustomerId") = false →
  ∃ d', table "payments" (db_patch "payments" j [("stripeCustomerId", c)] st) !! i = Some d'
        ∧ (truthy (d !! "stripeCustomerId") = true → d' = d)
        ∧ (d' ≠ d → truthy (d !! "stripeCustomerId") = false
                    ∧ ∀ f, f ≠ "stripeCustomerId" → d' !! f = d !! f).
Proof.
  intros Hi Hj Hnone. destruct (decide (j = i)) as [->|Hne].
  - simplify_eq. eexists. split; [by rewrite db_patch_lookup, Hi|]. split.
    + intros Ht. congruence.
    + intros _. split; [done|]. intros f Hf.
      rewrite patch_doc_lookup, assigned_not_in; [done | fields_apart].
  - exists d. split; [by rewrite db_patch_lookup_ne|]. split; [done|]. by intros [].
Qed.

(** C3.  Under every mutation of the component, a payment record stays in
    the store; if its customer reference is set (non-empty) the record is
    exactly as before; and a record that did change had no customer
    reference and differs in nothing but the customer reference. *)
Theorem payment_customer_is_monotonic op now st i d :
  table "payments" st !! i = Some d →
  ∃ d', table "payments" (commit (run op now st) st) !! i = Some d'
        ∧ (truthy (d !! "stripeCustomerId") = true → d' = d)
        ∧ (d' ≠ d → truthy (d !! "stripeCustomerId") = false
                    ∧ ∀ f, f ≠ "stripeCustomerId" → d' !! f = d !! f).
Proof.
  intros Hi.
  assert (Hsame : ∀ t : Table, t !! i = Some d →
            ∃ d', t !! i = Some d'
                  ∧ (truthy (d !! "stripeCustomerId") = true → d' = d)
                  ∧ (d' ≠ d → truthy (d !! "stripeCustomerId") = false
                              ∧ ∀ f, f ≠ "stripeCustomerId" → d' !! f = d !! f)).
  { intros t Ht. exists d. split; [done|]. split; [done|]. by intros []. }
  destruct op; simpl;
    lazymatch goal with
    | |- context [commit (?h _ _ _) _] => unfold h
    end; fold_records;
    lazymatch goal with
    | |- context [unique ?r] => destruct (unique r) as [[[j dj]|]|e] eqn:Hu
    end; simpl; try (by apply Hsame);
    try (rewrite db_patch_other_table by done; by apply Hsame);
    try (rewrite db_insert_other_table by done; by apply Hsame).
  - (* handleInvoiceCreated *)
    clear Hu. destruct (truthy_str _); simpl;
      [destruct (unique _) as [[[k dk]|]|e]|]; simpl;
      try (rewrite db_insert_other_table by done); by apply Hsame.
  - (* handlePaymentIntentSucceeded, record present *)
    apply unique_records_inv in Hu as [Hj _].
    destruct (truthy_str _); simpl; [|by apply Hsame].
    destruct (truthy (dj !! "stripeCustomerId")) eqn:Hc; simpl; [by apply Hsame|].
    by eapply backfill_frame.
  - (* handlePaymentIntentSucceeded, record absent *)
    apply Hsame. by apply db_insert_lookup_old.
  - (* updatePaymentCustomer *)
    apply unique_records_inv in Hu as [Hj _].
    destruct (truthy (dj !! "stripeCustomerId")) eqn:Hc; simpl; [by apply Hsame|].
    by eapply backfill_frame.
Qed.

Lemma payment_customer_is_monotonic_witness :
  field_of "payments" 0 "stripeCustomerId" store_with_payment = Some (VStr "cus_1")
  ∧ field_of "payments" 0 "stripeCustomerId"
      (commit (run (OpUpdatePaymentCustomer sample_backfill) sample_time store_with_payment)
         store_with_payment) = Some (VStr "cus_1").
Proof.
  destruct (payment_customer_is_monotonic (OpUpdatePaymentCustomer sample_backfill)
              sample_time store_with_payment 0 sample_payment_doc)
    as (d' & Hd' & Hkeep & _); [compute_done|].
  split; [compute_done|]. unfold field_of. rewrite Hd'. simpl.
  rewrite Hkeep by compute_done. compute_done.
Defined.

(** ** Replaying a create (C4) *)

Lemma records_after_insert name f k p now st :
  f ≠ "_creationTime" →
  assigned p f = Some (Some (VStr k)) →
  records name f k st = ∅ →
  records name f k (db_insert name p now st)
  = {[fresh (dom (table name st)) := <["_creationTime" := VNum now]> (to_doc p)]}.
Proof. intros Hf Hp He. by rewrite records_db_insert_key, He, insert_empty. Qed.

Lemma truthy_opt_str a : truthy (opt_str a) = truthy_str a.
Proof. by destruct a. Qed.

(** After an insert under key [k], the handler finds what it inserted. *)
Ltac find_inserted :=
  fold_records;
  lazymatch goal with
  | |- context [records ?n ?f ?k (db_insert ?n ?p ?t ?s)] =>
      rewrite !(records_after_insert n f k p t s)
        by first [done | by apply unique_None | by apply map_size_empty_iff]
  end.

(** A create commits, a second application with the same arguments commits
    the very same store, and that store holds one record under the key. *)
Lemma create_then_replay op now now' st :
  create_class op = true →
  reachable st →
  ∃ st1,
    run op now st = Ok st1
    ∧ run op now' st1 = Ok st1
    ∧ size (target_records op st1) = 1.
Proof.
  intros Hop Hok%reachable_store_ok.
  destruct op; try discriminate Hop; clear Hop; unfold target_records; simpl.
  - (* customer *)
    unfold handleCustomerCreated. fold_records.
    destruct (unique_total _ (Hok "customers" "stripeCustomerId"
                (cu_stripeCustomerId args) ltac:(in_keys))) as [[He Hu]|(i & d & He & Hu)];
      rewrite Hu; simpl; eexists; (split; [reflexivity|]).
    + find_inserted. rewrite unique_singleton, map_size_singleton. done.
    + fold_records. rewrite Hu, He, map_size_singleton. done.
  - (* subscription *)
    unfold handleSubscriptionCreated. fold_records.
    destruct (unique_total _ (Hok "subscriptions" "stripeSubscriptionId"
                (sc_stripeSubscriptionId args) ltac:(in_keys))) as [[He Hu]|(i & d & He & Hu)];
      rewrite Hu; simpl; eexists; (split; [reflexivity|]).
    + find_inserted. rewrite unique_singleton, map_size_singleton. done.
    + fold_records. rewrite Hu, He, map_size_singleton. done.
  - (* invoice *)
    unfold handleInvoiceCreated. fold_records.
    destruct (unique_total _ (Hok "invoices" "stripeInvoiceId"
                (ic_stripeInvoiceId args) ltac:(in_keys))) as [[He Hu]|(i & d & He & Hu)];
      rewrite Hu; simpl.
    + assert (Hlinked : ∃ linked : option value * option value,
                (if truthy_str (ic_stripeSubscriptionId args) then
                   subscription <-? unique (records "subscriptions" "stripeSubscriptionId"
                                      (default "" (ic_stripeSubscriptionId args)) st) ;;
                   match subscription with
                   | Some d => Ok (d.2 !! "orgId", d.2 !! "userId")
                   | None => Ok (None, None)
                   end
                 else Ok (None, None)) = Ok linked).
      { destruct (truthy_str _); [|by eexists].
        destruct (unique_total _ (Hok "subscriptions" "stripeSubscriptionId"
                    (default "" (ic_stripeSubscriptionId args)) ltac:(in_keys)))
          as [[_ Hs]|(j & dj & _ & Hs)]; rewrite Hs; simpl; by eexists. }
      destruct Hlinked as [linked ->]. simpl.
      eexists; (split; [reflexivity|]).
      find_inserted. rewrite unique_singleton, map_size_singleton. done.
    + eexists; (split; [reflexivity|]). fold_records. rewrite Hu, He, map_size_singleton. done.
  - (* payment *)
    unfold handlePaymentIntentSucceeded. fold_records.
    destruct (unique_total _ (Hok "payments" "stripePaymentIntentId"
                (pa_stripePaymentIntentId args) ltac:(in_keys))) as [[He Hu]|(i & d & He & Hu)];
      rewrite Hu; simpl.
    + eexists; (split; [reflexivity|]).
      find_inserted. rewrite unique_singleton, map_size_singleton. simpl.
      rewrite inserted_lookup by done. simpl.
      rewrite truthy_opt_str. by destruct (truthy_str _).
    + destruct (truthy_str (pa_stripeCustomerId args)
                && negb (truthy (d !! "stripeCustomerId"))) eqn:Hc;
        eexists; (split; [reflexivity|]).
      * fold_records. rewrite !records_db_patch, He, alter_singleton_eq by done.
        rewrite unique_singleton, map_size_singleton. simpl.
        rewrite patch_doc_lookup. simpl. rewrite truthy_opt_str.
        apply andb_true_iff in Hc as [-> _]. done.
      * fold_records. rewrite Hu. simpl. rewrite Hc, He, map_size_singleton. done.
Qed.

(** A create handler that finds a record under its key: only the payment
    handler writes, and only a customer reference that the record lacks. *)
Lemma create_on_existing op now st i d :
  create_class op = true →
  target_records op st = {[i := d]} →
  run op now st
  = Ok match op with
       | OpHandlePaymentIntentSucceeded args =>
           if truthy_str (pa_stripeCustomerId args) && negb (truthy (d !! "stripeCustomerId"))
           then db_patch "payments" i
                  [("stripeCustomerId", opt_str (pa_stripeCustomerId args))] st
           else st
       | _ => st
       end.
Proof.
  intros Hop Hr. unfold target_records in Hr.
  destruct op; try discriminate Hop; clear Hop; simpl in *;
    lazymatch goal with
    | |- ?h _ _ _ = _ => unfold h
    end; fold_records; rewrite Hr, unique_singleton; simpl; try done.
  by destruct (_ && _).
Qed.

Lemma size_1_singleton (r : Table) : size r = 1 → ∃ i d, r = {[i := d]}.
Proof.
  intros Hsz. destruct (size_le_1_cases r) as [->|?]; [lia | | done].
  by rewrite map_size_empty in Hsz.
Qed.

(** C4.  For each entity (customer, subscription, invoice, payment),
    starting from any store the component can be in, the create handler
    commits, and a second application of the same handler under the same
    provider-assigned key, whatever its other arguments, commits a store
    with exactly one record under that key.  The second application leaves
    the store unchanged when it carries the same arguments, and always for
    customers, subscriptions and invoices.  For a payment it leaves the
    store unchanged when it names no customer or the record has one;
    otherwise it sets the record's customer reference and changes nothing
    else. *)
Theorem create_is_idempotent op op' now now' st :
  create_class op = true →
  create_class op' = true →
  target op' = target op →
  reachable st →
  ∃ st1 st2 i d d2,
    run op now st = Ok st1
    ∧ run op' now' st1 = Ok st2
    ∧ target_records op st1 = {[i := d]}
    ∧ target_records op st2 = {[i := d2]}
    ∧ (op' = op → st2 = st1)
    ∧ (plain_create op = true → st2 = st1)
    ∧ (∀ args', op' = OpHandlePaymentIntentSucceeded args' →
         (truthy_str (pa_stripeCustomerId args') = false
          ∨ truthy (d !! "stripeCustomerId") = true → st2 = st1)
         ∧ (truthy_str (pa_stripeCustomerId args') = true →
            truthy (d !! "stripeCustomerId") = false →
            d2 !! "stripeCustomerId" = VStr <$> pa_stripeCustomerId args')
         ∧ (∀ f, f ≠ "stripeCustomerId" → d2 !! f = d !! f)
         ∧ (∀ name j, (name, j) ≠ ("payments", i) →
              table name st2 !! j = table name st1 !! j)).
Proof.
  intros Hop Hop' Htarget Hreach.
  destruct (create_then_replay op now now' st Hop Hreach) as (st1 & Hrun1 & Hreplay & Hsize).
  destruct (size_1_singleton _ Hsize) as (i & d & Hr).
  assert (Hr' : target_records op' st1 = {[i := d]})
    by (unfold target_records in *; by rewrite Htarget).
  pose proof (create_on_existing op' now' st1 i d Hop' Hr') as Hrun2.
  assert (Hplain : plain_create op = true → plain_create op' = true).
  { destruct op; try discriminate Hop; destruct op'; try discriminate Hop';
      simpl in Htarget; done. }
  destruct (plain_create op') eqn:Hp'.
  - (* customer, subscription, invoice *)
    assert (Hst : run op' now' st1 = Ok st1)
      by (rewrite Hrun2; destruct op'; done).
    exists st1, st1, i, d, d. split_and!; try done.
    intros args' ->. discriminate Hp'.
  - (* payment *)
    destruct op'; try discriminate Hop'; try discriminate Hp'.
    match goal with a : PaymentIntentArgs |- _ => rename a into args' end.
    cbv beta iota in Hrun2.
    assert (Hkey : ∀ s, target_records op s
                        = records "payments" "stripePaymentIntentId"
                            (pa_stripePaymentIntentId args') s)
      by (intros s; unfold target_records; by rewrite <- Htarget).
    apply unique_Some, unique_records_inv in Hr' as Hid. simpl in Hid. destruct Hid as [Hi Hd].
    destruct (truthy_str (pa_stripeCustomerId args')
              && negb (truthy (d !! "stripeCustomerId"))) eqn:Hc.
    + apply andb_true_iff in Hc as Hc'. destruct Hc' as [Hnew Hold%negb_true_iff].
      destruct (db_patch_frame "payments" i d
                  [("stripeCustomerId", opt_str (pa_stripeCustomerId args'))] st1 Hi)
        as (Hi2 & Hrest & Hother).
      eexists st1, _, i, d, _. split_and!; [done | exact Hrun2 | done | | | | ].
      * rewrite Hkey, records_db_patch by done.
        rewrite <- Hkey, Hr. apply alter_singleton_eq.
      * intros E. rewrite <- E in Hreplay. congruence.
      * intros Hp. by rewrite (Hplain Hp) in Hp'.
      * intros a E. injection E as <-. split_and!.
        -- intros [E|E]; congruence.
        -- intros _ _. rewrite patch_doc_lookup. simpl. by destruct (pa_stripeCustomerId args').
        -- intros f Hf. rewrite patch_doc_lookup, assigned_not_in; [done | fields_apart].
        -- intros name j Hne. destruct (decide (name = "payments")) as [->|Hn].
           ++ apply Hrest. congruence.
           ++ by rewrite Hother.
    + exists st1, st1, i, d, d. split_and!; try done.
      intros a E. injection E as <-. split_and!; try done.
      intros Hnew Hold. by rewrite Hnew, Hold in Hc.
Qed.

Lemma create_is_idempotent_witness :
  ∃ st1 st2 i d d2,
    run (OpHandlePaymentIntentSucceeded sample_anonymous_payment) sample_time
      store_with_subscription = Ok st1
    ∧ run (OpHandlePaymentIntentSucceeded sample_payment_with_customer) one_second_later st1
      = Ok st2
    ∧ target_records (OpHandlePaymentIntentSucceeded sample_anonymous_payment) st1 = {[i := d]}
    ∧ target_records (OpHandlePaymentIntentSucceeded sample_anonymous_payment) st2 = {[i := d2]}
    ∧ (OpHandlePaymentIntentSucceeded sample_payment_with_customer
       = OpHandlePaymentIntentSucceeded sample_anonymous_payment → st2 = st1)
    ∧ (plain_create (OpHandlePaymentIntentSucceeded sample_anonymous_payment) = true →
       st2 = st1)
    ∧ (∀ args',
         OpHandlePaymentIntentSucceeded sample_payment_with_customer
         = OpHandlePaymentIntentSucceeded args' →
         (truthy_str (pa_stripeCustomerId args') = false
          ∨ truthy (d !! "stripeCustomerId") = true → st2 = st1)
         ∧ (truthy_str (pa_stripeCustomerId args') = true →
            truthy (d !! "stripeCustomerId") = false →
            d2 !! "stripeCustomerId" = VStr <$> pa_stripeCustomerId args')
         ∧ (∀ f, f ≠ "stripeCustomerId" → d2 !! f = d !! f)
         ∧ (∀ name j, (name, j) ≠ ("payments", i) →
              table name st2 !! j = table name st1 !! j)).
Proof.
  apply (create_is_idempotent (OpHandlePaymentIntentSucceeded sample_anonymous_payment)
           (OpHandlePaymentIntentSucceeded sample_payment_with_customer)
           sample_time one_second_later store_with_subscription);
    [reflexivity | reflexivity | reflexivity | exact reachable_store_with_subscription].
Defined.

(** C4, as stated, fails for payments: a second delivery under the key of
    a payment recorded without a customer, this time naming one, changes
    the stored record. *)
Lemma payment_replay_sets_customer :
  pa_stripePaymentIntentId sample_payment_with_customer
  = pa_stripePaymentIntentId sample_anonymous_payment
  ∧ ∃ st1 st2,
      handlePaymentIntentSucceeded sample_anonymous_payment sample_time ∅ = Ok st1
      ∧ handlePaymentIntentSucceeded sample_payment_with_customer one_second_later st1
        = Ok st2
      ∧ size (records "payments" "stripePaymentIntentId" "pi_1" st2) = 1
      ∧ field_of "payments" 0 "stripeCustomerId" st1 = None
      ∧ field_of "payments" 0 "stripeCustomerId" st2 = Some (VStr "cus_1")
      ∧ st2 ≠ st1.
Proof.
  split; [done|].
  exists store_with_anonymous_payment,
    (commit (handlePaymentIntentSucceeded sample_payment_with_customer one_second_later
               store_with_anonymous_payment) store_with_anonymous_payment).
  assert (H1 : field_of "payments" 0 "stripeCustomerId" store_with_anonymous_payment = None)
    by compute_done.
  split_and!; [compute_done | compute_done | compute_done | done | compute_done |].
  intros E. rewrite <- E in H1. revert H1. compute_done.
Qed.

Lemma update_of_missing_record_is_noop_witness :
  run (OpHandleCustomerUpdated sample_customer_update) sample_time store_with_subscription
  = Ok store_with_subscription.
Proof.
  apply (update_of_missing_record_is_noop (OpHandleCustomerUpdated sample_customer_update));
    [reflexivity | compute_done].
Defined.

Lemma subscription_deleted_patches_status_only_witness :
  ∃ st',
    handleSubscriptionDeleted "sub_1" one_second_later store_with_subscription = Ok st'
    ∧ field_of "subscriptions" 0 "status" st' = Some (VStr "canceled")
    ∧ field_of "subscriptions" 0 "orgId" st' = Some (VStr "org_1")
    ∧ field_of "subscriptions" 0 "quantity" st' = Some (VNum 1).
Proof.
  destruct (subscription_deleted_patches_status_only "sub_1" one_second_later
              store_with_subscription 0 sample_subscription_doc)
    as (st' & d' & Hrun & Hd' & Hstatus & Hframe & _);
    [exact reachable_store_with_subscription | compute_done | compute_done |].
  exists st'. unfold field_of. rewrite Hd'. simpl.
  rewrite Hstatus, !Hframe by done. split_and!; [exact Hrun | done | compute_done..].
Defined.

(** ** Subscription creation through the router (C9) *)

(** C9.  A [customer.subscription.created] event is dispatched to the
    subscription create handler with [currentPeriodEnd] and [quantity] taken
    from the first line item, defaulting to [0] and [1] when the item or its
    value is absent; when no record exists yet for the subscription, the
    dispatch commits exactly one record for it, with those values and with
    [orgId]/[userId] read from the event's metadata. *)
Theorem subscription_created_uses_first_item stripe subscription now st :
  (∃ args,
     processEvent stripe (customer_subscription_created subscription) now
     = runMutation (handleSubscriptionCreated args) now
     ∧ sc_stripeSubscriptionId args = s_id subscription
     ∧ sc_currentPeriodEnd args
       = match s_items subscription with
         | item :: _ => default 0%Z (si_current_period_end item)
         | [] => 0%Z
         end
     ∧ sc_quantity args
       = Some match s_items subscription with
              | item :: _ => default 1%Z (si_quantity item)
              | [] => 1%Z
              end)
  ∧ (size (records "subscriptions" "stripeSubscriptionId" (s_id subscription) st) = 0 →
     ∃ st' i d,
       processEvent stripe (customer_subscription_created subscription) now st = (Ok tt, st')
       ∧ records "subscriptions" "stripeSubscriptionId" (s_id subscription) st' = {[i := d]}
       ∧ d !! "currentPeriodEnd"
         = Some (VNum match s_items subscription with
                      | item :: _ => default 0%Z (si_current_period_end item)
                      | [] => 0%Z
                      end)
       ∧ d !! "quantity"
         = Some (VNum match s_items subscription with
                      | item :: _ => default 1%Z (si_quantity item)
                      | [] => 1%Z
                      end)
       ∧ d !! "orgId" = VStr <$> (s_metadata subscription ≫= (.!! "orgId"))
       ∧ d !! "userId" = VStr <$> (s_metadata subscription ≫= (.!! "userId"))).
Proof.
  assert (Hend : item_current_period_end subscription
                 = match s_items subscription with
                   | item :: _ => default 0%Z (si_current_period_end item)
                   | [] => 0%Z
                   end).
  { unfold item_current_period_end, first_item.
    destruct (s_items subscription) as [|item ?]; simpl; [done|].
    by destruct (si_current_period_end item). }
  assert (Hqty : item_quantity subscription
                 = match s_items subscription with
                   | item :: _ => default 1%Z (si_quantity item)
                   | [] => 1%Z
                   end).
  { unfold item_quantity, first_item.
    destruct (s_items subscription) as [|item ?]; simpl; [done|].
    by destruct (si_quantity item). }
  split.
  - exists (subscriptionCreatedArgs subscription). simpl.
    by rewrite Hend, Hqty.
  - intros Hnone. simpl. unfold runMutation, handleSubscriptionCreated. fold_records.
    simpl. rewrite unique_absent by done. simpl.
    eexists _, _, _. split; [reflexivity|]. find_inserted.
    split; [reflexivity|].
    rewrite !inserted_lookup by done. simpl. rewrite Hend, Hqty.
    split_and!; try done.
    + by destruct (s_metadata subscription) as [m|]; simpl;
        [destruct (m !! "orgId") | rewrite lookup_empty].
    + by destruct (s_metadata subscription) as [m|]; simpl;
        [destruct (m !! "userId") | rewrite lookup_empty].
Qed.

Lemma subscription_created_uses_first_item_witness :
  ∃ st' i d,
    processEvent offline_stripe (customer_subscription_created sample_subscription)
      sample_time ∅ = (Ok tt, st')
    ∧ records "subscriptions" "stripeSubscriptionId" "sub_1" st' = {[i := d]}
    ∧ d !! "quantity" = Some (VNum 1)
    ∧ d !! "orgId" = Some (VStr "org_1")
    ∧ d !! "userId" = Some (VStr "user_1").
Proof.
  destruct (subscription_created_uses_first_item offline_stripe sample_subscription
              sample_time ∅) as [_ Hstored].
  destruct Hstored as (st' & i & d & Hrun & Hrec & _ & Hq & Ho & Hu); [compute_done|].
  exists st', i, d. split_and!; [exact Hrun | exact Hrec | exact Hq | |].
  - rewrite Ho. compute_done.
  - rewrite Hu. compute_done.
Defined.

(** ** The guards of [payment_intent.succeeded] (C6, C1) *)

(** What [listSubscriptions] returns carries no [_creationTime]. *)
Lemma listed_subscription_has_no_creation_time customer st sub :
  sub ∈ listSubscriptions customer st → sub !! "_creationTime" = None.
Proof.
  unfold listSubscriptions. intros (d & -> & _)%list_elem_of_fmap.
  apply lookup_delete_eq.
Qed.

(** So the recent-subscription guard finds nothing, whatever the store
    holds and whenever the event is dispatched. *)
Lemma recent_guard_never_trips now customer st :
  recentSubscription now (listSubscriptions customer st) = None.
Proof.
  unfold recentSubscription.
  assert (H : ∀ sub, sub ∈ listSubscriptions customer st → sub !! "_creationTime" = None)
    by apply listed_subscription_has_no_creation_time.
  induction (listSubscriptions customer st) as [|sub l IH]; simpl; [done|].
  rewrite (H sub) by apply list_elem_of_here. simpl.
  apply IH. intros sub' Hin. apply H. by apply list_elem_of_further.
Qed.

(** Past the invoice guard the payment handler always runs. *)
Lemma payment_intent_dispatch stripe paymentIntent now st :
  is_subscription_payment stripe paymentIntent = false →
  processEvent stripe (payment_intent_succeeded paymentIntent) now st
  = runMutation (handlePaymentIntentSucceeded (paymentIntentArgs paymentIntent)) now st.
Proof.
  intros Hguard. simpl. rewrite Hguard.
  destruct (truthy_str (pi_customer paymentIntent)); [|done].
  unfold abind, runQuery, aret. by rewrite recent_guard_never_trips.
Qed.

(** C6.  For a [payment_intent.succeeded] event whose payment intent names
    an invoice: when the remote lookup succeeds and the invoice belongs to a
    subscription, dispatch returns without running the payment handler and
    the store is unchanged (no payment record is created); when the lookup
    throws, dispatch does exactly what it does for the same payment intent
    without an invoice reference, which is to run the payment handler: a
    payment that had no record has one afterwards. *)
Theorem invoice_guard stripe paymentIntent now st :
  truthy_str (pi_invoice paymentIntent) = true →
  (∀ invoice,
     invoices_retrieve stripe (default "" (pi_invoice paymentIntent)) = Ok invoice →
     truthy_str (present (inv_subscription invoice)) = true →
     processEvent stripe (payment_intent_succeeded paymentIntent) now st = (Ok tt, st))
  ∧ (∀ e,
       invoices_retrieve stripe (default "" (pi_invoice paymentIntent)) = Err e →
       processEvent stripe (payment_intent_succeeded paymentIntent) now st
       = processEvent stripe (payment_intent_succeeded (without_invoice paymentIntent)) now st
       ∧ processEvent stripe (payment_intent_succeeded paymentIntent) now st
         = runMutation (handlePaymentIntentSucceeded (paymentIntentArgs paymentIntent)) now st
       ∧ (size (records "payments" "stripePaymentIntentId" (pi_id paymentIntent) st) = 0 →
          ∃ st',
            processEvent stripe (payment_intent_succeeded paymentIntent) now st = (Ok tt, st')
            ∧ size (records "payments" "stripePaymentIntentId" (pi_id paymentIntent) st')
              = 1)).
Proof.
  intros Hinv. split.
  - intros invoice Hget Hsub. simpl. unfold is_subscription_payment.
    by rewrite Hinv, Hget, Hsub.
  - intros e Hget.
    assert (Hguard : is_subscription_payment stripe paymentIntent = false)
      by (unfold is_subscription_payment; by rewrite Hinv, Hget).
    split_and!.
    + simpl. unfold is_subscription_payment. by rewrite Hinv, Hget.
    + by apply payment_intent_dispatch.
    + intros Hnone. rewrite payment_intent_dispatch by done.
      unfold runMutation, handlePaymentIntentSucceeded. simpl. fold_records.
      rewrite unique_absent by done. simpl.
      eexists. split; [reflexivity|]. find_inserted. apply map_size_singleton.
Qed.

Lemma invoice_guard_witness :
  processEvent sample_stripe (payment_intent_succeeded sample_invoice_payment_intent)
    one_second_later ∅ = (Ok tt, ∅)
  ∧ ∃ st',
      processEvent offline_stripe (payment_intent_succeeded sample_invoice_payment_intent)
        one_second_later ∅ = (Ok tt, st')
      ∧ size (records "payments" "stripePaymentIntentId" "pi_2" st') = 1.
Proof.
  split.
  - apply (invoice_guard sample_stripe sample_invoice_payment_intent one_second_later ∅
             eq_refl) with sample_invoice; reflexivity.
  - apply (invoice_guard offline_stripe sample_invoice_payment_intent one_second_later ∅
             eq_refl) with "offline"; [reflexivity | compute_done].
Defined.

(** C1 on the code.  The store holds a subscription of customer [cus_1]
    created one second before dispatch; the [payment_intent.succeeded]
    event of that customer is nevertheless handed to the payment handler,
    and a payment record is created. *)
Theorem payment_recorded_despite_recent_subscription :
  field_of "subscriptions" 0 "stripeCustomerId" store_with_subscription = Some (VStr "cus_1")
  ∧ field_of "subscriptions" 0 "_creationTime" store_with_subscription
    = Some (VNum sample_time)
  ∧ (one_second_later - sample_time = 1000)%Z
  ∧ size (records "payments" "stripePaymentIntentId" "pi_2" store_with_subscription) = 0
  ∧ ∃ st',
      processEvent offline_stripe (payment_intent_succeeded sample_payment_intent)
        one_second_later store_with_subscription = (Ok tt, st')
      ∧ size (records "payments" "stripePaymentIntentId" "pi_2" st') = 1.
Proof.
  split_and!; [compute_done | compute_done | compute_done | compute_done |].
  exists (processEvent offline_stripe (payment_intent_succeeded sample_payment_intent)
            one_second_later store_with_subscription).2.
  split; compute_done.
Qed.

(** ** The webhook endpoint (C8) *)

Lemma truthy_str_cases s : truthy_str s = true ∨ truthy_str s = false.
Proof. destruct (truthy_str s); auto. Qed.

(** The gates of the endpoint, in the order the handler passes them, with
    the response each one gives. *)
Lemma webhook_cases new_stripe env config req now st :
  (truthy_str (webhook_secret env config) = false
   ∧ webhook new_stripe env config req now st
     = ({| status := 500; body := "Webhook secret not configured"; content_type := None |}, st))
  ∨ (truthy_str (webhook_secret env config) = true
     ∧ truthy_str (req_signature req) = false
     ∧ webhook new_stripe env config req now st
       = ({| status := 400; body := "No signature provided"; content_type := None |}, st))
  ∨ (truthy_str (webhook_secret env config) = true
     ∧ truthy_str (req_signature req) = true
     ∧ truthy_str (api_key env config) = false
     ∧ webhook new_stripe env config req now st
       = ({| status := 500; body := "Stripe secret key not configured";
             content_type := None |}, st))
  ∨ (truthy_str (webhook_secret env config) = true
     ∧ truthy_str (req_signature req) = true
     ∧ truthy_str (api_key env config) = true
     ∧ ∃ e, verification new_stripe env config req = Err e
            ∧ webhook new_stripe env config req now st
              = ({| status := 400;
                    body := "Webhook signature verification failed: " +:+ e;
                    content_type := None |}, st))
  ∨ (truthy_str (webhook_secret env config) = true
     ∧ truthy_str (req_signature req) = true
     ∧ truthy_str (api_key env config) = true
     ∧ ∃ event e st',
         verification new_stripe env config req = Ok event
         ∧ process_with_hooks (new_stripe (default "" (api_key env config))) config
             event now st = (Err e, st')
         ∧ webhook new_stripe env config req now st
           = ({| status := 500; body := "Error processing webhook";
                 content_type := None |}, st'))
  ∨ (truthy_str (webhook_secret env config) = true
     ∧ truthy_str (req_signature req) = true
     ∧ truthy_str (api_key env config) = true
     ∧ ∃ event st',
         verification new_stripe env config req = Ok event
         ∧ process_with_hooks (new_stripe (default "" (api_key env config))) config
             event now st = (Ok tt, st')
         ∧ webhook new_stripe env config req now st
           = ({| status := 200; body := received_json;
                 content_type := Some "application/json" |}, st')).
Proof.
  unfold webhook, verification.
  fold (webhook_secret env config). fold (api_key env config).
  destruct (truthy_str (webhook_secret env config)) eqn:Hs; cbn [negb];
    [|by left].
  destruct (truthy_str (req_signature req)) eqn:Hsig; cbn [negb];
    [|by right; left].
  destruct (truthy_str (api_key env config)) eqn:Hk; cbn [negb];
    [|by right; right; left].
  destruct (constructEventAsync _ _ _ _) as [event|e] eqn:Hv;
    [|right; right; right; left; split_and!; [done..|]; by exists e].
  destruct (process_with_hooks _ _ _ _ _) as [[[]|e] st'] eqn:Hp.
  - do 5 right. split_and!; [done..|]. by exists event, st'.
  - do 4 right. left. split_and!; [done..|]. by exists event, e, st'.
Qed.

(** Refute a row of the response table that the gates passed so far exclude. *)
Ltac gate_refute :=
  intros; destruct_and?; destruct_or?; destruct_and?;
  repeat match goal with H : ∃ _, _ |- _ => destruct H end;
  destruct_and?; unfold processing in *; simplify_eq;
  repeat match goal with
  | H : ?v = Ok _, H' : ?v = _ |- _ => rewrite H in H'; simplify_eq
  | H : ?x = (_, _), H' : (?x).1 = _ |- _ => rewrite H in H'; simpl in H'
  end;
  first [done | congruence].

(** C8, as the code has it.  The gates are passed in order: signing
    secret, signature header, API key, verification, processing.
    - [200] with body [{"received":true}]: exactly when both secrets are
      configured, the signature header is present, verification succeeds
      and dispatch with the optional hooks completes without exception;
    - [400]: exactly when the signing secret is configured and either the
      signature header is missing, or it is present, the API key is
      configured and verification fails;
    - [500]: exactly when the signing secret is not configured, or it is
      and the header is present but the API key is not configured, or
      verification succeeds and an exception escapes dispatch or the hooks. *)
Theorem webhook_responses new_stripe env config req now st :
  (response_status new_stripe env config req now st = 200%Z
   ↔ secret_configured env config ∧ signature_present req ∧ api_key_configured env config
     ∧ ∃ event, verification new_stripe env config req = Ok event
                ∧ processing new_stripe env config event now st = Ok tt)
  ∧ (response_status new_stripe env config req now st = 200%Z →
     body (webhook new_stripe env config req now st).1 = received_json
     ∧ content_type (webhook new_stripe env config req now st).1 = Some "application/json")
  ∧ (response_status new_stripe env config req now st = 400%Z
     ↔ secret_configured env config
       ∧ (¬ signature_present req
          ∨ (signature_present req ∧ api_key_configured env config
             ∧ ∃ e, verification new_stripe env config req = Err e)))
  ∧ (response_status new_stripe env config req now st = 500%Z
     ↔ ¬ secret_configured env config
       ∨ (secret_configured env config ∧ signature_present req
          ∧ ¬ api_key_configured env config)
       ∨ (secret_configured env config ∧ signature_present req
          ∧ api_key_configured env config
          ∧ ∃ event e, verification new_stripe env config req = Ok event
                       ∧ processing new_stripe env config event now st = Err e)).
Proof.
  pose proof (webhook_cases new_stripe env config req now st) as Hcases.
  unfold response_status, secret_configured, api_key_configured, signature_present.
  destruct Hcases as [(Hs & ->) | [(Hs & Hsig & ->) | [(Hs & Hsig & Hk & ->) |
    [(Hs & Hsig & Hk & e & Hv & ->) | [(Hs & Hsig & Hk & event & e & st' & Hv & Hp & ->) |
     (Hs & Hsig & Hk & event & st' & Hv & Hp & ->)]]]]];
    cbn [fst status body content_type]; rewrite ?Hs, ?Hsig, ?Hk;
    (split_and!; [split | | split | split]); try gate_refute; intros _.
  - (* no signing secret: 500 *)
    by left.
  - (* no signature header: 400 *)
    split; [done|]. by left.
  - (* no API key: 500 *)
    right. left. by split_and!.
  - (* verification fails: 400 *)
    split; [done|]. right. split_and!; [done..|]. by exists e.
  - (* processing throws: 500 *)
    right. right. split_and!; [done..|].
    exists event, e. split; [done|]. unfold processing. by rewrite Hp.
  - (* acknowledged: 200 *)
    split_and!; [done..|].
    exists event. split; [done|]. unfold processing. by rewrite Hp.
Qed.

(** C8, as stated, fails where its cases overlap.  With the signing secret
    configured, no API key and no signature header the endpoint answers
    [400], not [500]; with no signing secret and no signature header it
    answers [500], not [400]. *)
Lemma webhook_gate_order :
  (¬ api_key_configured env_without_api_key None
   ∧ response_status (λ _, offline_stripe) env_without_api_key None unsigned_request
       sample_time ∅ = 400%Z)
  ∧ (¬ signature_present unsigned_request
     ∧ response_status (λ _, offline_stripe) env_without_secrets None unsigned_request
         sample_time ∅ = 500%Z).
Proof.
  unfold api_key_configured, signature_present, response_status.
  split; (split; compute_done).
Qed.

(** The three statuses on sample requests: an accepted event, a rejected
    signature, and a hook that throws. *)
Example webhook_acknowledges :
  webhook (λ _, accepting_stripe) env_configured None signed_request sample_time ∅
  = ({| status := 200; body := received_json; content_type := Some "application/json" |}, ∅).
Proof. reflexivity. Qed.

Example webhook_rejects_bad_signature :
  response_status (λ _, offline_stripe) env_configured None signed_request sample_time ∅
  = 400%Z.
Proof. reflexivity. Qed.

Example webhook_reports_hook_failure :
  response_status (λ _, accepting_stripe) env_configured (Some config_with_failing_hook)
    signed_request sample_time ∅ = 500%Z.
Proof. reflexivity. Qed.

(** ** Sanity checks of the model *)

Example window_is_ten_minutes : RECENT_SUBSCRIPTION_WINDOW_SECONDS = 600%Z.
Proof. reflexivity. Qed.

(** On a stored document, which still has its [_creationTime], the
    comparison of the recent-subscription guard does succeed: it is
    [listSubscriptions] dropping the system fields that disarms it. *)
Example recent_guard_on_stored_document :
  recentSubscription one_second_later [sample_subscription_doc]
  = Some sample_subscription_doc
  ∧ recentSubscription one_second_later (listSubscriptions "cus_1" store_with_subscription)
    = None
  ∧ length (listSubscriptions "cus_1" store_with_subscription) = 1.
Proof. split_and!; compute_done. Qed.

(** Replaying the scenario: creation, then cancellation. *)
Example scenario_create_then_cancel :
  ∃ st',
    processEvent offline_stripe (customer_subscription_deleted sample_subscription)
      one_second_later store_with_subscription = (Ok tt, st')
    ∧ field_of "subscriptions" 0 "status" store_with_subscription = Some (VStr "active")
    ∧ field_of "subscriptions" 0 "status" st' = Some (VStr "canceled")
    ∧ field_of "subscriptions" 0 "quantity" st' = Some (VNum 1)
    ∧ field_of "subscriptions" 0 "orgId" st' = Some (VStr "org_1")
    ∧ field_of "subscriptions" 0 "currentPeriodEnd" st' = Some (VNum 1700003600).
Proof.
  exists (processEvent offline_stripe (customer_subscription_deleted sample_subscription)
            one_second_later store_with_subscription).2.
  split_and!; compute_done.
Qed.

(** * Further properties of the component *)

(** ** Which mutations throw *)

(** The error [updateSubscriptionMetadata] throws for a missing record. *)
Lemma updateSubscriptionMetadata_missing args now st :
  size (records "subscriptions" "stripeSubscriptionId" (sm_stripeSubscriptionId args) st) = 0 →
  updateSubscriptionMetadata args now st
  = Err ("Subscription " +:+ sm_stripeSubscriptionId args +:+ " not found in database").
Proof.
  intros Hnone. unfold updateSubscriptionMetadata. fold_records.
  by rewrite unique_absent.
Qed.

(** On a store with unique keys every mutation commits, except
    [updateSubscriptionMetadata] for a subscription that has no record. *)
Lemma run_result op now st :
  store_ok st →
  (∃ st', run op now st = Ok st')
  ∨ (∃ args, op = OpUpdateSubscriptionMetadata args
             ∧ size (target_records op st) = 0
             ∧ run op now st
               = Err ("Subscription " +:+ sm_stripeSubscriptionId args
                      +:+ " not found in database")).
Proof.
  intros Hok.
  destruct op; simpl;
    lazymatch goal with
    | |- context [?h _ _ _ = Ok _] => unfold h
    end; fold_records;
    lazymatch goal with
    | |- context [unique (records ?t ?f ?k st)] =>
        destruct (unique_total _ (Hok t f k ltac:(in_keys))) as [[He Hu]|(i & d & He & Hu)];
        rewrite ?Hu; simpl
    end; eauto.
  - (* handleInvoiceCreated: the subscription lookup *)
    left. destruct (truthy_str (ic_stripeSubscriptionId args)); simpl; [|eauto].
    destruct (unique_total _ (Hok "subscriptions" "stripeSubscriptionId"
                (default "" (ic_stripeSubscriptionId args)) ltac:(in_keys)))
      as [[_ Hs]|(j & dj & _ & Hs)]; rewrite Hs; simpl; eauto.
  - (* handlePaymentIntentSucceeded: the backfill *)
    left. destruct (_ && _); eauto.
  - (* updatePaymentCustomer *)
    left. destruct (negb _); eauto.
  - (* updateSubscriptionMetadata on a missing record *)
    right. exists args. split; [done|]. unfold target_records. simpl.
    rewrite He. split; [apply map_size_empty | done].
Qed.

(** X2.  For arguments that pass the handlers' validators and carry
    string-valued metadata (what the argument records hold), and on every
    store the component can be in, the only handler body that throws is
    that of [updateSubscriptionMetadata], exactly when the subscription has
    no record, and then with the not-found message.  A call whose arguments
    the validator or the schema rejects is outside this statement. *)
Theorem only_metadata_update_throws op now st e :
  reachable st →
  (run op now st = Err e
   ↔ ∃ args, op = OpUpdateSubscriptionMetadata args
             ∧ size (target_records op st) = 0
             ∧ e = "Subscription " +:+ sm_stripeSubscriptionId args
                   +:+ " not found in database").
Proof.
  intros Hok%reachable_store_ok. split.
  - intros Herr. destruct (run_result op now st Hok) as [[st' Hrun]|(args & -> & Hn & Hrun)].
    + congruence.
    + exists args. split_and!; [done | done | congruence].
  - intros (args & -> & Hn & ->). simpl. by apply updateSubscriptionMetadata_missing.
Qed.

Lemma only_metadata_update_throws_witness :
  run (OpUpdateSubscriptionMetadata sample_metadata_update) sample_time ∅
  = Err "Subscription sub_1 not found in database".
Proof.
  apply (only_metadata_update_throws (OpUpdateSubscriptionMetadata sample_metadata_update)
           sample_time ∅ _ reach_empty).
  exists sample_metadata_update. split_and!; [done | compute_done | done].
Defined.

(** ** Keys stay unique *)

(** X1.  In every store the component can be in, each table holds at most
    one document per provider-assigned key (customer id, subscription id,
    checkout session id, payment intent id, invoice id). *)
Theorem natural_keys_stay_unique st tbl field key :
  reachable st →
  (tbl, field) ∈ natural_keys →
  size (records tbl field key st) ≤ 1.
Proof. intros Hreach Hin. by apply reachable_store_ok. Qed.

Lemma natural_keys_stay_unique_witness :
  size (records "subscriptions" "stripeSubscriptionId" "sub_1" store_with_subscription) ≤ 1.
Proof.
  apply (natural_keys_stay_unique store_with_subscription
           "subscriptions" "stripeSubscriptionId" "sub_1");
    [exact reachable_store_with_subscription | in_keys].
Defined.

(** ** When default processing fails *)

Lemma completes_harmless {A} (a : Action A) : completes a → harmless a.
Proof. intros Ha st Hst. by destruct (Ha st Hst) as (x & st' & -> & ?). Qed.

Lemma completes_aret {A} (x : A) : completes (aret x).
Proof. intros st Hst. by exists x, st. Qed.

Lemma completes_bind {A B} (a : Action A) (k : A → Action B) :
  completes a → (∀ x, completes (k x)) → completes (abind a k).
Proof.
  intros Ha Hk st Hst. destruct (Ha st Hst) as (x & st1 & Ea & Hst1).
  destruct (Hk x st1 Hst1) as (y & st2 & Ek & Hst2).
  exists y, st2. unfold abind. by rewrite Ea.
Qed.

Lemma harmless_bind {A B} (a : Action A) (k : A → Action B) :
  harmless a → (∀ x, harmless (k x)) → harmless (abind a k).
Proof.
  intros Ha Hk st Hst. unfold abind. specialize (Ha st Hst).
  destruct (a st) as [[x|e] st1]; simpl in *; [by apply Hk | done].
Qed.

Lemma harmless_remote {A} (r : Result A) : harmless (remote r).
Proof. by intros st Hst. Qed.

Lemma completes_when c (a : Action unit) : completes a → completes (when c a).
Proof. intros Ha. destruct c; [done | apply completes_aret]. Qed.

Lemma harmless_when c (a : Action unit) : harmless a → harmless (when c a).
Proof. intros Ha. destruct c; [done | by intros st Hst]. Qed.

Lemma completes_try_catch (a : Action unit) : harmless a → completes (try_catch a).
Proof.
  intros Ha st Hst. unfold try_catch. specialize (Ha st Hst).
  destruct (a st) as [r st1]. by exists tt, st1.
Qed.

Lemma harmless_runMutation op now : harmless (runMutation (run op) now).
Proof.
  intros st Hst. unfold runMutation.
  destruct (run op now st) as [st'|e] eqn:Hrun; simpl; [|done].
  by eapply reach_commit.
Qed.

Lemma completes_runMutation op now :
  (∀ args, op ≠ OpUpdateSubscriptionMetadata args) →
  completes (runMutation (run op) now).
Proof.
  intros Hop st Hst. unfold runMutation.
  destruct (run_result op now st (reachable_store_ok st Hst))
    as [[st' Hrun]|(args & -> & _)]; [|by destruct (Hop args)].
  rewrite Hrun. exists tt, st'. split; [done|]. by eapply reach_commit.
Qed.

Lemma processEvent_completes stripe event now :
  (∀ invoice, event = invoice_created invoice ∨ event = invoice_finalized invoice →
              inv_subscription invoice ≠ Null) →
  completes (processEvent stripe event now).
Proof.
  intros Hvalid. destruct event; simpl.
  - apply (completes_runMutation (OpHandleCustomerCreated _)). done.
  - apply (completes_runMutation (OpHandleCustomerUpdated _)). done.
  - apply (completes_runMutation (OpHandleSubscriptionCreated _)). done.
  - apply (completes_runMutation (OpHandleSubscriptionUpdated _)). done.
  - apply (completes_runMutation (OpHandleSubscriptionDeleted _)). done.
  - apply completes_bind;
      [apply (completes_runMutation (OpHandleCheckoutSessionCompleted _)); done|].
    intros _. apply completes_bind.
    { apply completes_when, (completes_runMutation (OpUpdatePaymentCustomer _)). done. }
    intros _. apply completes_when, completes_try_catch.
    apply harmless_bind; [apply harmless_remote|]. intros subscription.
    apply harmless_when, harmless_bind; [apply harmless_remote|]. intros invoice.
    apply (harmless_runMutation (OpHandleInvoiceCreated _)).
  - specialize (Hvalid invoice (or_introl eq_refl)).
    destruct (inv_subscription invoice); [|done|];
      apply (completes_runMutation (OpHandleInvoiceCreated _)); done.
  - specialize (Hvalid invoice (or_intror eq_refl)).
    destruct (inv_subscription invoice); [|done|];
      apply (completes_runMutation (OpHandleInvoiceCreated _)); done.
  - apply (completes_runMutation (OpHandleInvoicePaid _)). done.
  - apply (completes_runMutation (OpHandleInvoicePaid _)). done.
  - apply (completes_runMutation (OpHandleInvoicePaymentFailed _)). done.
  - intros st Hst.
    destruct (is_subscription_payment stripe paymentIntent) eqn:Hguard.
    + by exists tt, st.
    + pose proof (payment_intent_dispatch stripe paymentIntent now st Hguard) as Hd.
      simpl in Hd. rewrite Hguard in Hd. rewrite Hd.
      by apply (completes_runMutation (OpHandlePaymentIntentSucceeded _)).
  - apply completes_aret.
Qed.

Lemma default_processing_total stripe event now st :
  (∀ invoice, event = invoice_created invoice ∨ event = invoice_finalized invoice →
              inv_subscription invoice ≠ Null) →
  reachable st →
  ∃ st', processEvent stripe event now st = (Ok tt, st') ∧ reachable st'.
Proof.
  intros Hvalid Hst.
  destruct (processEvent_completes stripe event now Hvalid st Hst) as ([] & st' & ? & ?).
  by exists st'.
Qed.




(** At the endpoint: the verified [invoice.created] event of an invoice of
    no subscription is answered with [500], and nothing is stored. *)
Example webhook_rejects_one_off_invoice :
  webhook (λ _, one_off_invoice_stripe) env_configured None signed_request sample_time ∅
  = ({| status := 500; body := "Error processing webhook"; content_type := None |}, ∅).
Proof. reflexivity. Qed.

(** ** Patches that change nothing *)

Lemma patch_doc_id d p :
  (∀ k v, assigned p k = Some v → d !! k = v) → patch_doc d p = d.
Proof.
  intros H. apply map_eq. intros k. rewrite patch_doc_lookup.
  destruct (assigned p k) as [v|] eqn:Hk; simpl; [|done]. symmetry. by apply H.
Qed.

Lemma patch_doc_idem d p : patch_doc (patch_doc d p) p = patch_doc d p.
Proof.
  apply patch_doc_id. intros k v Hk. by rewrite patch_doc_lookup, Hk.
Qed.

Lemma db_patch_noop name i d p (st : Store) :
  table name st !! i = Some d → patch_doc d p = d → db_patch name i p st = st.
Proof.
  intros Hi Hp. unfold db_patch. unfold table in *.
  destruct (st !! name) as [t|] eqn:Ht; simpl in *; [|by rewrite lookup_empty in Hi].
  apply insert_id. rewrite Ht. f_equal. apply map_eq. intros j.
  destruct (decide (i = j)) as [<-|Hne].
  - by rewrite lookup_alter_eq, Hi; simpl; rewrite Hp.
  - by rewrite lookup_alter_ne.
Qed.

(** ** Checkout sessions *)

(** X4.  [handleCheckoutSessionCompleted] is an idempotent upsert: from
    any store the component can be in it commits, a replay commits the very
    same store, and the session key then has exactly one record, with
    status ["complete"] and the customer reference of the call (none when
    the call carries none).  A record that existed keeps every other field
    (its mode and metadata are not overwritten). *)
Theorem checkout_session_upsert args now now' st :
  reachable st →
  ∃ st1 i d,
    handleCheckoutSessionCompleted args now st = Ok st1
    ∧ handleCheckoutSessionCompleted args now' st1 = Ok st1
    ∧ records "checkout_sessions" "stripeCheckoutSessionId"
        (co_stripeCheckoutSessionId args) st1 = {[i := d]}
    ∧ d !! "status" = Some (VStr "complete")
    ∧ d !! "stripeCustomerId" = VStr <$> co_stripeCustomerId args
    ∧ (∀ i0 d0,
         table "checkout_sessions" st !! i0 = Some d0 →
         d0 !! "stripeCheckoutSessionId" = Some (VStr (co_stripeCheckoutSessionId args)) →
         i = i0 ∧ ∀ f, f ≠ "status" → f ≠ "stripeCustomerId" → d !! f = d0 !! f).
Proof.
  intros Hok%reachable_store_ok.
  unfold handleCheckoutSessionCompleted. fold_records.
  set (p := [("status", str "complete");
             ("stripeCustomerId", opt_str (co_stripeCustomerId args))]).
  set (q := [("stripeCheckoutSessionId", str (co_stripeCheckoutSessionId args));
             ("stripeCustomerId", opt_str (co_stripeCustomerId args));
             ("status", str "complete"); ("mode", str (co_mode args));
             ("metadata", Some (VObj (default ∅ (co_metadata args))))]).
  assert (Hagain : ∀ (st1 : Store) i d,
            records "checkout_sessions" "stripeCheckoutSessionId"
              (co_stripeCheckoutSessionId args) st1 = {[i := d]} →
            d !! "status" = Some (VStr "complete") →
            d !! "stripeCustomerId" = VStr <$> co_stripeCustomerId args →
            db_patch "checkout_sessions" i p st1 = st1).
  { intros st1 i d Hrec Hs Hc.
    assert (Hi : table "checkout_sessions" st1 !! i = Some d).
    { eapply records_lookup. rewrite Hrec. apply lookup_singleton_eq. }
    apply (db_patch_noop _ _ d); [done|]. apply map_eq. intros k.
    rewrite patch_doc_lookup. subst p.
    destruct (decide (k = "status")) as [->|?]; [by rewrite Hs|].
    destruct (decide (k = "stripeCustomerId")) as [->|?].
    { rewrite Hc. simpl. by destruct (co_stripeCustomerId args). }
    rewrite assigned_not_in; [done | fields_apart]. }
  destruct (unique_total _ (Hok "checkout_sessions" "stripeCheckoutSessionId"
              (co_stripeCheckoutSessionId args) ltac:(in_keys)))
    as [[He Hu]|(i & d & He & Hu)]; rewrite Hu; simpl.
  - assert (Hrec : records "checkout_sessions" "stripeCheckoutSessionId"
                     (co_stripeCheckoutSessionId args)
                     (db_insert "checkout_sessions" q now st)
                   = {[fresh (dom (table "checkout_sessions" st))
                       := <["_creationTime" := VNum now]> (to_doc q)]})
      by by apply records_after_insert.
    assert (Hs : (<["_creationTime" := VNum now]> (to_doc q) : obj) !! "status"
                 = Some (VStr "complete"))
      by by rewrite inserted_lookup.
    assert (Hc : (<["_creationTime" := VNum now]> (to_doc q) : obj) !! "stripeCustomerId"
                 = VStr <$> co_stripeCustomerId args).
    { rewrite inserted_lookup by done. simpl. by destruct (co_stripeCustomerId args). }
    eexists _, _, _. split; [reflexivity|].
    fold_records. rewrite Hrec, unique_singleton. simpl. split_and!; try done.
    + f_equal. by eapply Hagain.
    + intros i0 d0 Hi0 Hd0.
      assert (Hin : records "checkout_sessions" "stripeCheckoutSessionId"
                      (co_stripeCheckoutSessionId args) st !! i0 = Some d0)
        by by apply records_lookup.
      rewrite He in Hin. by rewrite lookup_empty in Hin.
  - assert (Hi : table "checkout_sessions" st !! i = Some d).
    { eapply records_lookup. rewrite He. apply lookup_singleton_eq. }
    assert (Hrec : records "checkout_sessions" "stripeCheckoutSessionId"
                     (co_stripeCheckoutSessionId args)
                     (db_patch "checkout_sessions" i p st) = {[i := patch_doc d p]}).
    { by rewrite records_db_patch, He, alter_singleton_eq. }
    assert (Hs : patch_doc d p !! "status" = Some (VStr "complete"))
      by by rewrite patch_doc_lookup.
    assert (Hc : patch_doc d p !! "stripeCustomerId" = VStr <$> co_stripeCustomerId args).
    { rewrite patch_doc_lookup. simpl. by destruct (co_stripeCustomerId args). }
    eexists _, i, (patch_doc d p). split; [reflexivity|].
    fold_records. rewrite Hrec, unique_singleton. simpl. split_and!; try done.
    + f_equal. by eapply Hagain.
    + intros i0 d0 Hi0 Hd0.
      assert (Hin : records "checkout_sessions" "stripeCheckoutSessionId"
                      (co_stripeCheckoutSessionId args) st !! i0 = Some d0)
        by by apply records_lookup.
      rewrite He in Hin. apply lookup_singleton_Some in Hin as [-> ->].
      split; [done|]. intros f ? ?.
      rewrite patch_doc_lookup, assigned_not_in; [done | fields_apart].
Qed.

Lemma checkout_session_upsert_witness :
  ∃ st1 i d,
    handleCheckoutSessionCompleted sample_checkout sample_time
      store_with_subscription = Ok st1
    ∧ handleCheckoutSessionCompleted sample_checkout one_second_later st1 = Ok st1
    ∧ records "checkout_sessions" "stripeCheckoutSessionId" "cs_1" st1 = {[i := d]}
    ∧ d !! "status" = Some (VStr "complete")
    ∧ d !! "stripeCustomerId" = Some (VStr "cus_1").
Proof.
  destruct (checkout_session_upsert sample_checkout sample_time one_second_later
              store_with_subscription reachable_store_with_subscription)
    as (st1 & i & d & H1 & H2 & H3 & H4 & H5 & _).
  by exists st1, i, d.
Defined.

(** ** Invoices *)

Lemma invoice_linkage args now st :
  reachable st →
  size (records "invoices" "stripeInvoiceId" (ic_stripeInvoiceId args) st) = 0 →
  ∃ st' i d,
    handleInvoiceCreated args now st = Ok st'
    ∧ records "invoices" "stripeInvoiceId" (ic_stripeInvoiceId args) st' = {[i := d]}
    ∧ (∀ sid j ds,
         ic_stripeSubscriptionId args = Some sid → sid ≠ "" →
         table "subscriptions" st !! j = Some ds →
         ds !! "stripeSubscriptionId" = Some (VStr sid) →
         d !! "orgId" = ds !! "orgId" ∧ d !! "userId" = ds !! "userId")
    ∧ (truthy_str (ic_stripeSubscriptionId args) = false
       ∨ size (records "subscriptions" "stripeSubscriptionId"
                 (default "" (ic_stripeSubscriptionId args)) st) = 0 →
       d !! "orgId" = None ∧ d !! "userId" = None)
    ∧ table "subscriptions" st' = table "subscriptions" st.
Proof.
  intros Hok%reachable_store_ok Hnone.
  unfold handleInvoiceCreated. fold_records. rewrite unique_absent by done. simpl.
  destruct (truthy_str (ic_stripeSubscriptionId args)) eqn:Hsub; simpl.
  - destruct (unique_total _ (Hok "subscriptions" "stripeSubscriptionId"
                (default "" (ic_stripeSubscriptionId args)) ltac:(in_keys)))
      as [[He Hu]|(j & dj & He & Hu)]; rewrite Hu; simpl;
      eexists _, _, _; (split; [reflexivity|]); find_inserted;
      (split; [reflexivity|]); rewrite !inserted_lookup by done; simpl;
      (split_and!; [| | by apply db_insert_other_table]).
    + intros sid j ds Hsid _ Hj Hds. rewrite Hsid in He. simpl in He.
      assert (Hin : records "subscriptions" "stripeSubscriptionId" sid st !! j = Some ds)
        by by apply records_lookup.
      rewrite He in Hin. by rewrite lookup_empty in Hin.
    + done.
    + intros sid j' ds Hsid _ Hj Hds. rewrite Hsid in He. simpl in He.
      assert (Hin : records "subscriptions" "stripeSubscriptionId" sid st !! j' = Some ds)
        by by apply records_lookup.
      rewrite He in Hin. by apply lookup_singleton_Some in Hin as [-> ->].
    + intros [?|Hz]; [done|]. rewrite He, map_size_singleton in Hz. done.
  - eexists _, _, _. split; [reflexivity|]. find_inserted.
    split; [reflexivity|]. rewrite !inserted_lookup by done. simpl.
    split_and!; [| done | by apply db_insert_other_table].
    intros sid j ds Hsid Hne. rewrite Hsid in Hsub. simpl in Hsub.
    by destruct (String.eqb_spec sid "").
Qed.

(** X5.  A new invoice takes its [orgId] and [userId] from the record of
    the subscription it names, as they are at that moment; it gets neither
    when it names no subscription or the subscription has no record.  The
    subscriptions table is not touched. *)
Theorem invoice_inherits_linkage args now st :
  reachable st →
  size (records "invoices" "stripeInvoiceId" (ic_stripeInvoiceId args) st) = 0 →
  ∃ st' i d,
    handleInvoiceCreated args now st = Ok st'
    ∧ records "invoices" "stripeInvoiceId" (ic_stripeInvoiceId args) st' = {[i := d]}
    ∧ (∀ sid j ds,
         ic_stripeSubscriptionId args = Some sid → sid ≠ "" →
         table "subscriptions" st !! j = Some ds →
         ds !! "stripeSubscriptionId" = Some (VStr sid) →
         d !! "orgId" = ds !! "orgId" ∧ d !! "userId" = ds !! "userId")
    ∧ (truthy_str (ic_stripeSubscriptionId args) = false
       ∨ size (records "subscriptions" "stripeSubscriptionId"
                 (default "" (ic_stripeSubscriptionId args)) st) = 0 →
       d !! "orgId" = None ∧ d !! "userId" = None)
    ∧ table "subscriptions" st' = table "subscriptions" st.
Proof. apply invoice_linkage. Qed.

Lemma invoice_inherits_linkage_witness :
  ∃ st' i d,
    handleInvoiceCreated sample_invoice_args one_second_later store_with_subscription = Ok st'
    ∧ records "invoices" "stripeInvoiceId" "in_1" st' = {[i := d]}
    ∧ d !! "orgId" = Some (VStr "org_1")
    ∧ d !! "userId" = Some (VStr "user_1").
Proof.
  destruct (invoice_inherits_linkage sample_invoice_args one_second_later
              store_with_subscription reachable_store_with_subscription)
    as (st' & i & d & Hrun & Hrec & Hcopy & _); [compute_done|].
  destruct (Hcopy "sub_1" 0 sample_subscription_doc) as [Ho Hu];
    [done | done | compute_done | compute_done |].
  exists st', i, d. split_and!; [done | done | |].
  - rewrite Ho. compute_done.
  - rewrite Hu. compute_done.
Defined.

Lemma reachable_store_with_invoice : reachable store_with_invoice.
Proof.
  eapply (reach_commit store_with_subscription _ (OpHandleInvoiceCreated sample_invoice_args)
            one_second_later); [exact reachable_store_with_subscription | compute_done].
Qed.

(** X6.  For an existing invoice record, [handleInvoicePaid] sets status
    ["paid"] and the paid amount of the call and [handleInvoicePaymentFailed]
    sets status ["open"], whatever the status was; neither touches any
    other field of the record. *)
Theorem invoice_status_patches st i d :
  reachable st →
  table "invoices" st !! i = Some d →
  (∀ args now,
     d !! "stripeInvoiceId" = Some (VStr (ip_stripeInvoiceId args)) →
     ∃ st' d',
       handleInvoicePaid args now st = Ok st'
       ∧ table "invoices" st' !! i = Some d'
       ∧ d' !! "status" = Some (VStr "paid")
       ∧ d' !! "amountPaid" = Some (VNum (ip_amountPaid args))
       ∧ ∀ f, f ≠ "status" → f ≠ "amountPaid" → d' !! f = d !! f)
  ∧ (∀ id now,
       d !! "stripeInvoiceId" = Some (VStr id) →
       ∃ st' d',
         handleInvoicePaymentFailed id now st = Ok st'
         ∧ table "invoices" st' !! i = Some d'
         ∧ d' !! "status" = Some (VStr "open")
         ∧ ∀ f, f ≠ "status" → d' !! f = d !! f).
Proof.
  intros Hok%reachable_store_ok Hi. split.
  - intros args now Hd. unfold handleInvoicePaid. fold_records.
    rewrite (unique_found "invoices" "stripeInvoiceId" _ st i d Hok ltac:(in_keys) Hi Hd).
    simpl. eexists _, _. split; [done|]. split; [by apply db_patch_frame|].
    rewrite !patch_doc_lookup. split_and!; [done | done |].
    intros f ? ?. rewrite patch_doc_lookup, assigned_not_in; [done | fields_apart].
  - intros id now Hd. unfold handleInvoicePaymentFailed. fold_records.
    rewrite (unique_found "invoices" "stripeInvoiceId" _ st i d Hok ltac:(in_keys) Hi Hd).
    simpl. eexists _, _. split; [done|]. split; [by apply db_patch_frame|].
    rewrite !patch_doc_lookup. split; [done|].
    intros f ?. rewrite patch_doc_lookup, assigned_not_in; [done | fields_apart].
Qed.

Lemma invoice_status_patches_witness :
  ∃ st',
    handleInvoicePaid {| ip_stripeInvoiceId := "in_1"; ip_amountPaid := 4900 |}
      one_second_later store_with_invoice = Ok st'
    ∧ field_of "invoices" 0 "status" st' = Some (VStr "paid")
    ∧ field_of "invoices" 0 "amountPaid" st' = Some (VNum 4900)
    ∧ field_of "invoices" 0 "amountDue" st' = Some (VNum 4900).
Proof.
  destruct (invoice_status_patches store_with_invoice 0 sample_invoice_doc)
    as [Hpaid _]; [exact reachable_store_with_invoice | compute_done |].
  destruct (Hpaid {| ip_stripeInvoiceId := "in_1"; ip_amountPaid := 4900 |} one_second_later)
    as (st' & d' & Hrun & Hd' & Hs & Ha & Hframe); [compute_done|].
  exists st'. unfold field_of. rewrite Hd'. simpl.
  rewrite Hs, Ha, Hframe by done. split_and!; [done | done | done | compute_done].
Defined.

(** ** Changing the quantity *)

Lemma quantity_internal_frame args now st i d :
  store_ok st →
  table "subscriptions" st !! i = Some d →
  d !! "stripeSubscriptionId" = Some (VStr (qa_stripeSubscriptionId args)) →
  ∃ st' d',
    updateSubscriptionQuantityInternal args now st = Ok st'
    ∧ table "subscriptions" st' !! i = Some d'
    ∧ d' !! "quantity" = Some (VNum (qa_quantity args))
    ∧ ∀ f, f ≠ "quantity" → d' !! f = d !! f.
Proof.
  intros Hok Hi Hd. unfold updateSubscriptionQuantityInternal. fold_records.
  rewrite (unique_found "subscriptions" "stripeSubscriptionId" _ st i d
             Hok ltac:(in_keys) Hi Hd). simpl.
  eexists _, _. split; [done|]. split; [by apply db_patch_frame|].
  rewrite patch_doc_lookup. split; [done|].
  intros f ?. rewrite patch_doc_lookup, assigned_not_in; [done | fields_apart].
Qed.

(** X7.  The public action [updateSubscriptionQuantity]:
    - throws before any remote call when the environment has no API key;
    - throws ["Subscription has no items"] when the remote subscription
      has no line item;
    - whenever it throws, the store is as it was;
    - when the remote subscription has a first item and its update
      succeeds, the action returns normally and the local record of the
      subscription has the requested quantity and is otherwise unchanged. *)
Theorem update_quantity_action connect env args now st :
  reachable st →
  (truthy_str (env_STRIPE_SECRET_KEY env) = false →
   updateSubscriptionQuantity connect env args now st
   = (Err "STRIPE_SECRET_KEY must be provided as an environment variable", st))
  ∧ (∀ key subscription,
       env_STRIPE_SECRET_KEY env = Some key → key ≠ "" →
       subscriptions_retrieve (reads (connect key)) (qa_stripeSubscriptionId args)
       = Ok subscription →
       s_items subscription = [] →
       updateSubscriptionQuantity connect env args now st
       = (Err "Subscription has no items", st))
  ∧ (∀ e, (updateSubscriptionQuantity connect env args now st).1 = Err e →
          (updateSubscriptionQuantity connect env args now st).2 = st)
  ∧ (∀ key subscription item rest,
       env_STRIPE_SECRET_KEY env = Some key → key ≠ "" →
       subscriptions_retrieve (reads (connect key)) (qa_stripeSubscriptionId args)
       = Ok subscription →
       s_items subscription = item :: rest →
       subscriptionItems_update (writes (connect key)) item (qa_quantity args) = Ok tt →
       ∃ st',
         updateSubscriptionQuantity connect env args now st = (Ok tt, st')
         ∧ ∀ i d,
             table "subscriptions" st !! i = Some d →
             d !! "stripeSubscriptionId" = Some (VStr (qa_stripeSubscriptionId args)) →
             ∃ d', table "subscriptions" st' !! i = Some d'
                   ∧ d' !! "quantity" = Some (VNum (qa_quantity args))
                   ∧ ∀ f, f ≠ "quantity" → d' !! f = d !! f).
Proof.
  intros Hreach. pose proof (reachable_store_ok st Hreach) as Hok.
  assert (Hkey : ∀ key, env_STRIPE_SECRET_KEY env = Some key → key ≠ "" →
            truthy_str (env_STRIPE_SECRET_KEY env) = true
            ∧ default "" (env_STRIPE_SECRET_KEY env) = key).
  { intros key -> Hne. simpl. by destruct (String.eqb_spec key ""). }
  unfold updateSubscriptionQuantity. split_and!.
  - by intros ->.
  - intros key subscription Henv Hne Hget Hitems.
    destruct (Hkey key Henv Hne) as [-> ->]. simpl.
    unfold abind, remote. by rewrite Hget, Hitems.
  - intros e. destruct (truthy_str (env_STRIPE_SECRET_KEY env)); simpl; [|done].
    unfold abind, remote, runMutation.
    destruct (subscriptions_retrieve _ _) as [subscription|?]; simpl; [|done].
    destruct (head (s_items subscription)) as [item|]; simpl; [|done].
    destruct (subscriptionItems_update _ _ _) as [[]|?]; simpl; [|done].
    by destruct (updateSubscriptionQuantityInternal args now st).
  - intros key subscription item rest Henv Hne Hget Hitems Hupd.
    destruct (Hkey key Henv Hne) as [-> ->]. simpl.
    unfold abind, remote, runMutation. rewrite Hget, Hitems. simpl. rewrite Hupd.
    destruct (run_result (OpUpdateSubscriptionQuantityInternal args) now st Hok)
      as [[st' Hrun]|(? & ? & _)]; [|done].
    simpl in Hrun. rewrite Hrun. exists st'. split; [done|].
    intros i d Hi Hd.
    destruct (quantity_internal_frame args now st i d Hok Hi Hd)
      as (st'' & d' & Hrun' & ? & ? & ?).
    rewrite Hrun in Hrun'. simplify_eq. by exists d'.
Qed.

Lemma update_quantity_action_witness :
  updateSubscriptionQuantity (λ _, sample_client) env_without_secrets sample_seats
    one_second_later store_with_subscription
  = (Err "STRIPE_SECRET_KEY must be provided as an environment variable",
     store_with_subscription)
  ∧ ∃ st',
      updateSubscriptionQuantity (λ _, sample_client) env_configured sample_seats
        one_second_later store_with_subscription = (Ok tt, st')
      ∧ field_of "subscriptions" 0 "quantity" st' = Some (VNum 7)
      ∧ field_of "subscriptions" 0 "orgId" st' = Some (VStr "org_1").
Proof.
  split.
  - by apply (update_quantity_action (λ _, sample_client) env_without_secrets sample_seats
                one_second_later store_with_subscription
                reachable_store_with_subscription).
  - destruct (update_quantity_action (λ _, sample_client) env_configured sample_seats
                one_second_later store_with_subscription
                reachable_store_with_subscription) as (_ & _ & _ & Hok).
    destruct (Hok "sk_test" (sample_remote_subscription false) _ _ eq_refl
                ltac:(done) eq_refl eq_refl eq_refl) as (st' & Hrun & Hrec).
    destruct (Hrec 0 sample_subscription_doc) as (d' & Hd' & Hq & Hframe);
      [compute_done | compute_done |].
    exists st'. split; [done|]. unfold field_of. rewrite Hd'. simpl.
    rewrite Hq, Hframe by done. split; [done | compute_done].
Defined.

(** ** Each mutation writes its own table *)

Lemma run_frame op now st st' name :
  run op now st = Ok st' → name ≠ (target op).1.1 → table name st' = table name st.
Proof.
  intros Hrun Hname. destruct op; simpl in *;
    lazymatch type of Hrun with
    | ?h _ _ _ = _ => unfold h in Hrun
    end;
    lazymatch type of Hrun with
    | context [unique ?r] => destruct (unique r) as [[[i d]|]|e]
    end; simpl in Hrun; simplify_eq;
    try done; try (by apply db_patch_other_table); try (by apply db_insert_other_table).
  - destruct (truthy_str (ic_stripeSubscriptionId args)); simpl in Hrun;
      [destruct (unique _) as [[[i d]|]|e] in Hrun|];
      simpl in Hrun; simplify_eq; by apply db_insert_other_table.
  - destruct (_ && _) in Hrun; simplify_eq; [by apply db_patch_other_table | done].
  - destruct (negb _) in Hrun; simplify_eq; [by apply db_patch_other_table | done].
Qed.

(** ** Checkout completion backfills the payment's customer *)

Lemma checkout_backfill stripe session now st c p i d :
  reachable st →
  cs_mode session = Some "payment" →
  cs_customer session = Some c → c ≠ "" →
  cs_payment_intent session = Some p → p ≠ "" →
  table "payments" st !! i = Some d →
  d !! "stripePaymentIntentId" = Some (VStr p) →
  ∃ st' d',
    processEvent stripe (checkout_session_completed session) now st = (Ok tt, st')
    ∧ table "payments" st' !! i = Some d'
    ∧ d' !! "stripeCustomerId"
      = (if truthy (d !! "stripeCustomerId") then d !! "stripeCustomerId"
         else Some (VStr c))
    ∧ ∀ f, f ≠ "stripeCustomerId" → d' !! f = d !! f.
Proof.
  intros Hreach Hmode Hc Hcne Hp Hpne Hi Hd.
  simpl. rewrite Hmode, Hc, Hp. simpl.
  destruct (String.eqb_spec c "") as [?|_]; [done|].
  destruct (String.eqb_spec p "") as [?|_]; [done|]. simpl.
  match goal with
  | |- context [handleCheckoutSessionCompleted ?a] =>
      pose (op := OpHandleCheckoutSessionCompleted a)
  end.
  destruct (run_result op now st (reachable_store_ok st Hreach))
    as [[st1 Hrun]|(? & ? & _)]; [|done].
  pose proof (reach_commit st st1 op now Hreach Hrun) as Hreach1.
  assert (Hpay : table "payments" st1 = table "payments" st)
    by (by apply (run_frame op now st st1)).
  simpl in Hrun.
  unfold abind at 1. unfold runMutation at 1. rewrite Hrun.
  unfold abind, when, runMutation, updatePaymentCustomer. simpl. fold_records.
  rewrite (unique_found "payments" "stripePaymentIntentId" p st1 i d
             (reachable_store_ok st1 Hreach1) ltac:(in_keys)) by (by rewrite ?Hpay).
  simpl. destruct (truthy (d !! "stripeCustomerId")) eqn:Ht; simpl.
  - exists st1, d. split; [done|]. by rewrite Hpay.
  - eexists _, _. split; [done|]. split; [apply db_patch_frame; by rewrite Hpay|].
    rewrite patch_doc_lookup. split; [done|].
    intros f ?. rewrite patch_doc_lookup, assigned_not_in; [done | fields_apart].
Qed.

(** X8.  A [checkout.session.completed] event in payment mode that carries
    a customer and a payment intent, processed when the payment already
    has a record: the record's customer reference becomes the session's
    customer if it had none, stays what it was if it had one, and no other
    field of the payment changes. *)
Theorem checkout_backfills_payment_customer stripe session now st c p i d :
  reachable st →
  cs_mode session = Some "payment" →
  cs_customer session = Some c → c ≠ "" →
  cs_payment_intent session = Some p → p ≠ "" →
  table "payments" st !! i = Some d →
  d !! "stripePaymentIntentId" = Some (VStr p) →
  ∃ st' d',
    processEvent stripe (checkout_session_completed session) now st = (Ok tt, st')
    ∧ table "payments" st' !! i = Some d'
    ∧ d' !! "stripeCustomerId"
      = (if truthy (d !! "stripeCustomerId") then d !! "stripeCustomerId"
         else Some (VStr c))
    ∧ ∀ f, f ≠ "stripeCustomerId" → d' !! f = d !! f.
Proof. apply checkout_backfill. Qed.

Lemma checkout_backfills_payment_customer_witness :
  field_of "payments" 0 "stripeCustomerId" store_with_anonymous_payment = None
  ∧ ∃ st',
      processEvent offline_stripe (checkout_session_completed sample_session)
        one_second_later store_with_anonymous_payment = (Ok tt, st')
      ∧ field_of "payments" 0 "stripeCustomerId" st' = Some (VStr "cus_7")
      ∧ field_of "payments" 0 "userId" st' = Some (VStr "user_1").
Proof.
  split; [compute_done|].
  destruct (checkout_backfills_payment_customer offline_stripe sample_session
              one_second_later store_with_anonymous_payment "cus_7" "pi_1" 0
              sample_anonymous_payment_doc)
    as (st' & d' & Hrun & Hd' & Hc & Hframe);
    [| done | done | done | done | done | compute_done | compute_done |].
  { eapply (reach_commit ∅ _ (OpHandlePaymentIntentSucceeded sample_anonymous_payment)
              sample_time); [apply reach_empty | compute_done]. }
  exists st'. split; [done|]. unfold field_of. rewrite Hd'. simpl.
  rewrite Hc, Hframe by done. split; compute_done.
Defined.

(** ** Customers: storing and reading back *)

Lemma without_system_fields_lookup (d : Doc) f :
  f ≠ "_creationTime" → without_system_fields d !! f = d.2 !! f.
Proof. intros. unfold without_system_fields. by rewrite lookup_delete_ne. Qed.

Lemma customer_stored args now st :
  reachable st →
  ∃ st1 o,
    createOrUpdateCustomer args now st = Ok st1
    ∧ getCustomer (cu_stripeCustomerId args) st1 = Ok (Some o)
    ∧ o !! "stripeCustomerId" = Some (VStr (cu_stripeCustomerId args))
    ∧ o !! "email" = VStr <$> cu_email args
    ∧ o !! "name" = VStr <$> cu_name args
    ∧ o !! "metadata" = VObj <$> cu_metadata args
    ∧ o !! "_creationTime" = None.
Proof.
  intros Hok%reachable_store_ok. unfold createOrUpdateCustomer, getCustomer. fold_records.
  destruct (unique_total _ (Hok "customers" "stripeCustomerId"
              (cu_stripeCustomerId args) ltac:(in_keys)))
    as [[He Hu]|(i & d & He & Hu)]; rewrite Hu; simpl.
  - eexists _, _. split; [reflexivity|]. find_inserted.
    rewrite unique_singleton. simpl. split; [reflexivity|].
    rewrite !without_system_fields_lookup by done. simpl.
    rewrite !inserted_lookup by done. simpl.
    split_and!; try done. apply lookup_delete_eq.
  - assert (Hd : d !! "stripeCustomerId" = Some (VStr (cu_stripeCustomerId args))).
    { eapply (records_lookup "customers"). rewrite He. apply lookup_singleton_eq. }
    eexists _, _. split; [reflexivity|]. fold_records.
    rewrite records_db_patch, He, alter_singleton_eq by done.
    rewrite unique_singleton. simpl. split; [reflexivity|].
    rewrite !without_system_fields_lookup by done. simpl.
    rewrite !patch_doc_lookup. simpl.
    split_and!; try done. apply lookup_delete_eq.
Qed.

(** X9.  [createOrUpdateCustomer] followed by [getCustomer] for the same
    id returns a record whose id, email, name and metadata are exactly the
    arguments of the call (absent where the call left them out), and which
    does not expose the system creation time. *)
Theorem customer_round_trip args now st :
  reachable st →
  ∃ st1 o,
    createOrUpdateCustomer args now st = Ok st1
    ∧ getCustomer (cu_stripeCustomerId args) st1 = Ok (Some o)
    ∧ o !! "stripeCustomerId" = Some (VStr (cu_stripeCustomerId args))
    ∧ o !! "email" = VStr <$> cu_email args
    ∧ o !! "name" = VStr <$> cu_name args
    ∧ o !! "metadata" = VObj <$> cu_metadata args
    ∧ o !! "_creationTime" = None.
Proof. apply customer_stored. Qed.

Lemma customer_round_trip_witness :
  ∃ st1 o,
    createOrUpdateCustomer sample_customer_update one_second_later store_with_customer
    = Ok st1
    ∧ getCustomer "cus_1" st1 = Ok (Some o)
    ∧ o !! "name" = Some (VStr "Ada L.")
    ∧ o !! "email" = None.
Proof.
  destruct (customer_round_trip sample_customer_update one_second_later store_with_customer
              reachable_store_with_customer)
    as (st1 & o & H1 & H2 & _ & He & Hn & _).
  by exists st1, o.
Defined.

(** X10.  A [customer.created] event for a customer that has no record
    stores one that [getCustomer] returns: an email (name) that is [null]
    or the empty string is stored as absent, not as an empty string; a
    non-empty one is stored as it is; missing metadata is stored as the
    empty object. *)
Theorem customer_created_normalises stripe customer now st :
  size (records "customers" "stripeCustomerId" (c_id customer) st) = 0 →
  ∃ st' o,
    processEvent stripe (customer_created customer) now st = (Ok tt, st')
    ∧ getCustomer (c_id customer) st' = Ok (Some o)
    ∧ (∀ e, c_email customer = Some e → e ≠ "" → o !! "email" = Some (VStr e))
    ∧ (c_email customer = None ∨ c_email customer = Some "" → o !! "email" = None)
    ∧ (∀ n, c_name customer = Some n → n ≠ "" → o !! "name" = Some (VStr n))
    ∧ (c_name customer = None ∨ c_name customer = Some "" → o !! "name" = None)
    ∧ o !! "metadata" = Some (VObj (default ∅ (c_metadata customer))).
Proof.
  intros Hnone. simpl. unfold runMutation, handleCustomerCreated, getCustomer.
  simpl. fold_records. rewrite unique_absent by done. simpl.
  eexists _, _. split; [reflexivity|]. find_inserted.
  rewrite unique_singleton. simpl. split; [reflexivity|].
  rewrite !without_system_fields_lookup by done. simpl.
  rewrite !inserted_lookup by done. simpl. unfold or_undefined.
  split_and!; try done.
  - intros e -> Hne. simpl. by destruct (String.eqb_spec e "").
  - by intros [-> | ->].
  - intros n -> Hne. simpl. by destruct (String.eqb_spec n "").
  - by intros [-> | ->].
Qed.

Lemma customer_created_normalises_witness :
  ∃ st' o,
    processEvent offline_stripe (customer_created sample_customer_event) sample_time
      store_with_customer = (Ok tt, st')
    ∧ getCustomer "cus_3" st' = Ok (Some o)
    ∧ o !! "email" = None
    ∧ o !! "name" = Some (VStr "Grace")
    ∧ o !! "metadata" = Some (VObj ∅).
Proof.
  destruct (customer_created_normalises offline_stripe sample_customer_event sample_time
              store_with_customer)
    as (st' & o & H1 & H2 & _ & He & Hn & _ & Hm); [compute_done|].
  exists st', o. split_and!; [done | done | | | done].
  - apply He. by right.
  - by apply Hn.
Defined.

(** ** Creates never overwrite *)

(** X11.  The create handlers of customers, subscriptions and invoices are
    first-write-wins: when the key already has a record, a create with any
    other fields commits the store unchanged (so an [invoice.finalized]
    after [invoice.created] does not update the stored invoice). *)
Theorem create_keeps_existing_record op now st :
  plain_create op = true →
  size (target_records op st) = 1 →
  run op now st = Ok st.
Proof.
  intros Hop Hone.
  assert (Hu : ∃ i d, unique (target_records op st) = Ok (Some (i, d))).
  { destruct (unique_total (target_records op st)) as [[He _]|(i & d & _ & Hu)]; [lia | |by eauto].
    rewrite He, map_size_empty in Hone. done. }
  destruct Hu as (i & d & Hu).
  destruct op; try discriminate Hop; unfold target_records in Hu; simpl in *;
    lazymatch goal with
    | |- ?h _ _ _ = _ => unfold h
    end; fold_records; by rewrite Hu.
Qed.

Lemma create_keeps_existing_record_witness :
  processEvent offline_stripe (invoice_finalized sample_finalized_invoice) one_second_later
    store_with_invoice = (Ok tt, store_with_invoice)
  ∧ field_of "invoices" 0 "status" store_with_invoice = Some (VStr "open").
Proof.
  split; [|compute_done]. unfold processEvent, abind, remote, runMutation.
  change (v_optional_string (inv_subscription sample_finalized_invoice))
    with (Ok (Some "sub_1") : Result (option string)).
  cbv beta iota.
  match goal with
  | |- context [handleInvoiceCreated ?a] =>
      pose proof (create_keeps_existing_record (OpHandleInvoiceCreated a) one_second_later
                    store_with_invoice eq_refl ltac:(compute_done)) as Hrun
  end.
  unfold run in Hrun. by rewrite Hrun.
Defined.

(** ** What a subscription update writes *)

Lemma handleSubscriptionUpdated_existing args now st i d :
  store_ok st →
  table "subscriptions" st !! i = Some d →
  d !! "stripeSubscriptionId" = Some (VStr (su_stripeSubscriptionId args)) →
  ∃ st' d',
    handleSubscriptionUpdated args now st = Ok st'
    ∧ table "subscriptions" st' !! i = Some d'
    ∧ d' !! "status" = Some (VStr (su_status args))
    ∧ d' !! "currentPeriodEnd" = Some (VNum (su_currentPeriodEnd args))
    ∧ d' !! "cancelAtPeriodEnd" = Some (VBool (su_cancelAtPeriodEnd args))
    ∧ d' !! "quantity" = VNum <$> su_quantity args
    ∧ d' !! "metadata" = match su_metadata args with
                         | Some m => Some (VObj m)
                         | None => d !! "metadata"
                         end
    ∧ (∀ f, f = "orgId" ∨ f = "userId" →
         d' !! f = match su_metadata args ≫= (.!! f) with
                   | Some v => Some (VStr v)
                   | None => d !! f
                   end)
    ∧ (∀ f, f ≠ "status" → f ≠ "currentPeriodEnd" → f ≠ "cancelAtPeriodEnd" →
            f ≠ "quantity" → f ≠ "metadata" → f ≠ "orgId" → f ≠ "userId" →
            d' !! f = d !! f).
Proof.
  intros Hok Hi Hd. unfold handleSubscriptionUpdated. fold_records.
  rewrite (unique_found "subscriptions" "stripeSubscriptionId" _ st i d
             Hok ltac:(in_keys) Hi Hd). simpl.
  eexists _, _. split; [done|]. split; [by apply db_patch_frame|].
  rewrite !patch_doc_lookup.
  destruct (su_metadata args) as [m|]; simpl.
  - destruct (m !! "orgId") eqn:Ho, (m !! "userId") eqn:Hu; simpl;
      (split_and!; [done | done | done | by destruct (su_quantity args) | done | |]);
      try (intros f [-> | ->]; rewrite patch_doc_lookup; simpl; by rewrite ?Ho, ?Hu);
      intros f ? ? ? ? ? ? ?; rewrite patch_doc_lookup, assigned_not_in;
      (done || fields_apart).
  - rewrite !lookup_empty. simpl.
    split_and!; [done | done | done | by destruct (su_quantity args) | done | |].
    + intros f [-> | ->]; by rewrite patch_doc_lookup.
    + intros f ? ? ? ? ? ? ?. rewrite patch_doc_lookup, assigned_not_in;
        [done | fields_apart].
Qed.

(** X12.  For an existing subscription record, the subscription-update
    handler writes status, currentPeriodEnd and cancelAtPeriodEnd from the
    call, sets quantity to the call's value or removes it when the call
    has none, replaces the metadata bag only when the call carries one,
    and never changes any other field: the price, the customer reference,
    the subscription id and the creation time stay as stored. *)
Theorem subscription_update_writes args now st i d :
  reachable st →
  table "subscriptions" st !! i = Some d →
  d !! "stripeSubscriptionId" = Some (VStr (su_stripeSubscriptionId args)) →
  ∃ st' d',
    handleSubscriptionUpdated args now st = Ok st'
    ∧ table "subscriptions" st' !! i = Some d'
    ∧ d' !! "status" = Some (VStr (su_status args))
    ∧ d' !! "currentPeriodEnd" = Some (VNum (su_currentPeriodEnd args))
    ∧ d' !! "cancelAtPeriodEnd" = Some (VBool (su_cancelAtPeriodEnd args))
    ∧ d' !! "quantity" = VNum <$> su_quantity args
    ∧ d' !! "metadata" = match su_metadata args with
                         | Some m => Some (VObj m)
                         | None => d !! "metadata"
                         end
    ∧ d' !! "priceId" = d !! "priceId"
    ∧ d' !! "stripeCustomerId" = d !! "stripeCustomerId"
    ∧ d' !! "stripeSubscriptionId" = d !! "stripeSubscriptionId"
    ∧ d' !! "_creationTime" = d !! "_creationTime".
Proof.
  intros Hok%reachable_store_ok Hi Hd.
  destruct (handleSubscriptionUpdated_existing args now st i d Hok Hi Hd)
    as (st' & d' & Hrun & Hd' & Hs & He & Hc & Hq & Hm & _ & Hframe).
  exists st', d'. split_and!; try done; by apply Hframe.
Qed.

Lemma subscription_update_writes_witness :
  ∃ st',
    handleSubscriptionUpdated sample_subscription_update one_second_later
      store_with_subscription = Ok st'
    ∧ field_of "subscriptions" 0 "status" st' = Some (VStr "past_due")
    ∧ field_of "subscriptions" 0 "quantity" st' = Some (VNum 3)
    ∧ field_of "subscriptions" 0 "priceId" st' = Some (VStr "price_1").
Proof.
  destruct (subscription_update_writes sample_subscription_update one_second_later
              store_with_subscription 0 sample_subscription_doc)
    as (st' & d' & Hrun & Hd' & Hs & _ & _ & Hq & _ & Hp & _);
    [exact reachable_store_with_subscription | compute_done | compute_done |].
  exists st'. unfold field_of. rewrite Hd'. simpl. rewrite Hs, Hq, Hp.
  split_and!; [done | done | done | compute_done].
Defined.

(** ** Linking a subscription, then a webhook update *)

(** X13.  After the application links a subscription to an organisation
    and a user ([linkSubscriptionToOrg]), a later
    [customer.subscription.updated] event whose metadata names neither
    keeps both linkage fields; the metadata bag itself is replaced by the
    event's (the empty object when the event has none), so the [linkedAt]
    entry is gone. *)
Theorem linkage_survives_webhook_update stripe subscription org user linkedAt
    now now' st i d :
  reachable st →
  table "subscriptions" st !! i = Some d →
  d !! "stripeSubscriptionId" = Some (VStr (s_id subscription)) →
  s_metadata subscription ≫= (.!! "orgId") = None →
  s_metadata subscription ≫= (.!! "userId") = None →
  ∃ st1 st2,
    Example.linkSubscriptionToOrg (s_id subscription) org user linkedAt now st = Ok st1
    ∧ field_of "subscriptions" i "metadata" st1 = Some (VObj {[ "linkedAt" := linkedAt ]})
    ∧ processEvent stripe (customer_subscription_updated subscription) now' st1
      = (Ok tt, st2)
    ∧ field_of "subscriptions" i "orgId" st2 = Some (VStr org)
    ∧ field_of "subscriptions" i "userId" st2 = Some (VStr user)
    ∧ field_of "subscriptions" i "metadata" st2
      = Some (VObj (default ∅ (s_metadata subscription))).
Proof.
  intros Hreach Hi Hd Hno Hnu. pose proof (reachable_store_ok st Hreach) as Hok.
  set (margs := {| sm_stripeSubscriptionId := s_id subscription;
                   sm_metadata := VObj {[ "linkedAt" := linkedAt ]};
                   sm_orgId := Some org; sm_userId := Some user |}).
  assert (Hlink : ∃ st1 d1,
            updateSubscriptionMetadata margs now st = Ok st1
            ∧ table "subscriptions" st1 !! i = Some d1
            ∧ d1 !! "metadata" = Some (VObj {[ "linkedAt" := linkedAt ]})
            ∧ d1 !! "orgId" = Some (VStr org)
            ∧ d1 !! "userId" = Some (VStr user)
            ∧ d1 !! "stripeSubscriptionId" = Some (VStr (s_id subscription))).
  { unfold updateSubscriptionMetadata. fold_records.
    rewrite (unique_found "subscriptions" "stripeSubscriptionId"
               (sm_stripeSubscriptionId margs) st i d Hok ltac:(in_keys) Hi Hd). simpl.
    eexists _, _. split; [done|]. split; [by apply db_patch_frame|].
    rewrite !patch_doc_lookup. simpl. by split_and!. }
  destruct Hlink as (st1 & d1 & Hrun1 & Hi1 & Hm1 & Ho1 & Hu1 & Hk1).
  assert (Hreach1 : reachable st1)
    by exact (reach_commit st st1 (OpUpdateSubscriptionMetadata margs) now Hreach Hrun1).
  destruct (handleSubscriptionUpdated_existing (subscriptionUpdatedArgs subscription)
              now' st1 i d1 (reachable_store_ok st1 Hreach1) Hi1 Hk1)
    as (st2 & d2 & Hrun2 & Hi2 & _ & _ & _ & _ & Hm2 & Hl2 & _).
  exists st1, st2. unfold Example.linkSubscriptionToOrg. fold margs.
  split; [done|]. unfold field_of. rewrite Hi1, Hi2. simpl.
  split; [done|]. split; [by unfold runMutation; rewrite Hrun2|].
  rewrite !Hl2 by auto. simpl in *.
  assert (Ho : default ∅ (s_metadata subscription) !! "orgId" = None)
    by (destruct (s_metadata subscription); [done | apply lookup_empty]).
  assert (Hu : default ∅ (s_metadata subscription) !! "userId" = None)
    by (destruct (s_metadata subscription); [done | apply lookup_empty]).
  by rewrite Ho, Hu.
Qed.

Lemma linkage_survives_webhook_update_witness :
  ∃ st1 st2,
    Example.linkSubscriptionToOrg "sub_1" "org_2" "user_2" "2023-11-14T22:13:20.000Z"
      one_second_later store_with_subscription = Ok st1
    ∧ processEvent offline_stripe (customer_subscription_updated sample_bare_update)
        one_second_later st1 = (Ok tt, st2)
    ∧ field_of "subscriptions" 0 "orgId" st2 = Some (VStr "org_2")
    ∧ field_of "subscriptions" 0 "userId" st2 = Some (VStr "user_2")
    ∧ field_of "subscriptions" 0 "metadata" st2 = Some (VObj ∅).
Proof.
  destruct (linkage_survives_webhook_update offline_stripe sample_bare_update
              "org_2" "user_2" "2023-11-14T22:13:20.000Z" one_second_later one_second_later
              store_with_subscription 0 sample_subscription_doc)
    as (st1 & st2 & H1 & _ & H2 & H3 & H4 & H5);
    [exact reachable_store_with_subscription | compute_done | compute_done | done | done |].
  by exists st1, st2.
Defined.

(** ** The API key of the client *)

(** X14.  The client resolves its API key with [??]: the key of the
    options when one is given, even the empty string, else the
    environment's; and [apiKey] throws unless the resolved key is
    non-empty.  So an empty key in the options is not replaced by the
    environment's key and makes [apiKey] throw, whereas the webhook
    endpoint, which resolves with [||], falls back to the environment. *)
Theorem client_api_key_resolution options env :
  (∀ k, Client.apiKey (Client.new options env) = Ok k
        ↔ k ≠ "" ∧ (options = Some k
                    ∨ (options = None ∧ env_STRIPE_SECRET_KEY env = Some k)))
  ∧ (∀ e, Client.apiKey (Client.new options env) = Err e →
          e = "STRIPE_SECRET_KEY environment variable is not set")
  ∧ Client.apiKey (Client.new (Some "") env)
    = Err "STRIPE_SECRET_KEY environment variable is not set"
  ∧ (∀ config, STRIPE_SECRET_KEY config = Some "" →
               api_key env (Some config) = env_STRIPE_SECRET_KEY env).
Proof.
  split_and!.
  - intros k. unfold Client.apiKey, Client.new. simpl. split.
    + destruct options as [o|]; simpl.
      * destruct (String.eqb_spec o ""); simpl; [done|]. intros [= <-]. auto.
      * destruct (env_STRIPE_SECRET_KEY env) as [o|]; simpl; [|done].
        destruct (String.eqb_spec o ""); simpl; [done|]. intros [= <-]. auto.
    + intros [Hk [-> | [-> ->]]]; simpl; by destruct (String.eqb_spec k "").
  - intros e. unfold Client.apiKey. destruct (negb _); [by intros [= <-] | done].
  - done.
  - intros config Hc. unfold api_key, or_str. simpl. by rewrite Hc.
Qed.

(** ** Requests that do not pass the gates *)

(** X15.  Unless both secrets are configured, the signature header is
    present and verification succeeds, the endpoint leaves the store exactly
    as it was: a rejected request never reaches a handler or a hook. *)
Theorem rejected_request_leaves_store new_stripe env config req now st :
  ¬ secret_configured env config ∨ ¬ signature_present req
  ∨ ¬ api_key_configured env config
  ∨ (∃ e, verification new_stripe env config req = Err e) →
  (webhook new_stripe env config req now st).2 = st
  ∧ (response_status new_stripe env config req now st = 400%Z
     ∨ response_status new_stripe env config req now st = 500%Z).
Proof.
  unfold secret_configured, signature_present, api_key_configured, response_status.
  intros Hrej.
  destruct (webhook_cases new_stripe env config req now st)
    as [(Hs & ->) | [(Hs & Hsig & ->) | [(Hs & Hsig & Hk & ->) |
        [(Hs & Hsig & Hk & e & Hv & ->) |
         [(Hs & Hsig & Hk & event & e & st' & Hv & Hp & ->) |
          (Hs & Hsig & Hk & event & st' & Hv & Hp & ->)]]]]]; simpl; auto;
    destruct Hrej as [? | [? | [? | [e' He']]]]; congruence.
Qed.

Lemma rejected_request_leaves_store_witness :
  (webhook (λ _, sample_stripe) env_configured None signed_request one_second_later
     store_with_subscription).2 = store_with_subscription
  ∧ (response_status (λ _, sample_stripe) env_configured None signed_request
       one_second_later store_with_subscription = 400%Z
     ∨ response_status (λ _, sample_stripe) env_configured None signed_request
         one_second_later store_with_subscription = 500%Z).
Proof.
  apply (rejected_request_leaves_store (λ _, sample_stripe) env_configured None
           signed_request one_second_later store_with_subscription).
  do 3 right. by eexists.
Defined.

(** ** Hooks *)

(** X16.  When a request passes every gate and the default processing
    succeeds, but the generic [onEvent] hook throws, the endpoint answers
    [500] and the store is the one the hook left: what the default
    processing wrote is not rolled back, and the hook registered for the
    event's type is not run (the outcome does not depend on it). *)
Theorem hook_failure_keeps_default_processing new_stripe env config req now st
    event h e st1 st2 :
  secret_configured env (Some config) →
  signature_present req →
  api_key_configured env (Some config) →
  verification new_stripe env (Some config) req = Ok event →
  processEvent (new_stripe (default "" (api_key env (Some config)))) event now st
  = (Ok tt, st1) →
  onEvent config = Some h →
  h event st1 = (Err e, st2) →
  webhook new_stripe env (Some config) req now st
  = ({| status := 500; body := "Error processing webhook"; content_type := None |}, st2).
Proof.
  unfold secret_configured, signature_present, api_key_configured.
  intros Hs Hsig Hk Hv Hp Hh He.
  destruct (webhook_cases new_stripe env (Some config) req now st)
    as [(Hs' & _) | [(_ & Hsig' & _) | [(_ & _ & Hk' & _) |
        [(_ & _ & _ & e' & Hv' & _) |
         [(_ & _ & _ & event' & e' & st' & Hv' & Hp' & ->) |
          (_ & _ & _ & event' & st' & Hv' & Hp' & _)]]]]]; try congruence.
  - rewrite Hv in Hv'. simplify_eq.
    unfold process_with_hooks, abind in Hp'. rewrite Hp in Hp'. simpl in Hp'.
    rewrite Hh, He in Hp'. by simplify_eq.
  - rewrite Hv in Hv'. simplify_eq.
    unfold process_with_hooks, abind in Hp'. rewrite Hp in Hp'. simpl in Hp'.
    rewrite Hh, He in Hp'. by simplify_eq.
Qed.

Lemma hook_failure_keeps_default_processing_witness :
  ∃ st2,
    webhook (λ _, customer_event_stripe) env_configured (Some config_with_failing_hook)
      signed_request sample_time ∅
    = ({| status := 500; body := "Error processing webhook"; content_type := None |}, st2)
    ∧ size (records "customers" "stripeCustomerId" "cus_3" st2) = 1.
Proof.
  exists (processEvent customer_event_stripe (customer_created sample_customer_event)
            sample_time ∅).2.
  split; [|compute_done].
  apply (hook_failure_keeps_default_processing (λ _, customer_event_stripe) env_configured
           config_with_failing_hook signed_request sample_time ∅
           (customer_created sample_customer_event) failing_hook "hook failed"
           (processEvent customer_event_stripe (customer_created sample_customer_event)
              sample_time ∅).2);
    [compute_done | compute_done | compute_done | reflexivity | compute_done
    | reflexivity | reflexivity].
Defined.

(** ** Reading in index order *)

Lemma elem_of_collect_in_order (r : Table) x :
  x ∈ collect_in_order r ↔ r !! x.1 = Some x.2.
Proof.
  unfold collect_in_order. rewrite merge_sort_Permutation.
  destruct x as [i d]. apply elem_of_map_to_list.
Qed.

Lemma collect_in_order_empty (r : Table) : r = ∅ → collect_in_order r = [].
Proof. intros ->. unfold collect_in_order. by rewrite map_to_list_empty. Qed.

Lemma collect_in_order_nonempty (r : Table) i d :
  r !! i = Some d → ∃ x l, collect_in_order r = x :: l ∧ r !! x.1 = Some x.2.
Proof.
  intros Hi. destruct (collect_in_order r) as [|x l] eqn:Hc.
  - assert (Hin : (i, d) ∈ collect_in_order r) by by apply elem_of_collect_in_order.
    rewrite Hc in Hin. by apply elem_of_nil in Hin.
  - exists x, l. split; [done|]. apply elem_of_collect_in_order. rewrite Hc. apply list_elem_of_here.
Qed.

(** ** Finding or creating the customer of a user *)

(** X17.  When some subscription record carries the user's id,
    [getOrCreateCustomer] answers with the customer reference of one of the
    user's subscription records and [isNew = false]; it makes no remote
    call (the answer does not depend on the API key or the Stripe client)
    and leaves the store as it was. *)
Theorem existing_customer_is_reused connect self args now st j dj :
  table "subscriptions" st !! j = Some dj →
  dj !! "userId" = Some (VStr (Client.gc_userId args)) →
  ∃ i d,
    table "subscriptions" st !! i = Some d
    ∧ d !! "userId" = Some (VStr (Client.gc_userId args))
    ∧ Client.getOrCreateCustomer connect self args now st
      = (Ok {| Client.customerId := d !! "stripeCustomerId"; Client.isNew := false |}, st).
Proof.
  intros Hj Hu.
  destruct (collect_in_order_nonempty
              (withIndex "userId" (VStr (Client.gc_userId args)) (table "subscriptions" st))
              j dj) as ([i d] & l & Hc & Hx); [by apply withIndex_lookup|].
  apply withIndex_lookup in Hx as [Hi Hd]. simpl in *.
  exists i, d. split; [done|]. split; [done|].
  unfold Client.getOrCreateCustomer, abind, runQuery, listSubscriptionsByUserId.
  rewrite Hc. simpl. by rewrite without_system_fields_lookup.
Qed.

Lemma existing_customer_is_reused_witness :
  Client.getOrCreateCustomer (λ _, offline_client) (Client.new None env_without_secrets)
    sample_user one_second_later store_with_subscription
  = (Ok {| Client.customerId := Some (VStr "cus_1"); Client.isNew := false |},
     store_with_subscription).
Proof.
  destruct (existing_customer_is_reused (λ _, offline_client)
              (Client.new None env_without_secrets) sample_user one_second_later
              store_with_subscription 0 sample_subscription_doc)
    as (i & d & Hi & Hd & ->); [compute_done | compute_done |].
  do 2 f_equal.
  assert (Honly : ∀ k e, table "subscriptions" store_with_subscription !! k = Some e →
            e = sample_subscription_doc).
  { intros k e Hk.
    assert (Hdom : k ∈ dom (table "subscriptions" store_with_subscription))
      by (apply elem_of_dom; eauto).
    replace (dom (table "subscriptions" store_with_subscription)) with ({[0]} : gset nat)
      in Hdom by compute_done.
    apply elem_of_singleton in Hdom as ->.
    assert (Hk0 : table "subscriptions" store_with_subscription !! 0
                  = Some sample_subscription_doc) by compute_done.
    congruence. }
  rewrite (Honly i d Hi). compute_done.
Defined.

(** X18.  When no subscription and no payment record carries the user's
    id, [getOrCreateCustomer] creates the customer remotely with metadata
    [{ userId }] and the idempotency key [create_customer_<userId>]:
    - if the client has no API key or the remote create throws, the action
      throws and the store is as it was;
    - otherwise it answers [isNew = true] with the remote customer's id,
      and [getCustomer] for that id then returns a record with the user's
      email, name and the metadata [{ userId }]. *)
Theorem new_customer_is_created connect self args now st :
  reachable st →
  withIndex "userId" (VStr (Client.gc_userId args)) (table "subscriptions" st) = ∅ →
  withIndex "userId" (VStr (Client.gc_userId args)) (table "payments" st) = ∅ →
  (∀ e, Client.apiKey self = Err e →
        Client.getOrCreateCustomer connect self args now st = (Err e, st))
  ∧ (∀ key e,
       Client.apiKey self = Ok key →
       customers_create (writes (connect key)) (Client.gc_email args) (Client.gc_name args)
         (Some {[ "userId" := Client.gc_userId args ]})
         (Some ("create_customer_" +:+ Client.gc_userId args)) = Err e →
       truthy_str (Some (Client.gc_userId args)) = true →
       Client.getOrCreateCustomer connect self args now st = (Err e, st))
  ∧ (∀ key customer,
       Client.apiKey self = Ok key →
       customers_create (writes (connect key)) (Client.gc_email args) (Client.gc_name args)
         (Some {[ "userId" := Client.gc_userId args ]})
         (Some ("create_customer_" +:+ Client.gc_userId args)) = Ok customer →
       truthy_str (Some (Client.gc_userId args)) = true →
       ∃ st' o,
         Client.getOrCreateCustomer connect self args now st
         = (Ok {| Client.customerId := Some (VStr (c_id customer)); Client.isNew := true |},
            st')
         ∧ getCustomer (c_id customer) st' = Ok (Some o)
         ∧ o !! "email" = VStr <$> Client.gc_email args
         ∧ o !! "name" = VStr <$> Client.gc_name args
         ∧ o !! "metadata" = Some (VObj {[ "userId" := Client.gc_userId args ]})).
Proof.
  intros Hreach Hsubs Hpays.
  assert (Hstart :
            Client.getOrCreateCustomer connect self args now st
            = (result <-! Client.createCustomer connect self
                 {| Client.cc_email := Client.gc_email args;
                    Client.cc_name := Client.gc_name args;
                    Client.cc_metadata := Some {[ "userId" := Client.gc_userId args ]};
                    Client.cc_idempotencyKey := Some (Client.gc_userId args) |} now ;;
               aret {| Client.customerId := Some (VStr result); Client.isNew := true |}) st).
  { unfold Client.getOrCreateCustomer, listSubscriptionsByUserId,
      listPaymentsByUserId.
    unfold abind at 1. unfold runQuery at 1.
    rewrite (collect_in_order_empty _ Hsubs). simpl.
    unfold abind at 1. unfold runQuery at 1.
    by rewrite (collect_in_order_empty _ Hpays). }
  rewrite Hstart. clear Hstart. unfold Client.createCustomer, Client.sdk, Client.requestOptions. simpl.
  split_and!.
  - intros e He. unfold abind, remote. by rewrite He.
  - intros key e Hkey Hcreate Hid. unfold abind, remote, aret. rewrite Hkey. simpl in *.
    rewrite Hid. by rewrite Hcreate.
  - intros key customer Hkey Hcreate Hid.
    destruct (customer_stored
                {| cu_stripeCustomerId := c_id customer;
                   cu_email := Client.gc_email args;
                   cu_name := Client.gc_name args;
                   cu_metadata := Some {[ "userId" := Client.gc_userId args ]} |}
                now st Hreach) as (st' & o & Hrun & Hget & _ & He & Hn & Hm & _).
    exists st', o. unfold abind, remote, aret, runMutation. rewrite Hkey. simpl in *.
    rewrite Hid, Hcreate. simpl. rewrite Hrun. by split_and!.
Qed.

Lemma new_customer_is_created_witness :
  ∃ st' o,
    Client.getOrCreateCustomer (λ _, sample_client) sample_self sample_new_user
      one_second_later store_with_subscription
    = (Ok {| Client.customerId := Some (VStr "cus_9"); Client.isNew := true |}, st')
    ∧ getCustomer "cus_9" st' = Ok (Some o)
    ∧ o !! "email" = Some (VStr "eve@example.com")
    ∧ o !! "metadata" = Some (VObj {[ "userId" := "user_5" ]}).
Proof.
  destruct (new_customer_is_created (λ _, sample_client) sample_self sample_new_user
              one_second_later store_with_subscription
              reachable_store_with_subscription)
    as (_ & _ & Hnew); [compute_done | compute_done |].
  destruct (Hnew "sk_test" {| c_id := "cus_9"; c_email := Some "eve@example.com";
                             c_name := None;
                             c_metadata := Some {[ "userId" := "user_5" ]} |})
    as (st' & o & Hrun & Hget & He & _ & Hm); [done | done | done |].
  by exists st', o.
Defined.

(** ** Cancelling through the client *)

(** X19.  [cancelSubscription] of the client:
    - whenever it throws (no API key, or the remote call fails) the store
      is as it was;
    - it calls [subscriptions.update] with [cancel_at_period_end: true]
      unless the caller passes [cancelAtPeriodEnd = false], in which case
      it calls [subscriptions.cancel];
    - when the remote call succeeds, the local record of the returned
      subscription takes the status and the [cancel_at_period_end] flag of
      the response (false when the response has none), and keeps its
      [orgId]/[userId] when the response's metadata names none. *)
Theorem cancel_subscription_syncs connect self args now st :
  reachable st →
  (∀ e, (Client.cancelSubscription connect self args now st).1 = Err e →
        (Client.cancelSubscription connect self args now st).2 = st)
  ∧ (∀ key subscription i d,
       Client.apiKey self = Ok key →
       match Client.ca_cancelAtPeriodEnd args with
       | Some false =>
           subscriptions_cancel (writes (connect key)) (Client.ca_stripeSubscriptionId args)
       | _ =>
           subscriptions_update (writes (connect key)) (Client.ca_stripeSubscriptionId args)
             true
       end = Ok subscription →
       table "subscriptions" st !! i = Some d →
       d !! "stripeSubscriptionId" = Some (VStr (s_id subscription)) →
       ∃ st' d',
         Client.cancelSubscription connect self args now st = (Ok tt, st')
         ∧ table "subscriptions" st' !! i = Some d'
         ∧ d' !! "status" = Some (VStr (s_status subscription))
         ∧ d' !! "cancelAtPeriodEnd"
           = Some (VBool (default false (s_cancel_at_period_end subscription)))
         ∧ (∀ f, f = "orgId" ∨ f = "userId" →
              s_metadata subscription ≫= (.!! f) = None → d' !! f = d !! f)).
Proof.
  intros Hreach. pose proof (reachable_store_ok st Hreach) as Hok.
  unfold Client.cancelSubscription, Client.sdk. split.
  - intros e. unfold abind, remote, aret, runMutation.
    destruct (Client.apiKey self) as [key|?]; simpl; [|done].
    destruct (if default true (Client.ca_cancelAtPeriodEnd args) then _ else _)
      as [subscription|?]; simpl; [|done].
    by destruct (handleSubscriptionUpdated _ now st).
  - intros key subscription i d Hkey Hremote Hi Hd.
    destruct (handleSubscriptionUpdated_existing (subscriptionUpdatedArgs subscription)
                now st i d Hok Hi Hd)
      as (st' & d' & Hrun & Hi' & Hs & _ & Hc & _ & _ & Hl & _).
    exists st', d'. unfold abind, remote, aret, runMutation. rewrite Hkey. simpl.
    assert (Hcall : (if default true (Client.ca_cancelAtPeriodEnd args)
                     then subscriptions_update (writes (connect key))
                            (Client.ca_stripeSubscriptionId args) true
                     else subscriptions_cancel (writes (connect key))
                            (Client.ca_stripeSubscriptionId args)) = Ok subscription).
    { by destruct (Client.ca_cancelAtPeriodEnd args) as [[]|]. }
    rewrite Hcall. simpl. rewrite Hrun. split_and!; try done.
    intros f Hf Hnone. rewrite (Hl f Hf). simpl.
    destruct (s_metadata subscription) as [m|]; simpl in *.
    + by rewrite Hnone.
    + rewrite lookup_empty. done.
Qed.

Lemma cancel_subscription_syncs_witness :
  (Client.cancelSubscription (λ _, offline_client) sample_self
     {| Client.ca_stripeSubscriptionId := "sub_1"; Client.ca_cancelAtPeriodEnd := None |}
     one_second_later store_with_subscription).2 = store_with_subscription
  ∧ ∃ st',
      Client.cancelSubscription (λ _, sample_client) sample_self
        {| Client.ca_stripeSubscriptionId := "sub_1"; Client.ca_cancelAtPeriodEnd := None |}
        one_second_later store_with_subscription = (Ok tt, st')
      ∧ field_of "subscriptions" 0 "cancelAtPeriodEnd" st' = Some (VBool true)
      ∧ field_of "subscriptions" 0 "orgId" st' = Some (VStr "org_1").
Proof.
  split.
  - destruct (cancel_subscription_syncs (λ _, offline_client) sample_self
                {| Client.ca_stripeSubscriptionId := "sub_1";
                   Client.ca_cancelAtPeriodEnd := None |}
                one_second_later store_with_subscription
                reachable_store_with_subscription) as [Herr _].
    by apply (Herr "offline").
  - destruct (cancel_subscription_syncs (λ _, sample_client) sample_self
                {| Client.ca_stripeSubscriptionId := "sub_1";
                   Client.ca_cancelAtPeriodEnd := None |}
                one_second_later store_with_subscription
                reachable_store_with_subscription) as [_ Hok].
    destruct (Hok "sk_test" (sample_remote_subscription true) 0 sample_subscription_doc)
      as (st' & d' & Hrun & Hd' & _ & Hc & Hl); [done | done | compute_done | compute_done |].
    exists st'. split; [done|]. unfold field_of. rewrite Hd'. simpl.
    rewrite Hc, (Hl "orgId") by auto. split; [done | compute_done].
Defined.

(** ** The ownership check of the example application *)





(** ** One-time payments through the router *)

Lemma payment_intent_inserted stripe paymentIntent now st :
  is_subscription_payment stripe paymentIntent = false →
  size (records "payments" "stripePaymentIntentId" (pi_id paymentIntent) st) = 0 →
  ∃ st' o,
    processEvent stripe (payment_intent_succeeded paymentIntent) now st = (Ok tt, st')
    ∧ getPayment (pi_id paymentIntent) st' = Ok (Some o)
    ∧ (∀ c, pi_customer paymentIntent = Some c → c ≠ "" →
            o !! "stripeCustomerId" = Some (VStr c))
    ∧ (pi_customer paymentIntent = None ∨ pi_customer paymentIntent = Some "" →
       o !! "stripeCustomerId" = None)
    ∧ o !! "amount" = Some (VNum (pi_amount paymentIntent))
    ∧ o !! "currency" = Some (VStr (pi_currency paymentIntent))
    ∧ o !! "status" = Some (VStr (pi_status paymentIntent))
    ∧ o !! "orgId" = VStr <$> (pi_metadata paymentIntent ≫= (.!! "orgId"))
    ∧ o !! "userId" = VStr <$> (pi_metadata paymentIntent ≫= (.!! "userId"))
    ∧ (∀ name, name ≠ "payments" → table name st' = table name st).
Proof.
  intros Hguard Hnone. rewrite payment_intent_dispatch by done.
  unfold runMutation, handlePaymentIntentSucceeded, getPayment. simpl. fold_records.
  rewrite unique_absent by done. simpl.
  eexists _, _. split; [reflexivity|]. find_inserted.
  rewrite unique_singleton. simpl. split; [reflexivity|].
  rewrite !without_system_fields_lookup by done. simpl.
  rewrite !inserted_lookup by done. simpl. unfold or_undefined.
  split_and!; try done.
  - intros c -> Hne. simpl. by destruct (String.eqb_spec c "").
  - by intros [-> | ->].
  - by destruct (pi_metadata paymentIntent) as [m|]; simpl;
      [destruct (m !! "orgId") | rewrite lookup_empty].
  - by destruct (pi_metadata paymentIntent) as [m|]; simpl;
      [destruct (m !! "userId") | rewrite lookup_empty].
  - intros name Hname. by apply db_insert_other_table.
Qed.

(** X21.  A [payment_intent.succeeded] event that passes the invoice guard
    and whose payment has no record is recorded whatever subscriptions the
    store holds: [getPayment] then returns its amount, currency and status,
    the customer when the event names a non-empty one (none otherwise), and
    [orgId]/[userId] read from the event's metadata; no other table changes. *)
Theorem payment_intent_is_recorded stripe paymentIntent now st :
  is_subscription_payment stripe paymentIntent = false →
  size (records "payments" "stripePaymentIntentId" (pi_id paymentIntent) st) = 0 →
  ∃ st' o,
    processEvent stripe (payment_intent_succeeded paymentIntent) now st = (Ok tt, st')
    ∧ getPayment (pi_id paymentIntent) st' = Ok (Some o)
    ∧ (∀ c, pi_customer paymentIntent = Some c → c ≠ "" →
            o !! "stripeCustomerId" = Some (VStr c))
    ∧ (pi_customer paymentIntent = None ∨ pi_customer paymentIntent = Some "" →
       o !! "stripeCustomerId" = None)
    ∧ o !! "amount" = Some (VNum (pi_amount paymentIntent))
    ∧ o !! "currency" = Some (VStr (pi_currency paymentIntent))
    ∧ o !! "status" = Some (VStr (pi_status paymentIntent))
    ∧ o !! "orgId" = VStr <$> (pi_metadata paymentIntent ≫= (.!! "orgId"))
    ∧ o !! "userId" = VStr <$> (pi_metadata paymentIntent ≫= (.!! "userId"))
    ∧ (∀ name, name ≠ "payments" → table name st' = table name st).
Proof. apply payment_intent_inserted. Qed.

Lemma payment_intent_is_recorded_witness :
  ∃ st' o,
    processEvent offline_stripe (payment_intent_succeeded sample_payment_intent)
      one_second_later store_with_subscription = (Ok tt, st')
    ∧ getPayment "pi_2" st' = Ok (Some o)
    ∧ o !! "stripeCustomerId" = Some (VStr "cus_1")
    ∧ o !! "amount" = Some (VNum 4900).
Proof.
  destruct (payment_intent_is_recorded offline_stripe sample_payment_intent
              one_second_later store_with_subscription)
    as (st' & o & Hrun & Hget & Hc & _ & Ha & _); [done | compute_done |].
  exists st', o. split_and!; [done | done | by apply Hc | done].
Defined.

(** ** The order of checkout completion and payment *)

(** X22.  The backfill depends on the order of delivery.  For a payment
    intent that names no customer and a payment-mode checkout session that
    names one, starting without a record of the payment:
    - payment first, checkout second: the payment ends with the session's
      customer;
    - checkout first, payment second: the backfill finds no record, and the
      payment ends without a customer. *)
Theorem backfill_depends_on_order stripe paymentIntent session now st c :
  reachable st →
  size (records "payments" "stripePaymentIntentId" (pi_id paymentIntent) st) = 0 →
  pi_customer paymentIntent = None →
  pi_invoice paymentIntent = None →
  pi_id paymentIntent ≠ "" →
  cs_mode session = Some "payment" →
  cs_customer session = Some c → c ≠ "" →
  cs_payment_intent session = Some (pi_id paymentIntent) →
  (∃ st1 st2 o,
     processEvent stripe (payment_intent_succeeded paymentIntent) now st = (Ok tt, st1)
     ∧ processEvent stripe (checkout_session_completed session) now st1 = (Ok tt, st2)
     ∧ getPayment (pi_id paymentIntent) st2 = Ok (Some o)
     ∧ o !! "stripeCustomerId" = Some (VStr c))
  ∧ (∃ st1 st2 o,
       processEvent stripe (checkout_session_completed session) now st = (Ok tt, st1)
       ∧ processEvent stripe (payment_intent_succeeded paymentIntent) now st1 = (Ok tt, st2)
       ∧ getPayment (pi_id paymentIntent) st2 = Ok (Some o)
       ∧ o !! "stripeCustomerId" = None).
Proof.
  intros Hreach Hnone Hcust Hinv Hid Hmode Hc Hcne Hp.
  assert (Hguard : is_subscription_payment stripe paymentIntent = false)
    by (unfold is_subscription_payment; by rewrite Hinv).
  split.
  - (* payment, then checkout *)
    destruct (payment_intent_inserted stripe paymentIntent now st Hguard Hnone)
      as (st1 & o & Hrun1 & Hget1 & _ & Habsent & _).
    destruct (default_processing_total stripe (payment_intent_succeeded paymentIntent)
                now st ltac:(by intros ? [?|?]) Hreach) as (st1' & Hrun1' & Hreach1).
    assert (st1' = st1) by congruence. subst st1'.
    unfold getPayment in Hget1. fold_records_in Hget1.
    destruct (unique (records "payments" "stripePaymentIntentId" (pi_id paymentIntent) st1))
      as [[[i d]|]|] eqn:Hu; simpl in Hget1; simplify_eq.
    apply unique_records_inv in Hu as Hid'. destruct Hid' as [Hi Hd].
    destruct (checkout_backfill stripe session now st1 c (pi_id paymentIntent) i d
                Hreach1 Hmode Hc Hcne Hp Hid Hi Hd)
      as (st2 & d' & Hrun2 & Hi' & Hc' & Hframe).
    assert (Hno : d !! "stripeCustomerId" = None).
    { rewrite <- (without_system_fields_lookup (i, d)) by done. apply Habsent. by left. }
    rewrite Hno in Hc'. simpl in Hc'.
    destruct (default_processing_total stripe (checkout_session_completed session)
                now st1 ltac:(by intros ? [?|?]) Hreach1) as (st2' & Hrun2' & Hreach2).
    assert (st2' = st2) by congruence. subst st2'.
    exists st1, st2, (without_system_fields (i, d')). split_and!; [done | done | |].
    + unfold getPayment. fold_records.
      rewrite (unique_found "payments" "stripePaymentIntentId" _ st2 i d'
                 (reachable_store_ok st2 Hreach2) ltac:(in_keys) Hi'); [done|].
      by rewrite Hframe.
    + by rewrite without_system_fields_lookup.
  - (* checkout, then payment *)
    destruct (default_processing_total stripe (checkout_session_completed session)
                now st ltac:(by intros ? [?|?]) Hreach) as (st1 & Hrun1 & Hreach1).
    assert (Hpay : table "payments" st1 = table "payments" st).
    { pose proof Hrun1 as Hrun. simpl in Hrun. rewrite Hmode, Hc, Hp in Hrun. simpl in Hrun.
      destruct (String.eqb_spec c "") as [?|_]; [done|].
      destruct (String.eqb_spec (pi_id paymentIntent) "") as [?|_]; [done|].
      simpl in Hrun. unfold abind, when, runMutation, aret in Hrun.
      match type of Hrun with
      | context [handleCheckoutSessionCompleted ?a now st] =>
          destruct (handleCheckoutSessionCompleted a now st) as [s1|?] eqn:H1;
          [pose proof (run_frame (OpHandleCheckoutSessionCompleted a) now st s1
                         "payments" H1 ltac:(done)) as Hf1 | by simplify_eq]
      end.
      unfold updatePaymentCustomer in Hrun. simpl in Hrun. fold_records_in Hrun.
      assert (Hu : unique (records "payments" "stripePaymentIntentId"
                             (pi_id paymentIntent) s1) = Ok None).
      { apply unique_None. unfold records. rewrite Hf1.
        by apply map_size_empty_iff. }
      rewrite Hu in Hrun. simpl in Hrun. by simplify_eq. }
    assert (Hnone1 : size (records "payments" "stripePaymentIntentId"
                             (pi_id paymentIntent) st1) = 0)
      by (unfold records in *; by rewrite Hpay).
    destruct (payment_intent_inserted stripe paymentIntent now st1 Hguard Hnone1)
      as (st2 & o & Hrun2 & Hget2 & _ & Habsent & _).
    exists st1, st2, o. split_and!; [done | done | done |]. apply Habsent. by left.
Qed.

Lemma backfill_depends_on_order_witness :
  (∃ st1 st2 o,
     processEvent offline_stripe (payment_intent_succeeded sample_guest_payment_intent)
       sample_time ∅ = (Ok tt, st1)
     ∧ processEvent offline_stripe (checkout_session_completed sample_session)
         sample_time st1 = (Ok tt, st2)
     ∧ getPayment "pi_1" st2 = Ok (Some o)
     ∧ o !! "stripeCustomerId" = Some (VStr "cus_7"))
  ∧ (∃ st1 st2 o,
       processEvent offline_stripe (checkout_session_completed sample_session)
         sample_time ∅ = (Ok tt, st1)
       ∧ processEvent offline_stripe (payment_intent_succeeded sample_guest_payment_intent)
           sample_time st1 = (Ok tt, st2)
       ∧ getPayment "pi_1" st2 = Ok (Some o)
       ∧ o !! "stripeCustomerId" = None).
Proof.
  apply (backfill_depends_on_order offline_stripe sample_guest_payment_intent sample_session
           sample_time ∅ "cus_7"); [apply reach_empty | compute_done | done..].
Defined.

(** ** Invoices of an organisation *)

(** X23.  When a subscription record is linked to an organisation, a new
    invoice for that subscription is returned by [listInvoicesByOrgId] for
    the organisation, without the system creation time. *)
Theorem invoice_is_listed_for_organisation args now st sid j ds org :
  reachable st →
  size (records "invoices" "stripeInvoiceId" (ic_stripeInvoiceId args) st) = 0 →
  ic_stripeSubscriptionId args = Some sid → sid ≠ "" →
  table "subscriptions" st !! j = Some ds →
  ds !! "stripeSubscriptionId" = Some (VStr sid) →
  ds !! "orgId" = Some (VStr org) →
  ∃ st' o,
    handleInvoiceCreated args now st = Ok st'
    ∧ o ∈ listInvoicesByOrgId org st'
    ∧ o !! "stripeInvoiceId" = Some (VStr (ic_stripeInvoiceId args))
    ∧ o !! "orgId" = Some (VStr org)
    ∧ o !! "_creationTime" = None.
Proof.
  intros Hreach Hnone Hsid Hne Hj Hds Horg.
  destruct (invoice_linkage args now st Hreach Hnone)
    as (st' & i & d & Hrun & Hrec & Hcopy & _).
  destruct (Hcopy sid j ds Hsid Hne Hj Hds) as [Ho _]. rewrite Horg in Ho.
  assert (Hin : records "invoices" "stripeInvoiceId" (ic_stripeInvoiceId args) st' !! i
                = Some d) by (rewrite Hrec; apply lookup_singleton_eq).
  apply records_lookup in Hin as [Hi Hd].
  exists st', (without_system_fields (i, d)). split; [done|]. split_and!.
  - unfold listInvoicesByOrgId. apply list_elem_of_fmap. exists (i, d). split; [done|].
    apply elem_of_collect_in_order. simpl. by apply withIndex_lookup.
  - by rewrite without_system_fields_lookup.
  - by rewrite without_system_fields_lookup.
  - apply lookup_delete_eq.
Qed.

Lemma invoice_is_listed_for_organisation_witness :
  ∃ st' o,
    handleInvoiceCreated sample_invoice_args one_second_later store_with_subscription = Ok st'
    ∧ o ∈ listInvoicesByOrgId "org_1" st'
    ∧ o !! "stripeInvoiceId" = Some (VStr "in_1").
Proof.
  destruct (invoice_is_listed_for_organisation sample_invoice_args one_second_later
              store_with_subscription "sub_1" 0 sample_subscription_doc "org_1")
    as (st' & o & H1 & H2 & H3 & _);
    [exact reachable_store_with_subscription | compute_done | done | done
    | compute_done | compute_done | compute_done |].
  by exists st', o.
Defined.

(** ** Checkout session parameters *)

(** The parameters [createCheckoutSession] sends: subscription
    metadata is attached only in subscription mode and payment-intent
    metadata only in payment mode, so never both; the quantity defaults to
    [1] and the metadata to the empty object; an empty customer id is not
    sent.  Without an API key the method throws before any remote call and
    the store is as it was. *)
Theorem checkout_session_parameters connect self args st :
  (scp_subscription_data (Client.sessionParams args)
   = if bool_decide (Client.ch_mode args = "subscription")
     then Client.ch_subscriptionMetadata args else None)
  ∧ (scp_payment_intent_data (Client.sessionParams args)
     = if bool_decide (Client.ch_mode args = "payment")
       then Client.ch_paymentIntentMetadata args else None)
  ∧ (scp_subscription_data (Client.sessionParams args) = None
     ∨ scp_payment_intent_data (Client.sessionParams args) = None)
  ∧ (Client.ch_quantity args = None → scp_quantity (Client.sessionParams args) = 1%Z)
  ∧ (Client.ch_customerId args = Some "" →
     scp_customer (Client.sessionParams args) = None)
  ∧ (∀ e, Client.apiKey self = Err e →
          Client.createCheckoutSession connect self args st = (Err e, st))
  ∧ (∀ key, Client.apiKey self = Ok key →
            Client.createCheckoutSession connect self args st
            = (checkout_sessions_create (writes (connect key)) (Client.sessionParams args),
               st)).
Proof.
  unfold Client.sessionParams. simpl. split_and!.
  - by destruct (String.eqb_spec (Client.ch_mode args) "subscription");
      [rewrite bool_decide_eq_true_2 | rewrite bool_decide_eq_false_2].
  - by destruct (String.eqb_spec (Client.ch_mode args) "payment");
      [rewrite bool_decide_eq_true_2 | rewrite bool_decide_eq_false_2].
  - destruct (String.eqb_spec (Client.ch_mode args) "subscription") as [->|]; auto.
  - by intros ->.
  - by intros ->.
  - intros e He. unfold Client.createCheckoutSession, Client.sdk, abind, remote.
    by rewrite He.
  - intros key Hk. unfold Client.createCheckoutSession, Client.sdk, abind, remote, aret.
    rewrite Hk. simpl.
    by destruct (checkout_sessions_create _ _).
Qed.
